(** * Roof synthesis and solar suitability scoring

  A shallow embedding of the roof generators of [Nevim.py] and of the
  suitability scorer of [testovani_08_05.py].

  Python floats are modelled as real numbers ([R]): rounding is not
  modelled, every arithmetic operation is exact.  Python exceptions are
  modelled by the [result] type of module [Py]. *)

From Stdlib Require Import Reals Lra Lia List String ZArith Bool Permutation
  Sorted.
Import ListNotations.
Open Scope string_scope.
Open Scope list_scope.
Open Scope R_scope.

(** ** The pieces of the Python runtime the code relies on *)

Module Py.

Inductive exn : Set :=
  | ValueError          (* min()/max() of an empty sequence *)
  | ZeroDivisionError   (* x / 0 *)
  | AssertionError.     (* Face3D(...) of fewer than three vertices *)

Inductive result (A : Type) : Type :=
  | Ok (a : A)
  | Raise (e : exn).
Arguments Ok {A} a.
Arguments Raise {A} e.

Definition bind {A B : Type} (m : result A) (k : A -> result B) : result B :=
  match m with
  | Ok a => k a
  | Raise e => Raise e
  end.

(** [min(...)] and [max(...)] over a sequence: the running best is kept
    while iterating; an empty sequence raises [ValueError]. *)
Definition min (l : list R) : result R :=
  match l with
  | [] => Raise ValueError
  | x :: t => Ok (fold_left Rmin t x)
  end.

Definition max (l : list R) : result R :=
  match l with
  | [] => Raise ValueError
  | x :: t => Ok (fold_left Rmax t x)
  end.

(** [sum(...)], starting from 0. *)
Definition sum (l : list R) : R := fold_left Rplus l 0.

(** [a / b] on numbers. *)
Definition truediv (a b : R) : result R :=
  if Req_dec_T b 0 then Raise ZeroDivisionError else Ok (a / b).

(** [int(x)] on a float: truncation toward zero. *)
Definition int (x : R) : Z :=
  if Rle_dec 0 x then Int_part x else (- Int_part (- x))%Z.

(** [math.radians]. *)
Definition radians (deg : R) : R := deg * (PI / 180).

(** [range(n)] for an integer [n]: empty when [n <= 0]. *)
Definition range (n : Z) : list nat := seq 0 (Z.to_nat n).

(** [d.get(key, default)] on an optional entry. *)
Definition get {A : Type} (entry : option A) (default : A) : A :=
  match entry with
  | Some v => v
  | None => default
  end.

End Py.

Notation "x <- m ;; k" := (Py.bind m (fun x => k))
  (at level 61, m at next level, right associativity).
Notation "' pat <- m ;; k" := (Py.bind m (fun pat => k))
  (at level 61, pat pattern, m at next level, right associativity).

Import Py(result, Ok, Raise, ValueError, ZeroDivisionError, AssertionError).

(** ** The part of ladybug_geometry the code uses *)

Module Geometry.

Record Point3D : Type := mkPoint3D { px : R; py : R; pz : R }.

Record Vector3D : Type := mkVector3D { vx : R; vy : R; vz : R }.

Definition dot (a b : Vector3D) : R :=
  vx a * vx b + vy a * vy b + vz a * vz b.

Definition magnitude (a : Vector3D) : R :=
  sqrt (vx a * vx a + vy a * vy a + vz a * vz a).

Definition reverse (a : Vector3D) : Vector3D :=
  mkVector3D (- vx a) (- vy a) (- vz a).

(** [Vector3D.normalize]: a zero vector is returned unchanged. *)
Definition normalize (a : Vector3D) : Vector3D :=
  let d := magnitude a in
  if Req_dec_T d 0 then a
  else mkVector3D (vx a / d) (vy a / d) (vz a / d).

(** [Vector3D.angle]: [acos] of the normalised dot product.  The library
    clamps a quotient that left [-1, 1] to the nearest end, which is what
    [acos] of the standard library does outside that interval.  Both
    vectors are assumed to be non-zero. *)
Definition angle (a b : Vector3D) : R :=
  acos (dot a b / (magnitude a * magnitude b)).

(** A [Face3D] keeps the boundary vertices it was built from, in order. *)
Record Face3D : Type := mkFace3D { vertices : list Point3D }.

(** [Face3D(boundary)] on a list whose length is not known beforehand: the
    constructor asserts that there are at least three vertices.  Where the
    source builds a face from three or four points written out, [mkFace3D]
    is used directly. *)
Definition new_Face3D (boundary : list Point3D) : result Face3D :=
  if (List.length boundary <? 3)%nat then Raise AssertionError
  else Ok (mkFace3D boundary).

End Geometry.

Import Geometry.

(** ** Nevim.py: the roof generators *)

Module Nevim.

(** The four statements every generator starts with:
    [min_x, max_x, min_y, max_y] of the footprint. *)
Definition bounds (footprint : list Point3D) : result (R * R * R * R) :=
  min_x <- Py.min (map px footprint) ;;
  max_x <- Py.max (map px footprint) ;;
  min_y <- Py.min (map py footprint) ;;
  max_y <- Py.max (map py footprint) ;;
  Ok (min_x, max_x, min_y, max_y).

Definition create_flat_roof (footprint : list Point3D) (height : R)
    (roof_thickness slope : R) : result Face3D :=
  center_x <- Py.truediv (Py.sum (map px footprint)) (INR (List.length footprint)) ;;
  center_y <- Py.truediv (Py.sum (map py footprint)) (INR (List.length footprint)) ;;
  let roof_pts :=
    map (fun pt =>
           let dist_from_center :=
             sqrt ((px pt - center_x) ^ 2 + (py pt - center_y) ^ 2) in
           let roof_z :=
             height + roof_thickness - (dist_from_center * slope / 100) in
           mkPoint3D (px pt) (py pt) roof_z)
        footprint in
  new_Face3D roof_pts.

(** The list [bottom_pts] (the footprint sorted by (x, y)) is computed by
    the source and never used; it is left out. *)
Definition create_gable_roof (footprint : list Point3D) (height : R)
    (roof_height : R) (axis : string) (slope_angle : R)
    : result (list Face3D) :=
  '(min_x, max_x, min_y, max_y) <- bounds footprint ;;
  let width := max_x - min_x in
  let depth := max_y - min_y in
  let span := if axis =? "y" then width / 2 else depth / 2 in
  let adjusted_height := span * tan (Py.radians slope_angle) in
  let roof_height := Rmax roof_height adjusted_height in
  if axis =? "y" then
    let mid_x := (min_x + max_x) / 2 in
    let ridge_pt1 := mkPoint3D mid_x min_y (height + roof_height) in
    let ridge_pt2 := mkPoint3D mid_x max_y (height + roof_height) in
    let roof_face1 := mkFace3D
      [ mkPoint3D min_x min_y height; mkPoint3D min_x max_y height;
        ridge_pt2; ridge_pt1 ] in
    let roof_face2 := mkFace3D
      [ mkPoint3D max_x min_y height; mkPoint3D max_x max_y height;
        ridge_pt2; ridge_pt1 ] in
    let gable1 := mkFace3D
      [ mkPoint3D min_x min_y height; mkPoint3D max_x min_y height;
        ridge_pt1 ] in
    let gable2 := mkFace3D
      [ mkPoint3D min_x max_y height; mkPoint3D max_x max_y height;
        ridge_pt2 ] in
    Ok ([roof_face1; roof_face2] ++ [gable1; gable2])
  else
    let mid_y := (min_y + max_y) / 2 in
    let ridge_pt1 := mkPoint3D min_x mid_y (height + roof_height) in
    let ridge_pt2 := mkPoint3D max_x mid_y (height + roof_height) in
    let roof_face1 := mkFace3D
      [ mkPoint3D min_x min_y height; mkPoint3D max_x min_y height;
        ridge_pt2; ridge_pt1 ] in
    let roof_face2 := mkFace3D
      [ mkPoint3D min_x max_y height; mkPoint3D max_x max_y height;
        ridge_pt2; ridge_pt1 ] in
    let gable1 := mkFace3D
      [ mkPoint3D min_x min_y height; mkPoint3D min_x max_y height;
        ridge_pt1 ] in
    let gable2 := mkFace3D
      [ mkPoint3D max_x min_y height; mkPoint3D max_x max_y height;
        ridge_pt2 ] in
    Ok ([roof_face1; roof_face2] ++ [gable1; gable2]).

(** [corner_pts[i]] for [i] in [0..3] (the index is always in range in the
    source: it is [i] or [(i+1) % 4]). *)
Definition corner (pts : list Point3D) (i : nat) : Point3D :=
  nth i pts (mkPoint3D 0 0 0).

Definition create_hip_roof (footprint : list Point3D) (height : R)
    (roof_height : R) (slope_angle : R) : result (list Face3D) :=
  '(min_x, max_x, min_y, max_y) <- bounds footprint ;;
  let width := max_x - min_x in
  let depth := max_y - min_y in
  let span := Rmin width depth / 2 in
  let adjusted_height := span * tan (Py.radians slope_angle) in
  let roof_height := Rmax roof_height adjusted_height in
  let center_x := (min_x + max_x) / 2 in
  let center_y := (min_y + max_y) / 2 in
  let peak_pt := mkPoint3D center_x center_y (height + roof_height) in
  let corner_pts :=
    [ mkPoint3D min_x min_y height; mkPoint3D max_x min_y height;
      mkPoint3D max_x max_y height; mkPoint3D min_x max_y height ] in
  Ok (map (fun i =>
             mkFace3D [ corner corner_pts i;
                        corner corner_pts ((i + 1) mod 4);
                        peak_pt ])
          (Py.range 4)).

(** The default of [create_hip_roof]'s keyword argument [slope_angle]. *)
Definition hip_default_slope_angle : R := 25.

Definition create_pyramid_roof (footprint : list Point3D) (height : R)
    (roof_height : R) : result (list Face3D) :=
  create_hip_roof footprint height roof_height hip_default_slope_angle.

Definition create_shed_roof (footprint : list Point3D) (height : R)
    (roof_height : R) (slope_direction : string) (slope_angle : option R)
    : result Face3D :=
  '(min_x, max_x, min_y, max_y) <- bounds footprint ;;
  let roof_height :=
    match slope_angle with
    | Some a =>
        let span :=
          if (slope_direction =? "north") || (slope_direction =? "south")
          then max_y - min_y
          else max_x - min_x in
        span * tan (Py.radians a)
    | None => roof_height
    end in
  if slope_direction =? "north" then
    Ok (mkFace3D
          [ mkPoint3D min_x min_y height;
            mkPoint3D max_x min_y height;
            mkPoint3D max_x max_y (height + roof_height);
            mkPoint3D min_x max_y (height + roof_height) ])
  else if slope_direction =? "south" then
    Ok (mkFace3D
          [ mkPoint3D min_x min_y (height + roof_height);
            mkPoint3D max_x min_y (height + roof_height);
            mkPoint3D max_x max_y height;
            mkPoint3D min_x max_y height ])
  else if slope_direction =? "east" then
    Ok (mkFace3D
          [ mkPoint3D min_x min_y height;
            mkPoint3D max_x min_y (height + roof_height);
            mkPoint3D max_x max_y (height + roof_height);
            mkPoint3D min_x max_y height ])
  else
    Ok (mkFace3D
          [ mkPoint3D min_x min_y (height + roof_height);
            mkPoint3D max_x min_y height;
            mkPoint3D max_x max_y height;
            mkPoint3D min_x max_y (height + roof_height) ]).

(** [lower_slope] and [upper_slope] are accepted and never read. *)
Definition create_mansard_roof (footprint : list Point3D) (height : R)
    (roof_height : R) (lower_slope upper_slope : R) : result (list Face3D) :=
  '(min_x, max_x, min_y, max_y) <- bounds footprint ;;
  let width := max_x - min_x in
  let depth := max_y - min_y in
  let lower_height := roof_height * 0.7 in
  let inset_x := width * 0.25 in
  let inset_y := depth * 0.25 in
  let corner_pts :=
    [ mkPoint3D min_x min_y height; mkPoint3D max_x min_y height;
      mkPoint3D max_x max_y height; mkPoint3D min_x max_y height ] in
  let mid_pts :=
    [ mkPoint3D (min_x + inset_x) (min_y + inset_y) (height + lower_height);
      mkPoint3D (max_x - inset_x) (min_y + inset_y) (height + lower_height);
      mkPoint3D (max_x - inset_x) (max_y - inset_y) (height + lower_height);
      mkPoint3D (min_x + inset_x) (max_y - inset_y) (height + lower_height) ] in
  Ok (map (fun i =>
             mkFace3D [ corner corner_pts i;
                        corner corner_pts ((i + 1) mod 4);
                        corner mid_pts ((i + 1) mod 4);
                        corner mid_pts i ])
          (Py.range 4)
      ++ [mkFace3D mid_pts]).

Definition create_butterfly_roof (footprint : list Point3D) (height : R)
    (roof_height : R) (valley_depth : R) : result (list Face3D) :=
  '(min_x, max_x, min_y, max_y) <- bounds footprint ;;
  let center_x := (min_x + max_x) / 2 in
  let valley_pt1 := mkPoint3D center_x min_y (height + roof_height - valley_depth) in
  let valley_pt2 := mkPoint3D center_x max_y (height + roof_height - valley_depth) in
  let ridge_pt1 := mkPoint3D min_x min_y (height + roof_height) in
  let ridge_pt2 := mkPoint3D max_x min_y (height + roof_height) in
  let ridge_pt3 := mkPoint3D max_x max_y (height + roof_height) in
  let ridge_pt4 := mkPoint3D min_x max_y (height + roof_height) in
  let roof_face1 := mkFace3D [ridge_pt1; valley_pt1; valley_pt2; ridge_pt4] in
  let roof_face2 := mkFace3D [valley_pt1; ridge_pt2; ridge_pt3; valley_pt2] in
  Ok [roof_face1; roof_face2].

(** The number of sections, [max(2, int(width / section_width))]. *)
Definition sawtooth_num_sections (width section_width : R) : result Z :=
  q <- Py.truediv width section_width ;;
  Ok (Z.max 2 (Py.int q)).

(** The face of section [i]. *)
Definition sawtooth_face (min_x min_y max_y height section_width roof_height : R)
    (i : nat) : Face3D :=
  let x1 := min_x + INR i * section_width in
  let x2 := min_x + (INR i + 1) * section_width in
  if Nat.eqb (i mod 2) 0 then
    mkFace3D [ mkPoint3D x1 min_y height;
               mkPoint3D x2 min_y height;
               mkPoint3D x2 max_y height;
               mkPoint3D x1 max_y (height + roof_height) ]
  else
    mkFace3D [ mkPoint3D x1 min_y (height + roof_height);
               mkPoint3D x2 min_y height;
               mkPoint3D x2 max_y height;
               mkPoint3D x1 max_y (height + roof_height) ].

(** [slope_angle] is accepted and never read. *)
Definition create_sawtooth_roof (footprint : list Point3D) (height : R)
    (section_width : R) (roof_height : R) (slope_angle : R)
    : result (list Face3D) :=
  '(min_x, max_x, min_y, max_y) <- bounds footprint ;;
  let width := max_x - min_x in
  num_sections <- sawtooth_num_sections width section_width ;;
  section_width <- Py.truediv width (IZR num_sections) ;;
  Ok (map (sawtooth_face min_x min_y max_y height section_width roof_height)
          (Py.range num_sections)).

Definition create_curved_roof (footprint : list Point3D) (height : R)
    (roof_height : R) (num_segments : Z) : result (list Face3D) :=
  '(min_x, max_x, min_y, max_y) <- bounds footprint ;;
  let center_x := (min_x + max_x) / 2 in
  let width := max_x - min_x in
  Ok (map (fun i =>
             let angle1 := PI * INR i / IZR num_segments in
             let angle2 := PI * (INR i + 1) / IZR num_segments in
             let height1 := height + roof_height * sin angle1 in
             let height2 := height + roof_height * sin angle2 in
             let x1 := center_x - (width / 2) * cos angle1 in
             let x2 := center_x - (width / 2) * cos angle2 in
             mkFace3D [ mkPoint3D x1 min_y height1;
                        mkPoint3D x2 min_y height2;
                        mkPoint3D x2 max_y height2;
                        mkPoint3D x1 max_y height1 ])
          (Py.range num_segments)).

(** *** The solar roof and its panel layout *)

Definition panel_width : R := 1.7.
Definition panel_height : R := 1.0.
Definition panel_thickness : R := 0.05.
Definition panel_spacing : R := 0.1.

(** [pts[k] = v]; every index used by the source is in range. *)
Fixpoint set_item {A : Type} (l : list A) (k : nat) (v : A) : list A :=
  match l, k with
  | [], _ => []
  | _ :: t, O => v :: t
  | x :: t, S k' => x :: set_item t k' v
  end.

(** [pts[k] = Point3D(pts[k].x, pts[k].y, pts[k].z + dz)]. *)
Definition lift_vertex (pts : list Point3D) (k : nat) (dz : R) : list Point3D :=
  let p := corner pts k in
  set_item pts k (mkPoint3D (px p) (py p) (pz p + dz)).

(** The vertices of the panel in slot [(i, j)]. *)
Definition panel_pts (min_x min_y height : R) (orientation : string)
    (angle_rad : R) (i j : nat) : list Point3D :=
  let panel_origin_x := min_x + INR i * (panel_width + panel_spacing) in
  let panel_origin_y := min_y + INR j * (panel_height + panel_spacing) in
  let pts :=
    [ mkPoint3D panel_origin_x panel_origin_y (height + panel_thickness);
      mkPoint3D (panel_origin_x + panel_width) panel_origin_y
                (height + panel_thickness);
      mkPoint3D (panel_origin_x + panel_width) (panel_origin_y + panel_height)
                (height + panel_thickness);
      mkPoint3D panel_origin_x (panel_origin_y + panel_height)
                (height + panel_thickness) ] in
  if orientation =? "south" then
    lift_vertex (lift_vertex pts 2 (panel_height * sin angle_rad))
                3 (panel_height * sin angle_rad)
  else if orientation =? "north" then
    lift_vertex (lift_vertex pts 0 (panel_height * sin angle_rad))
                1 (panel_height * sin angle_rad)
  else if orientation =? "east" then
    lift_vertex (lift_vertex pts 1 (panel_width * sin angle_rad))
                2 (panel_width * sin angle_rad)
  else if orientation =? "west" then
    lift_vertex (lift_vertex pts 0 (panel_width * sin angle_rad))
                3 (panel_width * sin angle_rad)
  else pts.

(** The state of the two nested loops: [panels_placed] and [panel_faces]. *)
Definition panel_state : Type := (Z * list Face3D)%type.

(** One pass through the body of the inner loop. *)
Definition place_panel (min_x min_y height : R) (orientation : string)
    (angle_rad : R) (num_panels : Z) (i : nat) (st : panel_state) (j : nat)
    : panel_state :=
  let '(panels_placed, panel_faces) := st in
  if (panels_placed <? num_panels)%Z then
    (panels_placed + 1,
     panel_faces ++ [mkFace3D (panel_pts min_x min_y height orientation angle_rad i j)])%Z
  else st.

(** The local variables [normal] and [rotation_axis] are assigned by the
    source and never read; they are left out. *)
Definition create_solar_roof (footprint : list Point3D) (height : R)
    (tilt_angle : R) (orientation : string) (coverage : R)
    : result (list Face3D * list Face3D) :=
  '(min_x, max_x, min_y, max_y) <- bounds footprint ;;
  let width := max_x - min_x in
  let depth := max_y - min_y in
  flat_roof <- create_flat_roof footprint height 0.3 0 ;;
  let roof_faces := [flat_roof] in
  let max_panels_x := Py.int (width / panel_width) in
  let max_panels_y := Py.int (depth / panel_height) in
  let total_max_panels := (max_panels_x * max_panels_y)%Z in
  let num_panels := Py.int (IZR total_max_panels * coverage) in
  let angle_rad := Py.radians tilt_angle in
  let final :=
    fold_left
      (fun st i =>
         fold_left (place_panel min_x min_y height orientation angle_rad num_panels i)
                   (Py.range max_panels_y) st)
      (Py.range max_panels_x) (0%Z, []) in
  Ok (roof_faces, snd final).

(** *** Dispatch *)

(** The dictionary [roof_params]: one optional entry per key that
    [create_roof] looks up. *)
Record RoofParams : Type := mkRoofParams {
    roof_thickness : option R;
    slope : option R;
    roof_height : option R;
    axis : option string;
    slope_angle : option R;
    slope_direction : option string;
    lower_slope : option R;
    upper_slope : option R;
    valley_depth : option R;
    section_width : option R;
    num_segments : option Z;
    tilt_angle : option R;
    orientation : option string;
    coverage : option R
  }.

(** The empty dictionary. *)
Definition no_params : RoofParams :=
  mkRoofParams None None None None None None None None None None None None
               None None.

Definition create_roof (footprint : list Point3D) (height : R)
    (roof_type : string) (roof_params : RoofParams)
    : result (list Face3D * list Face3D) :=
  if roof_type =? "flat" then
    f <- create_flat_roof footprint height
           (Py.get (roof_thickness roof_params) 0.3)
           (Py.get (slope roof_params) 0) ;;
    Ok ([f], [])
  else if roof_type =? "gable" then
    fs <- create_gable_roof footprint height
            (Py.get (roof_height roof_params) 3)
            (Py.get (axis roof_params) "y")
            (Py.get (slope_angle roof_params) 30) ;;
    Ok (fs, [])
  else if roof_type =? "hip" then
    fs <- create_hip_roof footprint height
            (Py.get (roof_height roof_params) 2.5)
            (Py.get (slope_angle roof_params) 25) ;;
    Ok (fs, [])
  else if roof_type =? "pyramid" then
    fs <- create_pyramid_roof footprint height
            (Py.get (roof_height roof_params) 4) ;;
    Ok (fs, [])
  else if roof_type =? "shed" then
    f <- create_shed_roof footprint height
           (Py.get (roof_height roof_params) 2)
           (Py.get (slope_direction roof_params) "north")
           (slope_angle roof_params) ;;
    Ok ([f], [])
  else if roof_type =? "mansard" then
    fs <- create_mansard_roof footprint height
            (Py.get (roof_height roof_params) 3)
            (Py.get (lower_slope roof_params) 70)
            (Py.get (upper_slope roof_params) 30) ;;
    Ok (fs, [])
  else if roof_type =? "butterfly" then
    fs <- create_butterfly_roof footprint height
            (Py.get (roof_height roof_params) 2)
            (Py.get (valley_depth roof_params) 1) ;;
    Ok (fs, [])
  else if roof_type =? "sawtooth" then
    fs <- create_sawtooth_roof footprint height
            (Py.get (section_width roof_params) 4)
            (Py.get (roof_height roof_params) 2)
            (Py.get (slope_angle roof_params) 30) ;;
    Ok (fs, [])
  else if roof_type =? "curved" then
    fs <- create_curved_roof footprint height
            (Py.get (roof_height roof_params) 3)
            (Py.get (num_segments roof_params) 8%Z) ;;
    Ok (fs, [])
  else if roof_type =? "solar" then
    create_solar_roof footprint height
      (Py.get (tilt_angle roof_params) 15)
      (Py.get (orientation roof_params) "south")
      (Py.get (coverage roof_params) 0.8)
  else
    f <- create_flat_roof footprint height 0.3 0 ;;
    Ok ([f], []).

(** The footprint [create_building] builds from an origin, a width and a
    depth. *)
Definition building_footprint (origin : Point3D) (width depth : R)
    : list Point3D :=
  [ mkPoint3D (px origin) (py origin) (pz origin);
    mkPoint3D (px origin + width) (py origin) (pz origin);
    mkPoint3D (px origin + width) (py origin + depth) (pz origin);
    mkPoint3D (px origin) (py origin + depth) (pz origin) ].

End Nevim.

(** ** testovani_08_05.py: the suitability scorer *)

Module Scorer.

(** What [calculate_roof_properties] reads from a roof surface: its
    identifier and the normal, centroid and area of its geometry. *)
Record RoofSurface : Type := mkRoofSurface {
    identifier : string;
    geometry_normal : Vector3D;
    geometry_centroid : Point3D;
    geometry_area : R
  }.

(** The dictionary built by [calculate_roof_properties]. *)
Record RoofProps : Type := mkRoofProps {
    roof : RoofSurface;
    id : string;
    centroid : Point3D;
    normal : Vector3D;
    area : R;
    tilt : R;
    azimuth : R
  }.

(** The same dictionary once [analyze_solar_access] has added its keys. *)
Record RoofAccess : Type := mkRoofAccess {
    props : RoofProps;
    sun_hours : Z;
    sun_access_percent : R;
    weighted_hours : R
  }.

(** The same dictionary once [calculate_solar_potential] has added its keys. *)
Record RoofScore : Type := mkRoofScore {
    access : RoofAccess;
    suitability : R;
    annual_insolation : R;
    energy_production : R
  }.

(** One sample of the sun-position provider ([sunpath.calculate_sun]). *)
Record Sun : Type := mkSun {
    altitude : R;
    altitude_in_radians : R;
    sun_vector : Vector3D
  }.

(** The body of the loop of [calculate_roof_properties]. *)
Definition roof_properties (r : RoofSurface) : RoofProps :=
  let normal := geometry_normal r in
  let up_vector := mkVector3D 0 0 1 in
  let tilt_rad := angle normal up_vector in
  let tilt_deg := tilt_rad * 180 / PI in
  let north_vector := mkVector3D 0 1 0 in
  let normal_horiz := mkVector3D (vx normal) (vy normal) 0 in
  let azimuth :=
    if Rlt_dec (magnitude normal_horiz) 0.001 then 0
    else
      let normal_horiz := normalize normal_horiz in
      let azimuth_rad := angle normal_horiz north_vector in
      let azimuth := azimuth_rad * 180 / PI in
      if Rlt_dec (vx normal) 0 then 360 - azimuth else azimuth in
  mkRoofProps r (identifier r) (geometry_centroid r) normal (geometry_area r)
              (90 - tilt_deg) azimuth.

Definition calculate_roof_properties (roof_surfaces : list RoofSurface)
    : list RoofProps :=
  map roof_properties roof_surfaces.

(** The state of the loop over the hours: [solar_access_hours] and
    [weighted_access_hours]. *)
Definition hour_step (normal : Vector3D) (st : Z * R) (sun : Sun) : Z * R :=
  let '(solar_access_hours, weighted_access_hours) := st in
  if Rlt_dec 0 (altitude sun) then
    let angle := angle normal (reverse (sun_vector sun)) in
    if Rlt_dec angle (PI / 2) then
      let radiation_factor := cos angle * sin (altitude_in_radians sun) in
      ((solar_access_hours + 1)%Z, weighted_access_hours + radiation_factor)
    else st
  else st.

(** The body of the loop over the roofs. [suns] holds the sample of every
    hour of the analysis period, so [len(hoys)] is its length. *)
Definition roof_access (suns : list Sun) (r : RoofProps) : result RoofAccess :=
  let '(solar_access_hours, weighted_access_hours) :=
    fold_left (hour_step (normal r)) suns (0%Z, 0) in
  ratio <- Py.truediv (IZR solar_access_hours) (INR (List.length suns)) ;;
  let sun_access_percent := ratio * 100 in
  Ok (mkRoofAccess r solar_access_hours sun_access_percent weighted_access_hours).

(** A loop whose body may raise: the first exception ends it. *)
Fixpoint for_each {A B : Type} (body : A -> result B) (l : list A)
    : result (list B) :=
  match l with
  | [] => Ok []
  | x :: t =>
      y <- body x ;;
      ys <- for_each body t ;;
      Ok (y :: ys)
  end.

Definition analyze_solar_access (roof_props : list RoofProps) (suns : list Sun)
    : result (list RoofAccess) :=
  for_each (roof_access suns) roof_props.

Definition tilt_factor (tilt : R) : R :=
  1 - Rmin (Rabs (tilt - 35)) 90 / 90.

Definition azimuth_factor (azimuth : R) : R :=
  1 - Rmin (Rabs (azimuth - 180)) 180 / 180.

Definition weighted_factor (weighted_hours min_weighted_hours range_weighted : R)
    : R :=
  (weighted_hours - min_weighted_hours) / range_weighted.

(** The body of the loop of [calculate_solar_potential]. *)
Definition roof_potential (min_weighted_hours range_weighted : R)
    (r : RoofAccess) : RoofScore :=
  let tilt_factor := tilt_factor (tilt (props r)) in
  let azimuth_factor := azimuth_factor (azimuth (props r)) in
  let weighted_factor :=
    weighted_factor (weighted_hours r) min_weighted_hours range_weighted in
  let suitability :=
    0.25 * tilt_factor + 0.25 * azimuth_factor + 0.5 * weighted_factor in
  let annual_insolation := 1050 * suitability in
  let energy_production := annual_insolation * area (props r) * 0.2 in
  mkRoofScore r suitability annual_insolation energy_production.

(** [list.sort(key=..., reverse=True)]: descending, and stable (records with
    equal keys keep their order). *)
Fixpoint insert_desc {A : Type} (key : A -> R) (x : A) (l : list A) : list A :=
  match l with
  | [] => [x]
  | y :: t =>
      if Rle_dec (key y) (key x) then x :: y :: t
      else y :: insert_desc key x t
  end.

Definition sort_desc {A : Type} (key : A -> R) (l : list A) : list A :=
  fold_right (insert_desc key) [] l.

Definition calculate_solar_potential (roof_props : list RoofAccess)
    : result (list RoofScore) :=
  match roof_props with
  | [] => Ok []
  | _ :: _ =>
      max_weighted_hours <- Py.max (map weighted_hours roof_props) ;;
      min_weighted_hours <- Py.min (map weighted_hours roof_props) ;;
      let range_weighted := Rmax (max_weighted_hours - min_weighted_hours) 0.001 in
      Ok (sort_desc suitability
            (map (roof_potential min_weighted_hours range_weighted) roof_props))
  end.

(** Steps 5 and 6 of [main]: when [analyze_solar_access] raises, every roof
    gets zero hours and the analysis goes on. *)
Definition zero_access (r : RoofProps) : RoofAccess :=
  mkRoofAccess r 0 0 0.

Definition main_analysis (roof_props : list RoofProps) (suns : list Sun)
    : result (list RoofScore) :=
  let roof_results :=
    match analyze_solar_access roof_props suns with
    | Ok roof_results => roof_results
    | Raise _ => map zero_access roof_props
    end in
  calculate_solar_potential roof_results.

End Scorer.

(** ** Nevim.py: [create_building] *)

Module Building.

Import Nevim.

(** The identifiers built by the f-strings of [create_building]:
    [Building_{int(x)}_{int(y)}_Floor_{floor}], [Roof_{int(x)}_{int(y)}_{i}]
    and [SolarPanel_{int(x)}_{int(y)}_{i}]. *)
Inductive ident : Type :=
  | BuildingFloor (x y : Z) (floor : nat)
  | RoofShade (x y : Z) (i : nat)
  | SolarPanel (x y : Z) (i : nat).

(** What [Room.from_box(identifier, width, depth, height, origin)] is given,
    and the [user_data] the top floor receives at the end. *)
Record Room : Type := mkRoom {
  room_identifier : ident;
  box_width : R;
  box_depth : R;
  box_height : R;
  box_origin : Point3D;
  room_user_data : option (string * RoofParams)
}.

(** The [user_data] dictionaries of the two kinds of shade. *)
Inductive ShadeData : Type :=
  | RoofData (roof_type : string) (building_id : ident)
             (slope_direction : string) (slope_angle : R)
  | PanelData (building_id : ident) (efficiency : R).

Record Shade : Type := mkShade {
  shade_identifier : ident;
  shade_geometry : Face3D;
  shade_user_data : ShadeData
}.

(** Besides the exceptions of the roof generators, [rooms[0]] and
    [rooms[-1]] raise [IndexError] on an empty list. *)
Inductive exn : Type :=
  | Propagated (e : Py.exn)
  | IndexError.

Inductive outcome (A : Type) : Type :=
  | Built (a : A)
  | Failed (e : exn).
Arguments Built {A} a.
Arguments Failed {A} e.

(** The room of one pass of the loop over the floors. *)
Definition floor_room (origin : Point3D) (width depth floor_height : R)
    (floor : nat) : Room :=
  let floor_base := pz origin + INR floor * floor_height in
  mkRoom (BuildingFloor (Py.int (px origin)) (Py.int (py origin)) floor)
         width depth floor_height
         (mkPoint3D (px origin) (py origin) floor_base)
         None.

(** [enumerate(l)]. *)
Definition enumerate {A : Type} (l : list A) : list (nat * A) :=
  combine (seq 0 (List.length l)) l.

(** [rooms[-1].user_data = data] on a non-empty list. *)
Fixpoint tag_last (rooms : list Room) (data : string * RoofParams)
    : list Room :=
  match rooms with
  | [] => []
  | [r] => [mkRoom (room_identifier r) (box_width r) (box_depth r)
                   (box_height r) (box_origin r) (Some data)]
  | r :: rest => r :: tag_last rest data
  end.

(** The windows ([apertures_by_ratio], whose exceptions are caught and
    dropped) are not modelled, and neither is [window_ratio].  With no room,
    [rooms[0]] (read for every roof face and panel) or else [rooms[-1]]
    raises [IndexError]. *)
Definition create_building (origin : Point3D) (width depth height : R)
    (num_floors : Z) (roof_type : string) (roof_params : RoofParams)
    : outcome (list Room * list Shade) :=
  let footprint_pts := building_footprint origin width depth in
  match Py.truediv height (IZR num_floors) with
  | Raise e => Failed (Propagated e)
  | Ok floor_height =>
      let rooms :=
        map (floor_room origin width depth floor_height)
            (Py.range num_floors) in
      match create_roof footprint_pts height roof_type roof_params with
      | Raise e => Failed (Propagated e)
      | Ok (roof_faces, solar_panels) =>
          match rooms with
          | [] => Failed IndexError
          | first :: _ =>
              let x := Py.int (px origin) in
              let y := Py.int (py origin) in
              let roof_shades :=
                map (fun '(i, roof_face) =>
                       mkShade (RoofShade x y i) roof_face
                         (RoofData roof_type (room_identifier first)
                            (Py.get (slope_direction roof_params) "none")
                            (Py.get (slope_angle roof_params) 0)))
                    (enumerate roof_faces) in
              let panel_shades :=
                map (fun '(i, panel_face) =>
                       mkShade (SolarPanel x y i) panel_face
                         (PanelData (room_identifier first) 0.2))
                    (enumerate solar_panels) in
              Built (tag_last rooms (roof_type, roof_params),
                     roof_shades ++ panel_shades)
          end
      end
  end.

End Building.

(** ** testovani_08_05.py: [find_top_faces] *)

Module TopFaces.

(** The face types of honeybee: [face.type] is one of these objects, not a
    string. *)
Inductive FaceType : Type :=
  | Wall
  | RoofCeiling
  | Floor
  | AirBoundary.

(** What [find_top_faces] reads from a face of a room: its type and the
    vertices of its geometry. *)
Record HBFace : Type := mkHBFace {
  face_identifier : string;
  face_type : FaceType;
  face_vertices : list Point3D
}.

(** [f.type != 'Floor']: a face type object compared with a string.  The
    two are never equal, so the test holds for every face, a floor
    included. *)
Definition type_ne_str (t : FaceType) (s : string) : bool := true.

(** The sort key, [max(v.z for v in f.geometry.vertices)]. *)
Definition top_z (f : HBFace) : result R :=
  Py.max (map pz (face_vertices f)).

(** [sorted(..., key=..., reverse=True)] computes the key of every face
    once; the faces are kept beside their keys, the filter reading the same
    value again. *)
Definition find_top_faces (room_faces : list HBFace) : result (list HBFace) :=
  keyed <- Scorer.for_each (fun f => z <- top_z f ;; Ok (z, f)) room_faces ;;
  let faces_by_height := Scorer.sort_desc fst keyed in
  match faces_by_height with
  | [] => Ok []
  | (max_z, _) :: _ =>
      Ok (map snd
            (filter (fun zf =>
                       if Rlt_dec (Rabs (fst zf - max_z)) 0.1
                       then type_ne_str (face_type (snd zf)) "Floor"
                       else false)
                    faces_by_height))
  end.

End TopFaces.

(** ** Vocabulary of the statements *)

(** The extent of a face along x: largest minus smallest x of its vertices. *)
Definition x_extent (f : Face3D) : R :=
  match map px (vertices f) with
  | [] => 0
  | x :: t => fold_left Rmax t x - fold_left Rmin t x
  end.

(** The 10 x 10 footprint at the origin. *)
Definition square10 : list Point3D :=
  Nevim.building_footprint (mkPoint3D 0 0 0) 10 10.

(** [{'roof_height': 5}], the pyramid parameters of [create_city]. *)
Definition city_pyramid_params : Nevim.RoofParams :=
  Nevim.mkRoofParams None None (Some 5) None None None None None None None None
                     None None None.

(** [{'roof_height': 1, 'slope_angle': 45}]. *)
Definition low_steep_params : Nevim.RoofParams :=
  Nevim.mkRoofParams None None (Some 1) None (Some 45) None None None None None
                     None None None None.

(** A roof surface whose unit normal points straight down. *)
Definition downward_roof : Scorer.RoofSurface :=
  Scorer.mkRoofSurface "roof" (mkVector3D 0 0 (-1)) (mkPoint3D 0 0 0) 1.

(** A roof surface whose unit normal points south. *)
Definition south_wall : Scorer.RoofSurface :=
  Scorer.mkRoofSurface "wall" (mkVector3D 0 (-1) 0) (mkPoint3D 0 0 0) 1.

(** The unit vector with compass bearing [bearing] (clockwise from north)
    and elevation [elevation] above the horizon, both in radians. *)
Definition unit_normal (bearing elevation : R) : Vector3D :=
  mkVector3D (cos elevation * sin bearing) (cos elevation * cos bearing)
             (sin elevation).

(** A roof surface with the given normal. *)
Definition surface_with_normal (n : Vector3D) : Scorer.RoofSurface :=
  Scorer.mkRoofSurface "roof" n (mkPoint3D 0 0 0) 1.

(** A sample of the provider is consistent when its two altitudes agree and
    the sun is not beyond the zenith. *)
Definition consistent_sun (s : Scorer.Sun) : Prop :=
  Scorer.altitude_in_radians s = Py.radians (Scorer.altitude s)
  /\ Scorer.altitude s <= 90.

(** The extent of a face along y. *)
Definition y_extent (f : Face3D) : R :=
  match map py (vertices f) with
  | [] => 0
  | y :: t => fold_left Rmax t y - fold_left Rmin t y
  end.

(** The ten roof types [create_roof] knows. *)
Definition known_roof_types : list string :=
  [ "flat"; "gable"; "hip"; "pyramid"; "shed"; "mansard"; "butterfly";
    "sawtooth"; "curved"; "solar" ].

(** The roof types whose generator reads the footprint through its bounding
    box alone. *)
Definition box_roof_types : list string :=
  [ "gable"; "hip"; "pyramid"; "shed"; "mansard"; "butterfly"; "sawtooth";
    "curved" ].

(** The highest z of a face with at least one vertex. *)
Definition face_top (f : TopFaces.HBFace) : R :=
  match map pz (TopFaces.face_vertices f) with
  | [] => 0
  | z :: t => fold_left Rmax t z
  end.

(** * Properties *)

Import Nevim.

(** ** Bounding box of a footprint *)

Lemma fold_Rmin_le (l : list R) (a : R) : fold_left Rmin l a <= a.
Proof.
  revert a; induction l as [|x l IH]; intros a; simpl.
  - lra.
  - eapply Rle_trans; [apply IH | apply Rmin_l].
Qed.

Lemma fold_Rmax_ge (l : list R) (a : R) : a <= fold_left Rmax l a.
Proof.
  revert a; induction l as [|x l IH]; intros a; simpl.
  - lra.
  - eapply Rle_trans; [apply Rmax_l | apply IH].
Qed.

Lemma bounds_nonempty (fp : list Point3D) :
  fp <> [] -> exists b, bounds fp = Ok b.
Proof.
  destruct fp as [|p fp]; [congruence|].
  intros _. unfold bounds; simpl. eexists; reflexivity.
Qed.

Lemma bounds_ordered (fp : list Point3D) (min_x max_x min_y max_y : R) :
  bounds fp = Ok (min_x, max_x, min_y, max_y) ->
  min_x <= max_x /\ min_y <= max_y.
Proof.
  destruct fp as [|p fp]; [discriminate|].
  unfold bounds; simpl. intros H; injection H as <- <- <- <-.
  split; eapply Rle_trans; try apply fold_Rmin_le; apply fold_Rmax_ge.
Qed.

(** Simplifies [Rmin]/[Rmax] of comparable operands found in the goal. *)
Ltac pick_minmax :=
  repeat match goal with
  | |- context [Rmin ?a ?b] =>
      first [ rewrite (Rmin_left a b) by lra | rewrite (Rmin_right a b) by lra ]
  | |- context [Rmax ?a ?b] =>
      first [ rewrite (Rmax_left a b) by lra | rewrite (Rmax_right a b) by lra ]
  end.

Lemma bounds_building_footprint (o : Point3D) (w d : R) :
  0 <= w -> 0 <= d ->
  bounds (building_footprint o w d)
  = Ok (px o, px o + w, py o, py o + d).
Proof.
  intros Hw Hd. unfold bounds, building_footprint; simpl.
  pick_minmax. reflexivity.
Qed.

Lemma bounds_square10 : bounds square10 = Ok (0, 10, 0, 10).
Proof.
  unfold square10. rewrite bounds_building_footprint by lra. simpl.
  repeat f_equal; lra.
Qed.

(** ** Angles used by the concrete scenarios *)

Lemma radians_30 : Py.radians 30 = PI / 6.
Proof. unfold Py.radians; lra. Qed.

Lemma radians_45 : Py.radians 45 = PI / 4.
Proof. unfold Py.radians; lra. Qed.

Lemma sqrt3_lower : 5 / 4 < sqrt 3.
Proof.
  replace (5 / 4) with (sqrt ((5 / 4) * (5 / 4))) by (apply sqrt_square; lra).
  apply sqrt_lt_1_alt; lra.
Qed.

Lemma tan_30_upper : tan (Py.radians 30) < 4 / 5.
Proof.
  rewrite radians_30, tan_PI6.
  pose proof sqrt3_lower as H.
  apply Rmult_lt_reg_r with (sqrt 3); [lra|].
  unfold Rdiv at 1. rewrite Rmult_assoc, Rinv_l by lra. lra.
Qed.

Lemma tan_25_lt_tan_30 : tan (Py.radians 25) < tan (Py.radians 30).
Proof.
  pose proof PI_RGT_0 as HPI.
  apply tan_increasing; unfold Py.radians; lra.
Qed.

(** ** Gable roof *)

(** C5. On every footprint, for every explicit roof height, ridge axis and
    slope angle, the gable generator returns exactly four faces: two
    quadrilateral slopes that share the two ridge points, and two triangular
    gable ends, each closed by one ridge point.  Both ridge points lie at
    [z = height + max(roof_height, half_span * tan(slope_angle))], where
    [half_span] is half the extent across the ridge, and every other vertex
    lies at [z = height].  On the 10 x 10 footprint at the origin with
    height 10, roof height 4, axis y and slope angle 30 the ridge runs from
    (5, 0, 14) to (5, 10, 14). *)
Theorem gable_ridge_height_and_faces :
  (forall fp min_x max_x min_y max_y height roof_height axis slope_angle,
      bounds fp = Ok (min_x, max_x, min_y, max_y) ->
      let half_span :=
        if axis =? "y" then (max_x - min_x) / 2 else (max_y - min_y) / 2 in
      let ridge_z :=
        height + Rmax roof_height (half_span * tan (Py.radians slope_angle)) in
      exists a b c d e f g h r1 r2,
        create_gable_roof fp height roof_height axis slope_angle
        = Ok [ mkFace3D [a; b; r2; r1]; mkFace3D [c; d; r2; r1];
               mkFace3D [e; f; r1]; mkFace3D [g; h; r2] ]
        /\ pz r1 = ridge_z /\ pz r2 = ridge_z
        /\ Forall (fun p => pz p = height) [a; b; c; d; e; f; g; h])
  /\ create_gable_roof square10 10 4 "y" 30
     = Ok [ mkFace3D [ mkPoint3D 0 0 10; mkPoint3D 0 10 10;
                       mkPoint3D 5 10 14; mkPoint3D 5 0 14 ];
            mkFace3D [ mkPoint3D 10 0 10; mkPoint3D 10 10 10;
                       mkPoint3D 5 10 14; mkPoint3D 5 0 14 ];
            mkFace3D [ mkPoint3D 0 0 10; mkPoint3D 10 0 10;
                       mkPoint3D 5 0 14 ];
            mkFace3D [ mkPoint3D 0 10 10; mkPoint3D 10 10 10;
                       mkPoint3D 5 10 14 ] ].
Proof.
  split.
  - intros fp min_x max_x min_y max_y height roof_height axis slope_angle Hb.
    unfold create_gable_roof. rewrite Hb. simpl.
    destruct (axis =? "y"); simpl;
      do 10 eexists; (split; [reflexivity|]); simpl;
      repeat split; repeat constructor.
  - unfold create_gable_roof. rewrite bounds_square10. simpl.
    pose proof tan_30_upper as Ht.
    rewrite (Rmax_left 4) by lra.
    repeat (f_equal; try lra).
Qed.

Lemma gable_ridge_height_and_faces_witness :
  exists a b c d e f g h r1 r2,
    create_gable_roof square10 10 4 "x" 45
    = Ok [ mkFace3D [a; b; r2; r1]; mkFace3D [c; d; r2; r1];
           mkFace3D [e; f; r1]; mkFace3D [g; h; r2] ]
    /\ pz r1 = 10 + Rmax 4 ((10 - 0) / 2 * tan (Py.radians 45))
    /\ pz r2 = 10 + Rmax 4 ((10 - 0) / 2 * tan (Py.radians 45))
    /\ Forall (fun p => pz p = 10) [a; b; c; d; e; f; g; h].
Proof.
  apply (proj1 gable_ridge_height_and_faces square10 0 10 0 10 10 4 "x" 45).
  exact bounds_square10.
Defined.

(** ** Shed roof *)

(** C6. When a slope angle is given, the rise of the shed roof is
    [span * tan(angle)] whatever the [roof_height] argument is; the span is
    the extent along y for the directions north and south and the extent
    along x for east and west.  On a footprint 10 wide and 6 deep, with
    direction north and angle 25, the edge at [y = max_y] lies at
    [height + 6 * tan(25 degrees)] and the edge at [y = min_y] at [height]. *)
Theorem shed_angle_overrides_height :
  (forall fp min_x max_x min_y max_y height roof_height angle,
      bounds fp = Ok (min_x, max_x, min_y, max_y) ->
      let rise_y := (max_y - min_y) * tan (Py.radians angle) in
      let rise_x := (max_x - min_x) * tan (Py.radians angle) in
      create_shed_roof fp height roof_height "north" (Some angle)
      = Ok (mkFace3D [ mkPoint3D min_x min_y height;
                       mkPoint3D max_x min_y height;
                       mkPoint3D max_x max_y (height + rise_y);
                       mkPoint3D min_x max_y (height + rise_y) ])
      /\ create_shed_roof fp height roof_height "south" (Some angle)
         = Ok (mkFace3D [ mkPoint3D min_x min_y (height + rise_y);
                          mkPoint3D max_x min_y (height + rise_y);
                          mkPoint3D max_x max_y height;
                          mkPoint3D min_x max_y height ])
      /\ create_shed_roof fp height roof_height "east" (Some angle)
         = Ok (mkFace3D [ mkPoint3D min_x min_y height;
                          mkPoint3D max_x min_y (height + rise_x);
                          mkPoint3D max_x max_y (height + rise_x);
                          mkPoint3D min_x max_y height ])
      /\ create_shed_roof fp height roof_height "west" (Some angle)
         = Ok (mkFace3D [ mkPoint3D min_x min_y (height + rise_x);
                          mkPoint3D max_x min_y height;
                          mkPoint3D max_x max_y height;
                          mkPoint3D min_x max_y (height + rise_x) ]))
  /\ (forall origin height roof_height,
         create_shed_roof (building_footprint origin 10 6) height roof_height
                          "north" (Some 25)
         = Ok (mkFace3D
                 [ mkPoint3D (px origin) (py origin) height;
                   mkPoint3D (px origin + 10) (py origin) height;
                   mkPoint3D (px origin + 10) (py origin + 6)
                             (height + 6 * tan (Py.radians 25));
                   mkPoint3D (px origin) (py origin + 6)
                             (height + 6 * tan (Py.radians 25)) ])).
Proof.
  split.
  - intros fp min_x max_x min_y max_y height roof_height angle Hb.
    unfold create_shed_roof. rewrite Hb. simpl. repeat split; reflexivity.
  - intros origin height roof_height.
    unfold create_shed_roof.
    rewrite bounds_building_footprint by lra. simpl.
    repeat (f_equal; try lra).
Qed.

Lemma shed_angle_overrides_height_witness :
  create_shed_roof square10 3 2 "east" (Some 45)
  = Ok (mkFace3D [ mkPoint3D 0 0 3;
                   mkPoint3D 10 0 (3 + (10 - 0) * tan (Py.radians 45));
                   mkPoint3D 10 10 (3 + (10 - 0) * tan (Py.radians 45));
                   mkPoint3D 0 10 3 ]).
Proof.
  apply (proj1 shed_angle_overrides_height square10 0 10 0 10 3 2 45).
  exact bounds_square10.
Defined.

(** ** Hip and pyramid roofs *)

(** The four triangles of a hip roof, written out. *)
Lemma hip_faces (fp : list Point3D) (min_x max_x min_y max_y : R)
    (height roof_height slope_angle : R) :
  bounds fp = Ok (min_x, max_x, min_y, max_y) ->
  let peak :=
    mkPoint3D ((min_x + max_x) / 2) ((min_y + max_y) / 2)
      (height + Rmax roof_height
                  (Rmin (max_x - min_x) (max_y - min_y) / 2
                   * tan (Py.radians slope_angle))) in
  let c0 := mkPoint3D min_x min_y height in
  let c1 := mkPoint3D max_x min_y height in
  let c2 := mkPoint3D max_x max_y height in
  let c3 := mkPoint3D min_x max_y height in
  create_hip_roof fp height roof_height slope_angle
  = Ok [ mkFace3D [c0; c1; peak]; mkFace3D [c1; c2; peak];
         mkFace3D [c2; c3; peak]; mkFace3D [c3; c0; peak] ].
Proof.
  intros Hb. unfold create_hip_roof. rewrite Hb. reflexivity.
Qed.

Lemma create_roof_pyramid (fp : list Point3D) (height : R) (params : RoofParams) :
  create_roof fp height "pyramid" params
  = (fs <- create_hip_roof fp height (Py.get (roof_height params) 4) 25 ;;
     Ok (fs, [])).
Proof. reflexivity. Qed.

Lemma create_roof_hip (fp : list Point3D) (height : R) (params : RoofParams) :
  create_roof fp height "hip" params
  = (fs <- create_hip_roof fp height (Py.get (roof_height params) 2.5)
                           (Py.get (slope_angle params) 25) ;;
     Ok (fs, [])).
Proof. reflexivity. Qed.

(** C10. Whatever the parameter dictionary holds, the apex of a pyramid roof
    lies at [height + max(roof_height, min(width, depth) / 2 * tan(25
    degrees))]: the angle of 25 degrees is fixed by the delegation to the hip
    generator, so a [roof_height] below that floor is raised to the floor. *)
Theorem pyramid_apex_has_hidden_floor :
  forall fp min_x max_x min_y max_y height params,
    bounds fp = Ok (min_x, max_x, min_y, max_y) ->
    let requested := Py.get (roof_height params) 4 in
    let floor :=
      Rmin (max_x - min_x) (max_y - min_y) / 2 * tan (Py.radians 25) in
    let apex :=
      mkPoint3D ((min_x + max_x) / 2) ((min_y + max_y) / 2)
                (height + Rmax requested floor) in
    let c0 := mkPoint3D min_x min_y height in
    let c1 := mkPoint3D max_x min_y height in
    let c2 := mkPoint3D max_x max_y height in
    let c3 := mkPoint3D min_x max_y height in
    create_roof fp height "pyramid" params
    = Ok ([ mkFace3D [c0; c1; apex]; mkFace3D [c1; c2; apex];
            mkFace3D [c2; c3; apex]; mkFace3D [c3; c0; apex] ], [])
    /\ (requested < floor -> pz apex = height + floor)
    /\ (floor <= requested -> pz apex = height + requested).
Proof.
  intros fp min_x max_x min_y max_y height params Hb; simpl.
  split; [|split].
  - rewrite create_roof_pyramid.
    rewrite (hip_faces _ _ _ _ _ _ _ _ Hb). reflexivity.
  - intros Hlt. rewrite Rmax_right by lra. reflexivity.
  - intros Hle. rewrite Rmax_left by lra. reflexivity.
Qed.

Lemma pyramid_apex_has_hidden_floor_witness :
  create_roof square10 10 "pyramid" low_steep_params
  = Ok ([ mkFace3D [ mkPoint3D 0 0 10; mkPoint3D 10 0 10;
                     mkPoint3D ((0 + 10) / 2) ((0 + 10) / 2)
                       (10 + Rmax 1 (Rmin (10 - 0) (10 - 0) / 2
                                     * tan (Py.radians 25))) ];
          mkFace3D [ mkPoint3D 10 0 10; mkPoint3D 10 10 10;
                     mkPoint3D ((0 + 10) / 2) ((0 + 10) / 2)
                       (10 + Rmax 1 (Rmin (10 - 0) (10 - 0) / 2
                                     * tan (Py.radians 25))) ];
          mkFace3D [ mkPoint3D 10 10 10; mkPoint3D 0 10 10;
                     mkPoint3D ((0 + 10) / 2) ((0 + 10) / 2)
                       (10 + Rmax 1 (Rmin (10 - 0) (10 - 0) / 2
                                     * tan (Py.radians 25))) ];
          mkFace3D [ mkPoint3D 0 10 10; mkPoint3D 0 0 10;
                     mkPoint3D ((0 + 10) / 2) ((0 + 10) / 2)
                       (10 + Rmax 1 (Rmin (10 - 0) (10 - 0) / 2
                                     * tan (Py.radians 25))) ] ], []).
Proof.
  apply (pyramid_apex_has_hidden_floor square10 0 10 0 10 10 low_steep_params).
  exact bounds_square10.
Defined.

(** C4 as stated fails: with the same (empty) parameter dictionary the hip
    roof of the 10 x 10 footprint peaks at 2.5 and the pyramid roof at 4; and
    with [roof_height = 1] and [slope_angle = 45] the hip roof follows the
    angle while the pyramid roof ignores it. *)
Lemma pyramid_differs_from_hip :
  create_roof square10 0 "pyramid" no_params
  <> create_roof square10 0 "hip" no_params
  /\ create_roof square10 0 "pyramid" low_steep_params
     <> create_roof square10 0 "hip" low_steep_params.
Proof.
  pose proof tan_25_lt_tan_30 as H25. pose proof tan_30_upper as H30.
  assert (Hmin : Rmin (10 - 0) (10 - 0) / 2 = 5)
    by (rewrite Rmin_left by lra; lra).
  split.
  - rewrite create_roof_pyramid, create_roof_hip.
    rewrite !(hip_faces _ _ _ _ _ _ _ _ bounds_square10); simpl.
    rewrite Hmin.
    intros Heq. injection Heq as Hz.
    rewrite (Rmax_left 4) in Hz by lra.
    pose proof (Rmax_lub_lt 2.5 (5 * tan (Py.radians 25)) 4). lra.
  - rewrite create_roof_pyramid, create_roof_hip.
    rewrite !(hip_faces _ _ _ _ _ _ _ _ bounds_square10); simpl.
    rewrite Hmin, radians_45, tan_PI4.
    intros Heq. injection Heq as Hz.
    rewrite (Rmax_right 1 (5 * 1)) in Hz by lra.
    pose proof (Rmax_lub_lt 1 (5 * tan (Py.radians 25)) 5). lra.
Qed.

(** C4, amended. The pyramid generator is the hip generator at the slope
    angle 25; through [create_roof] the two roof types give the same faces
    whenever [roof_height] is given and [slope_angle] is absent or 25. *)
Theorem pyramid_is_hip_at_default_angle :
  forall fp height params h,
    roof_height params = Some h ->
    slope_angle params = None \/ slope_angle params = Some 25 ->
    create_pyramid_roof fp height h = create_hip_roof fp height h 25
    /\ create_roof fp height "pyramid" params
       = create_roof fp height "hip" params.
Proof.
  intros fp height params h Hh Ha. split; [reflexivity|].
  rewrite create_roof_pyramid, create_roof_hip, Hh.
  destruct Ha as [-> | ->]; reflexivity.
Qed.

Lemma pyramid_is_hip_at_default_angle_witness :
  create_pyramid_roof square10 10 5 = create_hip_roof square10 10 5 25
  /\ create_roof square10 10 "pyramid" city_pyramid_params
     = create_roof square10 10 "hip" city_pyramid_params.
Proof.
  apply (pyramid_is_hip_at_default_angle square10 10 city_pyramid_params 5).
  - reflexivity.
  - left; reflexivity.
Defined.

(** ** Sawtooth roof *)

Lemma Int_part_bounds (r : R) : IZR (Int_part r) <= r < IZR (Int_part r) + 1.
Proof. destruct (base_Int_part r); lra. Qed.

(** Under [max(2, .)], truncation toward zero and the floor agree. *)
Lemma max2_int_floor (q : R) : Z.max 2 (Py.int q) = Z.max 2 (Int_part q).
Proof.
  unfold Py.int. destruct (Rle_dec 0 q) as [Hq|Hq]; [reflexivity|].
  assert (Hneg : (Int_part q < 0)%Z).
  { apply lt_IZR. destruct (Int_part_bounds q). lra. }
  assert (Hpos : (0 <= Int_part (- q))%Z).
  { apply le_IZR. destruct (Int_part_bounds (- q)) as [_ H].
    assert (H1 : (-1 < Int_part (- q))%Z) by (apply lt_IZR; lra).
    apply IZR_le. lia. }
  lia.
Qed.

Lemma truediv_ok (a b : R) : b <> 0 -> Py.truediv a b = Ok (a / b).
Proof.
  intros Hb. unfold Py.truediv. destruct (Req_dec_T b 0); [contradiction|reflexivity].
Qed.

Lemma truediv_zero (a : R) : Py.truediv a 0 = Raise ZeroDivisionError.
Proof.
  unfold Py.truediv. destruct (Req_dec_T 0 0); [reflexivity|contradiction].
Qed.

Lemma sawtooth_face_extent (min_x min_y max_y height sw rh : R) (i : nat) :
  0 <= sw ->
  x_extent (sawtooth_face min_x min_y max_y height sw rh i) = sw.
Proof.
  intros Hsw. unfold x_extent, sawtooth_face.
  destruct (Nat.eqb (i mod 2) 0); simpl; pick_minmax; lra.
Qed.

Lemma sum_constant {A : Type} (f : A -> R) (c : R) (l : list A) :
  Forall (fun a => f a = c) l ->
  fold_right Rplus 0 (map f l) = INR (List.length l) * c.
Proof.
  induction 1 as [|a l Ha _ IH].
  - simpl; lra.
  - cbn [map fold_right List.length]. rewrite IH, Ha, S_INR. lra.
Qed.

(** The result of the sawtooth generator, written out. *)
Lemma sawtooth_result (fp : list Point3D) (min_x max_x min_y max_y : R)
    (height section_width roof_height slope_angle : R) :
  bounds fp = Ok (min_x, max_x, min_y, max_y) ->
  section_width <> 0 ->
  let width := max_x - min_x in
  let n := Z.max 2 (Int_part (width / section_width)) in
  create_sawtooth_roof fp height section_width roof_height slope_angle
  = Ok (map (sawtooth_face min_x min_y max_y height (width / IZR n) roof_height)
            (Py.range n)).
Proof.
  intros Hb Hsw width n.
  assert (Hn : (2 <= n)%Z) by (subst n; lia).
  assert (HnR : 2 <= IZR n) by (apply IZR_le in Hn; exact Hn).
  unfold create_sawtooth_roof. rewrite Hb. cbn [Py.bind].
  unfold sawtooth_num_sections.
  rewrite truediv_ok by exact Hsw. cbn [Py.bind].
  rewrite max2_int_floor. fold width. fold n.
  rewrite truediv_ok by lra. reflexivity.
Qed.

(** C9 as stated fails at [section_width = 0]: the division
    [width / section_width] raises. *)
Lemma sawtooth_zero_section_width_raises :
  create_sawtooth_roof square10 10 0 2 30 = Raise ZeroDivisionError.
Proof.
  unfold create_sawtooth_roof. rewrite bounds_square10. simpl.
  unfold sawtooth_num_sections. rewrite truediv_zero. reflexivity.
Qed.

(** C9, amended. For every footprint and every [section_width] other than
    0, the sawtooth generator returns [max(2, floor(width / section_width))]
    faces, every one of them [width / n] wide, and the widths add up to the
    width of the footprint. *)
Theorem sawtooth_sections_fill_width :
  forall fp min_x max_x min_y max_y height section_width roof_height slope_angle,
    bounds fp = Ok (min_x, max_x, min_y, max_y) ->
    section_width <> 0 ->
    let width := max_x - min_x in
    let n := Z.max 2 (Int_part (width / section_width)) in
    exists faces,
      create_sawtooth_roof fp height section_width roof_height slope_angle
      = Ok faces
      /\ List.length faces = Z.to_nat n
      /\ Forall (fun f => x_extent f = width / IZR n) faces
      /\ fold_right Rplus 0 (map x_extent faces) = width.
Proof.
  intros fp min_x max_x min_y max_y height section_width roof_height
         slope_angle Hb Hsw width n.
  assert (Hn : (2 <= n)%Z) by (subst n; lia).
  assert (HnR : 2 <= IZR n) by (apply IZR_le in Hn; exact Hn).
  assert (Hw : 0 <= width).
  { destruct (bounds_ordered _ _ _ _ _ Hb). subst width; lra. }
  assert (Hsec : 0 <= width / IZR n).
  { apply Rmult_le_pos; [exact Hw|].
    apply Rlt_le, Rinv_0_lt_compat. lra. }
  eexists. split; [exact (sawtooth_result _ _ _ _ _ _ _ _ _ Hb Hsw)|].
  fold width. fold n.
  assert (Hall : Forall (fun f => x_extent f = width / IZR n)
                   (map (sawtooth_face min_x min_y max_y height (width / IZR n)
                                       roof_height)
                        (Py.range n))).
  { apply Forall_forall. intros f Hf. apply in_map_iff in Hf.
    destruct Hf as [i [<- _]]. apply sawtooth_face_extent. exact Hsec. }
  split; [|split].
  - unfold Py.range. rewrite length_map, length_seq. reflexivity.
  - exact Hall.
  - rewrite (sum_constant _ _ _ Hall).
    unfold Py.range. rewrite length_map, length_seq.
    rewrite INR_IZR_INZ, Z2Nat.id by lia. field. lra.
Qed.

Lemma sawtooth_sections_fill_width_witness :
  exists faces,
    create_sawtooth_roof square10 10 4 2 30 = Ok faces
    /\ List.length faces = Z.to_nat (Z.max 2 (Int_part ((10 - 0) / 4)))
    /\ Forall (fun f => x_extent f
                        = (10 - 0) / IZR (Z.max 2 (Int_part ((10 - 0) / 4))))
              faces
    /\ fold_right Rplus 0 (map x_extent faces) = 10 - 0.
Proof.
  apply (sawtooth_sections_fill_width square10 0 10 0 10 10 4 2 30).
  - exact bounds_square10.
  - lra.
Defined.

(** ** Solar roof: the panel layout *)

Lemma int_between (x : R) (z : Z) :
  (0 <= z)%Z -> IZR z <= x < IZR z + 1 -> Py.int x = z.
Proof.
  intros Hz [Hlo Hhi]. unfold Py.int.
  assert (H0 : 0 <= IZR z) by (apply IZR_le in Hz; exact Hz).
  destruct (Rle_dec 0 x) as [_|Hx]; [|lra].
  symmetry. apply Int_part_spec. lra.
Qed.

Lemma new_Face3D_ok (pts : list Point3D) :
  (3 <= List.length pts)%nat -> new_Face3D pts = Ok (mkFace3D pts).
Proof.
  intros Hlen. unfold new_Face3D.
  destruct (Nat.ltb_spec (List.length pts) 3); [lia | reflexivity].
Qed.

Lemma new_Face3D_few (pts : list Point3D) :
  (List.length pts < 3)%nat -> new_Face3D pts = Raise AssertionError.
Proof.
  intros Hlen. unfold new_Face3D.
  destruct (Nat.ltb_spec (List.length pts) 3); [reflexivity | lia].
Qed.

Lemma flat_roof_ok (fp : list Point3D) (height thickness slope : R) :
  (3 <= List.length fp)%nat ->
  exists f, create_flat_roof fp height thickness slope = Ok f.
Proof.
  intros Hfp. unfold create_flat_roof.
  assert (Hlen : INR (List.length fp) <> 0) by (apply not_0_INR; lia).
  rewrite !truediv_ok by exact Hlen. cbn [Py.bind]. cbv zeta.
  rewrite new_Face3D_ok by (rewrite length_map; exact Hfp).
  eexists; reflexivity.
Qed.

(** C1 fails on the code. On the 10 x 10 footprint with the default
    parameters (coverage 0.8) the generator counts 5 x 10 slots without the
    gap between panels and then places the panels with the gap: the tenth
    panel of the first column reaches y = 10.9, beyond [max_y = 10]. *)
Theorem solar_panel_leaves_footprint :
  bounds square10 = Ok (0, 10, 0, 10)
  /\ exists roof_faces panel_faces,
       create_roof square10 10 "solar" no_params = Ok (roof_faces, panel_faces)
       /\ List.length panel_faces = 40%nat
       /\ exists panel v,
            nth_error panel_faces 9 = Some panel
            /\ nth_error (vertices panel) 2 = Some v
            /\ py v = 10.9
            /\ 10 < py v.
Proof.
  split; [exact bounds_square10|].
  destruct (flat_roof_ok square10 10 0.3 0) as [flat Hflat]; [cbn; lia|].
  assert (Hx : Py.int ((10 - 0) / panel_width) = 5%Z)
    by (apply int_between; [lia | unfold panel_width; lra]).
  assert (Hy : Py.int ((10 - 0) / panel_height) = 10%Z)
    by (apply int_between; [lia | unfold panel_height; lra]).
  assert (Hn : Py.int (IZR 50 * 0.8) = 40%Z)
    by (apply int_between; [lia | lra]).
  change (create_roof square10 10 "solar" no_params)
    with (create_solar_roof square10 10 15 "south" 0.8).
  unfold create_solar_roof. rewrite bounds_square10. cbn [Py.bind].
  rewrite Hflat. cbn [Py.bind].
  rewrite Hx, Hy. change (5 * 10)%Z with 50%Z. rewrite Hn.
  do 2 eexists. split; [reflexivity|].
  cbv [Py.range Z.to_nat Pos.to_nat Pos.iter_op Nat.add seq fold_left
       place_panel Z.ltb Z.compare Pos.compare Pos.compare_cont Z.add Pos.add
       Pos.succ Pos.add_carry snd app List.length nth_error].
  split; [reflexivity|].
  do 2 eexists. split; [reflexivity|].
  cbn [panel_pts String.eqb Ascii.eqb Bool.eqb lift_vertex set_item corner nth
       vertices nth_error px py pz].
  split; [reflexivity|].
  cbn [py]. unfold panel_height, panel_spacing. simpl INR.
  split; lra.
Qed.

(** ** Dispatch: what [create_roof] does with degenerate requests *)

(** C3 as stated fails: [create_roof] checks nothing.  With base height 0
    the gable roof of the 10 x 10 footprint is generated; with a negative
    base height and a footprint of width 0 the hip roof is generated. *)
Lemma degenerate_request_is_not_rejected :
  (exists faces,
      create_roof square10 0 "gable" no_params = Ok (faces, [])
      /\ List.length faces = 4%nat)
  /\ (exists faces,
         create_roof (building_footprint (mkPoint3D 0 0 0) 0 10) (-3) "hip"
                     no_params = Ok (faces, [])
         /\ List.length faces = 4%nat).
Proof.
  split.
  - change (create_roof square10 0 "gable" no_params)
      with (fs <- create_gable_roof square10 0 3 "y" 30 ;;
            Ok (fs, @nil Face3D)).
    unfold create_gable_roof. rewrite bounds_square10. cbn.
    eexists; split; reflexivity.
  - rewrite create_roof_hip.
    assert (Hb : bounds (building_footprint (mkPoint3D 0 0 0) 0 10)
                 = Ok (0, 0 + 0, 0, 0 + 10))
      by (apply (bounds_building_footprint (mkPoint3D 0 0 0)); lra).
    rewrite (hip_faces _ _ _ _ _ _ _ _ Hb). cbn [Py.bind].
    eexists; split; reflexivity.
Qed.

(** C3, amended. A zero or negative dimension is no configuration error:
    [create_roof] checks neither the width, nor the depth, nor the base
    height.  On every footprint of at least three points, whatever its
    width and depth, and for every base height, it generates the faces of
    the requested roof (a sawtooth roof needs a section width other than
    0).  No footprint is substituted for an empty one: every roof type
    raises on it. *)
Theorem create_roof_validates_nothing :
  (forall fp height roof_type params,
      (3 <= List.length fp)%nat ->
      (roof_type = "sawtooth" -> Py.get (section_width params) 4 <> 0) ->
      exists roof_faces solar_panels,
        create_roof fp height roof_type params = Ok (roof_faces, solar_panels))
  /\ (forall height roof_type params,
         exists e, create_roof [] height roof_type params = Raise e).
Proof.
  split.
  - intros fp height roof_type params Hlen Hsaw.
    assert (Hfp : fp <> []) by (destruct fp; [cbn in Hlen; lia | discriminate]).
    destruct (bounds_nonempty fp Hfp) as [[[[min_x max_x] min_y] max_y] Hb].
    pose proof (fun t s => flat_roof_ok fp height t s Hlen) as Hflat.
    unfold create_roof.
    repeat match goal with
    | |- context [roof_type =? ?s] =>
        let E := fresh "E" in destruct (roof_type =? s) eqn:E
    end;
    try (match goal with
         | |- context [create_flat_roof fp height ?t ?s] =>
             destruct (Hflat t s) as [f ->]; cbn [Py.bind]; eauto
         end);
    try (cbv beta delta [create_gable_roof create_pyramid_roof create_hip_roof
           create_shed_roof create_mansard_roof create_butterfly_roof
           create_curved_roof]; rewrite Hb; simpl;
         repeat match goal with
         | |- context [if ?c then _ else _] => destruct c; simpl
         end; eauto; fail).
    + match goal with
      | E : (roof_type =? "sawtooth") = true |- _ => apply String.eqb_eq in E;
          rewrite (sawtooth_result _ _ _ _ _ _ _ _ _ Hb (Hsaw E))
      end.
      cbn [Py.bind]. eauto.
    + unfold create_solar_roof. rewrite Hb. cbn [Py.bind].
      destruct (Hflat 0.3 0) as [f ->]. cbn [Py.bind]. eauto.
  - intros height roof_type params. unfold create_roof.
    assert (Hflat : forall t s, create_flat_roof [] height t s
                                = Raise ZeroDivisionError).
    { intros t s. unfold create_flat_roof. cbn [List.length INR].
      rewrite truediv_zero. reflexivity. }
    repeat match goal with
    | |- context [roof_type =? ?s] => destruct (roof_type =? s)
    end;
    rewrite ?Hflat; cbn; eauto.
Qed.

Lemma create_roof_validates_nothing_witness :
  exists roof_faces solar_panels,
    create_roof square10 (-3) "sawtooth" no_params
    = Ok (roof_faces, solar_panels).
Proof.
  apply (proj1 create_roof_validates_nothing square10 (-3) "sawtooth" no_params).
  - cbn. lia.
  - intros _. cbn. lra.
Defined.

(** ** The suitability scorer *)

Import Scorer.

(** *** Minimum and maximum of a batch *)

Lemma fold_Rmin_spec (l : list R) (a : R) :
  In (fold_left Rmin l a) (a :: l)
  /\ Forall (fun x => fold_left Rmin l a <= x) (a :: l).
Proof.
  revert a; induction l as [|x l IH]; intros a.
  - simpl. split; [auto | constructor; [lra | constructor]].
  - cbn [fold_left]. destruct (IH (Rmin a x)) as [Hin Hall].
    inversion Hall as [|? ? Hhd Htl]; subst.
    split.
    + destruct Hin as [Hin | Hin]; [|right; right; exact Hin].
      rewrite <- Hin. unfold Rmin. destruct (Rle_dec a x); simpl; auto.
    + constructor; [|constructor]; try exact Htl.
      * eapply Rle_trans; [exact Hhd | apply Rmin_l].
      * eapply Rle_trans; [exact Hhd | apply Rmin_r].
Qed.

Lemma fold_Rmax_spec (l : list R) (a : R) :
  In (fold_left Rmax l a) (a :: l)
  /\ Forall (fun x => x <= fold_left Rmax l a) (a :: l).
Proof.
  revert a; induction l as [|x l IH]; intros a.
  - simpl. split; [auto | constructor; [lra | constructor]].
  - cbn [fold_left]. destruct (IH (Rmax a x)) as [Hin Hall].
    inversion Hall as [|? ? Hhd Htl]; subst.
    split.
    + destruct Hin as [Hin | Hin]; [|right; right; exact Hin].
      rewrite <- Hin. unfold Rmax. destruct (Rle_dec a x); simpl; auto.
    + constructor; [|constructor]; try exact Htl.
      * eapply Rle_trans; [apply Rmax_l | exact Hhd].
      * eapply Rle_trans; [apply Rmax_r | exact Hhd].
Qed.

(** *** The sort *)

Lemma insert_desc_perm {A : Type} (key : A -> R) (x : A) (l : list A) :
  Permutation (insert_desc key x l) (x :: l).
Proof.
  induction l as [|y l IH]; simpl.
  - apply Permutation_refl.
  - destruct (Rle_dec (key y) (key x)).
    + apply Permutation_refl.
    + eapply perm_trans; [apply perm_skip, IH | apply perm_swap].
Qed.

Lemma sort_desc_perm {A : Type} (key : A -> R) (l : list A) :
  Permutation (sort_desc key l) l.
Proof.
  induction l as [|x l IH]; simpl.
  - apply perm_nil.
  - eapply perm_trans; [apply insert_desc_perm | apply perm_skip, IH].
Qed.

(** *** The result of [calculate_solar_potential], written out *)

Lemma potential_result (r : RoofAccess) (rest : list RoofAccess) :
  let ws := map weighted_hours rest in
  let max_w := fold_left Rmax ws (weighted_hours r) in
  let min_w := fold_left Rmin ws (weighted_hours r) in
  calculate_solar_potential (r :: rest)
  = Ok (sort_desc suitability
          (map (roof_potential min_w (Rmax (max_w - min_w) 0.001)) (r :: rest))).
Proof. reflexivity. Qed.

Lemma access_roof_potential (m g : R) (l : list RoofAccess) :
  map access (map (roof_potential m g) l) = l.
Proof.
  induction l as [|r l IH]; simpl; [reflexivity | rewrite IH; reflexivity].
Qed.

(** Every record of a scored batch is the image of a roof of the batch. *)
Lemma scored_batch (batch : list RoofAccess) :
  exists scores min_w max_w,
    calculate_solar_potential batch = Ok scores
    /\ Permutation (map access scores) batch
    /\ (batch = [] \/
        (In min_w (map weighted_hours batch)
         /\ In max_w (map weighted_hours batch)))
    /\ Forall (fun r => min_w <= weighted_hours r <= max_w) batch
    /\ Forall (fun s => s = roof_potential min_w (Rmax (max_w - min_w) 0.001)
                             (access s)) scores.
Proof.
  destruct batch as [|r rest].
  - exists [], 0, 0. simpl. repeat split; auto; congruence.
  - set (ws := map weighted_hours rest).
    set (max_w := fold_left Rmax ws (weighted_hours r)).
    set (min_w := fold_left Rmin ws (weighted_hours r)).
    destruct (fold_Rmin_spec ws (weighted_hours r)) as [Hmin_in Hmin].
    destruct (fold_Rmax_spec ws (weighted_hours r)) as [Hmax_in Hmax].
    fold min_w in Hmin_in, Hmin. fold max_w in Hmax_in, Hmax.
    exists (sort_desc suitability
              (map (roof_potential min_w (Rmax (max_w - min_w) 0.001))
                   (r :: rest))), min_w, max_w.
    split; [apply potential_result|].
    split.
    { eapply perm_trans.
      - apply Permutation_map, sort_desc_perm.
      - rewrite access_roof_potential. apply Permutation_refl. }
    split; [right; split; assumption|].
    split.
    { change (weighted_hours r :: ws) with (map weighted_hours (r :: rest))
        in Hmin, Hmax.
      rewrite Forall_map in Hmin, Hmax.
      rewrite Forall_forall in *. intros x Hx. split; auto. }
    { eapply Permutation_Forall.
      - apply Permutation_sym, sort_desc_perm.
      - apply Forall_forall. intros s Hs. apply in_map_iff in Hs.
        destruct Hs as [x [<- _]]. reflexivity. }
Qed.

(** C7. [calculate_solar_potential] returns one record per roof of the
    batch, and the suitability of every record is
    [0.25 * tilt_factor + 0.25 * azimuth_factor + 0.5 * exposure_factor]
    with [tilt_factor = 1 - min(|tilt - 35|, 90) / 90],
    [azimuth_factor = 1 - min(|azimuth - 180|, 180) / 180] and the exposure
    factor the weighted hours of the roof normalised between the smallest
    and the largest weighted hours of the batch (the range being at least
    0.001). *)
Theorem suitability_is_weighted_sum :
  forall batch : list RoofAccess,
  exists scores min_w max_w,
    calculate_solar_potential batch = Ok scores
    /\ Permutation (map access scores) batch
    /\ (batch = [] \/
        (In min_w (map weighted_hours batch)
         /\ In max_w (map weighted_hours batch)))
    /\ Forall (fun r => min_w <= weighted_hours r <= max_w) batch
    /\ Forall
         (fun s =>
            let p := props (access s) in
            suitability s
            = 0.25 * (1 - Rmin (Rabs (tilt p - 35)) 90 / 90)
              + 0.25 * (1 - Rmin (Rabs (azimuth p - 180)) 180 / 180)
              + 0.5 * ((weighted_hours (access s) - min_w)
                       / Rmax (max_w - min_w) 0.001))
         scores.
Proof.
  intros batch.
  destruct (scored_batch batch)
    as (scores & min_w & max_w & Hok & Hperm & Hin & Hrange & Hall).
  exists scores, min_w, max_w. repeat (split; [assumption|]).
  eapply Forall_impl; [|exact Hall].
  intros s Hs; simpl. rewrite Hs at 1. reflexivity.
Qed.

(** *** No samples *)

(** On its own [analyze_solar_access] raises when there is a roof and no
    sample: the share of sunlit hours divides by the number of hours. *)
Lemma analyze_solar_access_no_samples (r : RoofProps) (rest : list RoofProps) :
  analyze_solar_access (r :: rest) [] = Raise ZeroDivisionError.
Proof.
  unfold analyze_solar_access; cbn [for_each].
  unfold roof_access; cbn [fold_left List.length INR].
  rewrite truediv_zero. reflexivity.
Qed.

Lemma main_analysis_no_samples (roof_props : list RoofProps) :
  main_analysis roof_props []
  = calculate_solar_potential (map zero_access roof_props).
Proof.
  unfold main_analysis. destruct roof_props as [|r rest].
  - reflexivity.
  - rewrite analyze_solar_access_no_samples. reflexivity.
Qed.

(** With no sun sample the analysis of [main] goes on: the exception of
    [analyze_solar_access] is caught, every roof of the batch gets zero
    weighted hours, and a record is produced for every roof, with exposure
    factor 0: its suitability is the tilt and azimuth part alone. *)
Lemma main_no_samples_scores :
  forall roof_props : list RoofProps,
  exists scores,
    main_analysis roof_props [] = Ok scores
    /\ Permutation (map (fun s => props (access s)) scores) roof_props
    /\ Forall
         (fun s =>
            let p := props (access s) in
            weighted_hours (access s) = 0
            /\ suitability s
               = 0.25 * tilt_factor (tilt p) + 0.25 * azimuth_factor (azimuth p)
                 + 0.5 * 0)
         scores.
Proof.
  intros roof_props. rewrite main_analysis_no_samples.
  destruct (scored_batch (map zero_access roof_props))
    as (scores & min_w & max_w & Hok & Hperm & Hin & _ & Hall).
  exists scores. split; [exact Hok|].
  assert (Hzero : Forall (fun a => weighted_hours a = 0) (map access scores)).
  { eapply Permutation_Forall; [apply Permutation_sym, Hperm|].
    rewrite Forall_map. apply Forall_forall. reflexivity. }
  split.
  - rewrite <- (map_map access props).
    eapply perm_trans; [apply Permutation_map, Hperm|].
    rewrite map_map. simpl. rewrite map_id. apply Permutation_refl.
  - rewrite Forall_map in Hzero.
    assert (Hmm : scores = [] \/ (min_w = 0 /\ max_w = 0)).
    { destruct Hin as [Hnil | [Hmin Hmax]].
      - left. apply Permutation_sym in Hperm. rewrite Hnil in Hperm.
        apply Permutation_nil in Hperm.
        destruct scores; [reflexivity | discriminate].
      - right. rewrite map_map in Hmin, Hmax. simpl in Hmin, Hmax.
        apply in_map_iff in Hmin, Hmax.
        destruct Hmin as [? [<- _]], Hmax as [? [<- _]]. auto. }
    destruct Hmm as [-> | [-> ->]]; [constructor|].
    rewrite Forall_forall in *. intros s Hs. simpl.
    pose proof (Hzero s Hs) as Hw. split; [exact Hw|].
    rewrite (Hall s Hs) at 1. simpl. unfold weighted_factor.
    rewrite Hw. f_equal. f_equal. lra.
Qed.

(** C2 as stated fails: with no sample and one roof the scorer
    [analyze_solar_access] raises a division by zero. *)
Lemma scorer_fails_without_samples :
  analyze_solar_access [roof_properties south_wall] []
  = Raise ZeroDivisionError.
Proof. apply analyze_solar_access_no_samples. Qed.

(** C2, amended. With no sun sample and at least one roof
    [analyze_solar_access] fails with a division by zero (with no roof it
    returns the empty list).  It is the exception handler of [main] that
    then gives every roof zero hours, after which
    [calculate_solar_potential] still produces a record for every roof,
    with exposure factor 0. *)
Theorem no_samples_raise_and_main_recovers :
  (forall r rest,
      analyze_solar_access (r :: rest) [] = Raise ZeroDivisionError)
  /\ analyze_solar_access [] [] = Ok []
  /\ (forall roof_props : list RoofProps,
       exists scores,
         main_analysis roof_props [] = Ok scores
         /\ calculate_solar_potential (map zero_access roof_props) = Ok scores
         /\ Permutation (map (fun s => props (access s)) scores) roof_props
         /\ Forall
              (fun s =>
                 let p := props (access s) in
                 weighted_hours (access s) = 0
                 /\ suitability s
                    = 0.25 * tilt_factor (tilt p)
                      + 0.25 * azimuth_factor (azimuth p) + 0.5 * 0)
              scores).
Proof.
  split; [exact analyze_solar_access_no_samples|].
  split; [reflexivity|].
  intros roof_props.
  destruct (main_no_samples_scores roof_props) as (scores & Hok & Hperm & Hall).
  exists scores. split; [exact Hok|].
  split; [rewrite <- main_analysis_no_samples; exact Hok|].
  split; assumption.
Qed.

(** *** Ranges of slope, azimuth and suitability *)

Lemma degrees_bounds (a : R) :
  0 <= a <= PI -> 0 <= a * 180 / PI <= 180.
Proof.
  intros [Hlo Hhi]. pose proof PI_RGT_0 as HPI.
  assert (H : 0 <= a / PI <= 1).
  { split.
    - apply Rmult_le_pos; [lra | apply Rlt_le, Rinv_0_lt_compat; lra].
    - apply Rmult_le_reg_r with PI; [lra|].
      unfold Rdiv. rewrite Rmult_assoc, Rinv_l by lra. lra. }
  replace (a * 180 / PI) with (180 * (a / PI)) by (field; lra). lra.
Qed.

Lemma degrees_lt (a b : R) : a < b -> a * 180 / PI < b * 180 / PI.
Proof.
  intros Hab. pose proof PI_RGT_0 as HPI.
  unfold Rdiv. apply Rmult_lt_compat_r; [apply Rinv_0_lt_compat; lra | lra].
Qed.

Lemma degrees_half_pi : PI / 2 * 180 / PI = 90.
Proof. pose proof PI_RGT_0. field. lra. Qed.

Lemma acos_of_nonneg (x : R) : 0 <= x -> acos x <= PI / 2.
Proof.
  intros Hx. pose proof PI_RGT_0 as HPI.
  destruct (Rle_dec 1 x) as [H1|H1].
  - unfold acos. destruct (Rle_dec x (-1)); [lra|].
    destruct (Rle_dec 1 x); lra.
  - destruct (Rle_dec (acos x) (PI / 2)) as [|Hgt]; [assumption|].
    exfalso. pose proof (acos_bound x) as [_ Hb].
    assert (Hc : cos (acos x) < 0) by (apply cos_lt_0; lra).
    rewrite cos_acos in Hc by lra. lra.
Qed.

Lemma acos_of_neg (x : R) : x < 0 -> PI / 2 < acos x.
Proof.
  intros Hx. pose proof PI_RGT_0 as HPI.
  destruct (Rle_dec x (-1)) as [H1|H1].
  - unfold acos. destruct (Rle_dec x (-1)); lra.
  - destruct (Rlt_dec (PI / 2) (acos x)) as [|Hle]; [assumption|].
    exfalso. pose proof (acos_bound x) as [Hb _].
    assert (Hc : 0 <= cos (acos x)) by (apply cos_ge_0; lra).
    rewrite cos_acos in Hc by lra. lra.
Qed.

Lemma magnitude_up : magnitude (mkVector3D 0 0 1) = 1.
Proof.
  unfold magnitude; simpl.
  replace (0 * 0 + 0 * 0 + 1 * 1) with 1 by lra. apply sqrt_1.
Qed.

Lemma magnitude_north : magnitude (mkVector3D 0 1 0) = 1.
Proof.
  unfold magnitude; simpl.
  replace (0 * 0 + 1 * 1 + 0 * 0) with 1 by lra. apply sqrt_1.
Qed.

(** The slope of a roof with a unit normal, in terms of the normal's z. *)
Lemma tilt_of_unit_normal (r : RoofSurface) :
  magnitude (geometry_normal r) = 1 ->
  tilt (roof_properties r) = 90 - acos (vz (geometry_normal r)) * 180 / PI.
Proof.
  intros Hunit. unfold roof_properties; cbn [tilt]. unfold angle.
  rewrite Hunit, magnitude_up. unfold dot; cbn [vx vy vz].
  set (n := geometry_normal r).
  replace ((vx n * 0 + vy n * 0 + vz n * 1) / (1 * 1)) with (vz n) by lra.
  reflexivity.
Qed.

(** The horizontal part of a normal, once normalised, makes an angle with
    north whose cosine is [y / m], [m] being its length. *)
Lemma azimuth_angle (x y : R) :
  let m := magnitude (mkVector3D x y 0) in
  m <> 0 ->
  angle (normalize (mkVector3D x y 0)) (mkVector3D 0 1 0) = acos (y / m).
Proof.
  intros m Hm. unfold normalize. fold m.
  destruct (Req_dec_T m 0) as [|_]; [contradiction|].
  unfold angle. rewrite magnitude_north. cbn [vx vy vz].
  assert (Hsq : m * m = x * x + y * y + 0 * 0).
  { unfold m, magnitude; cbn [vx vy vz]. apply sqrt_sqrt. nra. }
  assert (Hone : magnitude (mkVector3D (x / m) (y / m) (0 / m)) = 1).
  { unfold magnitude; cbn [vx vy vz].
    replace (x / m * (x / m) + y / m * (y / m) + 0 / m * (0 / m))
      with ((x * x + y * y + 0 * 0) / (m * m)) by (field; exact Hm).
    rewrite <- Hsq. unfold Rdiv. rewrite Rinv_r; [apply sqrt_1|].
    apply Rmult_integral_contrapositive_currified; exact Hm. }
  rewrite Hone. unfold dot; cbn [vx vy vz]. f_equal. field. exact Hm.
Qed.

Lemma azimuth_range (r : RoofSurface) :
  0 <= azimuth (roof_properties r) < 360.
Proof.
  unfold roof_properties; cbn [azimuth].
  set (n := geometry_normal r).
  set (m := magnitude (mkVector3D (vx n) (vy n) 0)).
  destruct (Rlt_dec m 0.001) as [|Hm]; [lra|].
  assert (Hmpos : 0 < m) by lra.
  rewrite azimuth_angle by (fold m; lra). fold m.
  pose proof (degrees_bounds _ (acos_bound (vy n / m))) as Hdeg.
  destruct (Rlt_dec (vx n) 0) as [Hx|Hx]; [|lra].
  assert (Hsq : m * m = vx n * vx n + vy n * vy n + 0 * 0).
  { unfold m, magnitude; cbn [vx vy vz]. apply sqrt_sqrt. nra. }
  assert (Hc : -1 < vy n / m < 1).
  { assert (Hy : - m < vy n < m) by (split; nra).
    split.
    - apply Rmult_lt_reg_r with m; [lra|].
      unfold Rdiv. rewrite Rmult_assoc, Rinv_l by lra. lra.
    - apply Rmult_lt_reg_r with m; [lra|].
      unfold Rdiv. rewrite Rmult_assoc, Rinv_l by lra. lra. }
  pose proof (acos_bound_lt _ Hc) as [Hpos _].
  pose proof (degrees_lt _ _ Hpos) as Hd.
  replace (0 * 180 / PI) with 0 in Hd by (unfold Rdiv; lra). lra.
Qed.

Lemma tilt_factor_range (t : R) : 0 <= tilt_factor t <= 1.
Proof.
  unfold tilt_factor. pose proof (Rabs_pos (t - 35)) as Ha.
  pose proof (Rmin_r (Rabs (t - 35)) 90) as Hr.
  assert (Hl : 0 <= Rmin (Rabs (t - 35)) 90) by (apply Rmin_glb; lra).
  lra.
Qed.

Lemma azimuth_factor_range (a : R) : 0 <= azimuth_factor a <= 1.
Proof.
  unfold azimuth_factor. pose proof (Rabs_pos (a - 180)) as Ha.
  pose proof (Rmin_r (Rabs (a - 180)) 180) as Hr.
  assert (Hl : 0 <= Rmin (Rabs (a - 180)) 180) by (apply Rmin_glb; lra).
  lra.
Qed.

Lemma weighted_factor_range (w min_w max_w : R) :
  min_w <= w <= max_w ->
  0 <= weighted_factor w min_w (Rmax (max_w - min_w) 0.001) <= 1.
Proof.
  intros [Hlo Hhi]. unfold weighted_factor.
  set (g := Rmax (max_w - min_w) 0.001).
  assert (Hg1 : max_w - min_w <= g) by apply Rmax_l.
  assert (Hg2 : 0.001 <= g) by apply Rmax_r.
  assert (Hg : 0 < g) by lra.
  split.
  - apply Rmult_le_pos; [lra | apply Rlt_le, Rinv_0_lt_compat; exact Hg].
  - apply Rmult_le_reg_r with g; [exact Hg|].
    unfold Rdiv. rewrite Rmult_assoc, Rinv_l by lra. lra.
Qed.

(** C8 as stated fails for the slope: a unit normal that points straight
    down gives the slope -90. *)
Lemma downward_normal_negative_slope :
  magnitude (geometry_normal downward_roof) = 1
  /\ tilt (roof_properties downward_roof) = -90.
Proof.
  pose proof PI_RGT_0 as HPI.
  assert (Hunit : magnitude (geometry_normal downward_roof) = 1).
  { unfold magnitude; simpl.
    replace (0 * 0 + 0 * 0 + -1 * -1) with 1 by lra. apply sqrt_1. }
  split; [exact Hunit|].
  rewrite (tilt_of_unit_normal _ Hunit). cbn [downward_roof geometry_normal vz].
  replace (-1) with (- (1)) by lra. rewrite acos_opp, acos_1.
  field. lra.
Qed.

(** C8, amended. For a roof with a unit normal the slope lies in
    [-90, 90]; it is non-negative exactly when the normal does not point
    downward.  The azimuth lies in [0, 360).  The suitability of every
    record of every batch lies in [0, 1]. *)
Theorem scorer_ranges :
  (forall r : RoofSurface,
      magnitude (geometry_normal r) = 1 ->
      let p := roof_properties r in
      -90 <= tilt p <= 90
      /\ (0 <= vz (geometry_normal r) -> 0 <= tilt p)
      /\ (vz (geometry_normal r) < 0 -> tilt p < 0)
      /\ 0 <= azimuth p < 360)
  /\ (forall batch : list RoofAccess,
         exists scores,
           calculate_solar_potential batch = Ok scores
           /\ Permutation (map access scores) batch
           /\ Forall (fun s => 0 <= suitability s <= 1) scores).
Proof.
  split.
  - intros r Hunit p. subst p.
    rewrite (tilt_of_unit_normal _ Hunit).
    set (z := vz (geometry_normal r)).
    pose proof (degrees_bounds _ (acos_bound z)) as Hdeg.
    split; [lra|]. split; [|split].
    + intros Hz. pose proof (acos_of_nonneg z Hz) as Ha.
      pose proof (acos_bound z) as [Hlo _].
      assert (Hd : acos z * 180 / PI <= PI / 2 * 180 / PI).
      { destruct Ha as [Ha | ->]; [apply Rlt_le, degrees_lt; exact Ha | lra]. }
      rewrite degrees_half_pi in Hd. lra.
    + intros Hz. pose proof (degrees_lt _ _ (acos_of_neg z Hz)) as Hd.
      rewrite degrees_half_pi in Hd. lra.
    + apply azimuth_range.
  - intros batch.
    destruct (scored_batch batch)
      as (scores & min_w & max_w & Hok & Hperm & _ & Hrange & Hall).
    exists scores. split; [exact Hok|]. split; [exact Hperm|].
    assert (Hrange' : Forall (fun r => min_w <= weighted_hours r <= max_w)
                        (map access scores)).
    { eapply Permutation_Forall; [apply Permutation_sym, Hperm | exact Hrange]. }
    rewrite Forall_map in Hrange'.
    rewrite Forall_forall in *. intros s Hs.
    rewrite (Hall s Hs). cbn [suitability roof_potential].
    pose proof (tilt_factor_range (tilt (props (access s)))).
    pose proof (azimuth_factor_range (azimuth (props (access s)))).
    pose proof (weighted_factor_range _ _ _ (Hrange' s Hs)).
    lra.
Qed.

Lemma scorer_ranges_witness :
  -90 <= tilt (roof_properties south_wall) <= 90
  /\ (0 <= vz (geometry_normal south_wall)
      -> 0 <= tilt (roof_properties south_wall))
  /\ (vz (geometry_normal south_wall) < 0
      -> tilt (roof_properties south_wall) < 0)
  /\ 0 <= azimuth (roof_properties south_wall) < 360.
Proof.
  apply (proj1 scorer_ranges south_wall).
  unfold magnitude; simpl.
  replace (0 * 0 + -1 * -1 + 0 * 0) with 1 by lra. apply sqrt_1.
Defined.

(** * Further properties of the generators *)

(** ** Flat roof *)

(** The result of the flat generator on a footprint of at least three
    points. *)
Lemma flat_roof_result (fp : list Point3D) (height thickness slope : R) :
  (3 <= List.length fp)%nat ->
  let center_x := Py.sum (map px fp) / INR (List.length fp) in
  let center_y := Py.sum (map py fp) / INR (List.length fp) in
  create_flat_roof fp height thickness slope
  = Ok (mkFace3D
          (map (fun pt =>
                  mkPoint3D (px pt) (py pt)
                    (height + thickness
                     - sqrt ((px pt - center_x) ^ 2 + (py pt - center_y) ^ 2)
                       * slope / 100))
               fp)).
Proof.
  intros Hfp. unfold create_flat_roof.
  assert (Hlen : INR (List.length fp) <> 0) by (apply not_0_INR; lia).
  rewrite !truediv_ok by exact Hlen. cbn [Py.bind]. cbv zeta.
  rewrite new_Face3D_ok by (rewrite length_map; exact Hfp). reflexivity.
Qed.

(** With one or two points the face cannot be built. *)
Lemma flat_roof_few (fp : list Point3D) (height thickness slope : R) :
  (1 <= List.length fp < 3)%nat ->
  create_flat_roof fp height thickness slope = Raise AssertionError.
Proof.
  intros Hfp. unfold create_flat_roof.
  assert (Hlen : INR (List.length fp) <> 0) by (apply not_0_INR; lia).
  rewrite !truediv_ok by exact Hlen. cbn [Py.bind]. cbv zeta.
  apply new_Face3D_few. rewrite length_map. lia.
Qed.

Lemma flat_roof_empty (height thickness slope : R) :
  create_flat_roof [] height thickness slope = Raise ZeroDivisionError.
Proof.
  unfold create_flat_roof. cbn [List.length INR].
  rewrite truediv_zero. reflexivity.
Qed.

(** X1. On a footprint of at least three points and with [slope = 0] the
    flat roof is the footprint itself, vertex by vertex, lifted to
    [height + roof_thickness].  On an empty footprint the generator raises
    a division by zero, and on one or two points the face cannot be built:
    [Face3D] raises [AssertionError]. *)
Theorem flat_roof_without_slope :
  (forall fp height thickness,
      (3 <= List.length fp)%nat ->
      create_flat_roof fp height thickness 0
      = Ok (mkFace3D
              (map (fun pt => mkPoint3D (px pt) (py pt) (height + thickness))
                   fp)))
  /\ (forall height thickness slope,
         create_flat_roof [] height thickness slope
         = Raise ZeroDivisionError)
  /\ (forall fp height thickness slope,
         (1 <= List.length fp < 3)%nat ->
         create_flat_roof fp height thickness slope = Raise AssertionError).
Proof.
  split; [|split].
  - intros fp height thickness Hfp.
    rewrite (flat_roof_result fp height thickness 0 Hfp). cbv zeta.
    do 2 f_equal. apply map_ext. intros pt. f_equal. lra.
  - apply flat_roof_empty.
  - apply flat_roof_few.
Qed.

Lemma flat_roof_without_slope_witness :
  create_flat_roof square10 10 0.3 0
  = Ok (mkFace3D
          (map (fun pt => mkPoint3D (px pt) (py pt) (10 + 0.3)) square10)).
Proof.
  apply (proj1 flat_roof_without_slope square10 10 0.3).
  cbn. lia.
Defined.

(** X2. On the rectangular footprint of a building the [slope] parameter
    does not incline the flat roof: the four corners are equally far from
    the centre, so all four are lowered by the same amount and the face
    stays horizontal. *)
Theorem flat_roof_on_rectangle_stays_level :
  forall origin width depth height thickness slope,
    let z := height + thickness
             - sqrt ((width / 2) ^ 2 + (depth / 2) ^ 2) * slope / 100 in
    create_flat_roof (building_footprint origin width depth)
                     height thickness slope
    = Ok (mkFace3D
            [ mkPoint3D (px origin) (py origin) z;
              mkPoint3D (px origin + width) (py origin) z;
              mkPoint3D (px origin + width) (py origin + depth) z;
              mkPoint3D (px origin) (py origin + depth) z ]).
Proof.
  intros origin width depth height thickness slope z.
  rewrite flat_roof_result by (cbn; lia).
  unfold building_footprint, Py.sum.
  cbn [map fold_left List.length px py pz].
  replace (INR 4) with 4 by (simpl; lra).
  subst z.
  repeat (f_equal; try (f_equal; field)).
Qed.

(** X3. On a footprint of at least three points and with a non-negative
    [slope] no vertex of the flat roof lies above
    [height + roof_thickness], and the roof keeps the x and y of every
    footprint vertex, in order. *)
Theorem flat_roof_never_rises :
  forall fp height thickness slope,
    (3 <= List.length fp)%nat -> 0 <= slope ->
    exists f,
      create_flat_roof fp height thickness slope = Ok f
      /\ map px (vertices f) = map px fp
      /\ map py (vertices f) = map py fp
      /\ Forall (fun v => pz v <= height + thickness) (vertices f).
Proof.
  intros fp height thickness slope Hfp Hs.
  rewrite (flat_roof_result fp height thickness slope Hfp). cbv zeta.
  eexists. split; [reflexivity|]. cbn [vertices].
  rewrite !map_map. cbn [px py].
  repeat split; try reflexivity.
  rewrite Forall_map. apply Forall_forall. intros pt _. cbn [pz].
  match goal with |- context [sqrt ?a] => pose proof (sqrt_pos a) as Hq end.
  assert (0 <= sqrt ((px pt - Py.sum (map px fp) / INR (List.length fp)) ^ 2
                     + (py pt - Py.sum (map py fp) / INR (List.length fp)) ^ 2)
               * slope / 100).
  { unfold Rdiv. apply Rmult_le_pos; [apply Rmult_le_pos; assumption | lra]. }
  lra.
Qed.

Lemma flat_roof_never_rises_witness :
  exists f,
    create_flat_roof square10 10 0.3 0.5 = Ok f
    /\ map px (vertices f) = map px square10
    /\ map py (vertices f) = map py square10
    /\ Forall (fun v => pz v <= 10 + 0.3) (vertices f).
Proof.
  apply (flat_roof_never_rises square10 10 0.3 0.5).
  - cbn. lia.
  - lra.
Defined.

(** ** What the generators read from the footprint *)

Lemma py_min_perm (l l' : list R) :
  Permutation l l' -> Py.min l = Py.min l'.
Proof.
  intros Hp. destruct l as [|a l], l' as [|a' l'].
  - reflexivity.
  - apply Permutation_nil in Hp; discriminate.
  - apply Permutation_sym, Permutation_nil in Hp; discriminate.
  - unfold Py.min. f_equal.
    destruct (fold_Rmin_spec l a) as [Hin Hall].
    destruct (fold_Rmin_spec l' a') as [Hin' Hall'].
    rewrite Forall_forall in Hall, Hall'.
    apply Rle_antisym.
    + apply Hall. eapply Permutation_in; [apply Permutation_sym, Hp | exact Hin'].
    + apply Hall'. eapply Permutation_in; [exact Hp | exact Hin].
Qed.

Lemma py_max_perm (l l' : list R) :
  Permutation l l' -> Py.max l = Py.max l'.
Proof.
  intros Hp. destruct l as [|a l], l' as [|a' l'].
  - reflexivity.
  - apply Permutation_nil in Hp; discriminate.
  - apply Permutation_sym, Permutation_nil in Hp; discriminate.
  - unfold Py.max. f_equal.
    destruct (fold_Rmax_spec l a) as [Hin Hall].
    destruct (fold_Rmax_spec l' a') as [Hin' Hall'].
    rewrite Forall_forall in Hall, Hall'.
    apply Rle_antisym.
    + apply Hall'. eapply Permutation_in; [exact Hp | exact Hin].
    + apply Hall. eapply Permutation_in; [apply Permutation_sym, Hp | exact Hin'].
Qed.

Lemma bounds_perm (fp fp' : list Point3D) :
  Permutation fp fp' -> bounds fp = bounds fp'.
Proof.
  intros Hp. unfold bounds.
  rewrite (py_min_perm _ _ (Permutation_map px Hp)).
  rewrite (py_max_perm _ _ (Permutation_map px Hp)).
  rewrite (py_min_perm _ _ (Permutation_map py Hp)).
  rewrite (py_max_perm _ _ (Permutation_map py Hp)).
  reflexivity.
Qed.

(** The dispatch of [create_roof] on the eight roof types that start from
    the bounding box. *)
Lemma box_roof_by_bounds (fp fp' : list Point3D) (height : R)
    (roof_type : string) (params : RoofParams) :
  bounds fp = bounds fp' ->
  In roof_type box_roof_types ->
  create_roof fp height roof_type params
  = create_roof fp' height roof_type params.
Proof.
  intros Hb Hin. unfold box_roof_types in Hin. cbn [In] in Hin.
  repeat (destruct Hin as [<- | Hin]); try contradiction;
    unfold create_roof; cbn [String.eqb Ascii.eqb Bool.eqb];
    cbv beta delta [create_gable_roof create_pyramid_roof create_hip_roof
      create_shed_roof create_mansard_roof create_butterfly_roof
      create_sawtooth_roof create_curved_roof];
    rewrite Hb; reflexivity.
Qed.

(** X4. Gable, hip, pyramid, shed, mansard, butterfly, sawtooth and curved
    roofs depend on the footprint through its bounding box alone: two
    footprints with the same bounding box (an L-shaped one and its
    enclosing rectangle, say) get the same roof. *)
Theorem roof_depends_on_bounding_box_only :
  forall fp fp' height roof_type params,
    bounds fp = bounds fp' ->
    In roof_type box_roof_types ->
    create_roof fp height roof_type params
    = create_roof fp' height roof_type params.
Proof. exact box_roof_by_bounds. Qed.

Lemma roof_depends_on_bounding_box_only_witness :
  create_roof (mkPoint3D 5 5 0 :: square10) 10 "hip" no_params
  = create_roof square10 10 "hip" no_params.
Proof.
  apply roof_depends_on_bounding_box_only.
  - unfold bounds, square10, building_footprint; simpl. pick_minmax. reflexivity.
  - unfold box_roof_types; simpl; tauto.
Defined.

(** X5. For the same eight roof types the order of the footprint vertices
    does not matter. *)
Theorem roof_ignores_vertex_order :
  forall fp fp' height roof_type params,
    Permutation fp fp' ->
    In roof_type box_roof_types ->
    create_roof fp height roof_type params
    = create_roof fp' height roof_type params.
Proof.
  intros fp fp' height roof_type params Hp Hin.
  apply box_roof_by_bounds; [apply bounds_perm; exact Hp | exact Hin].
Qed.

Lemma roof_ignores_vertex_order_witness :
  create_roof (rev square10) 10 "gable" no_params
  = create_roof square10 10 "gable" no_params.
Proof.
  apply roof_ignores_vertex_order.
  - apply Permutation_sym, Permutation_rev.
  - unfold box_roof_types; simpl; tauto.
Defined.

Lemma map_by_xy {B : Type} (F : R -> R -> B) (fp fp' : list Point3D) :
  map px fp = map px fp' -> map py fp = map py fp' ->
  map (fun pt => F (px pt) (py pt)) fp = map (fun pt => F (px pt) (py pt)) fp'.
Proof.
  revert fp'; induction fp as [|p fp IH]; intros [|p' fp'] Hx Hy;
    try discriminate; [reflexivity|].
  cbn [map] in *. injection Hx as Hx1 Hx2. injection Hy as Hy1 Hy2.
  rewrite Hx1, Hy1, (IH fp' Hx2 Hy2). reflexivity.
Qed.

Lemma flat_roof_by_xy (fp fp' : list Point3D) (height thickness slope : R) :
  map px fp = map px fp' -> map py fp = map py fp' ->
  create_flat_roof fp height thickness slope
  = create_flat_roof fp' height thickness slope.
Proof.
  intros Hx Hy. unfold create_flat_roof.
  assert (Hlen : List.length fp = List.length fp')
    by (rewrite <- (length_map px fp), Hx; apply length_map).
  rewrite Hx, Hy, Hlen.
  destruct (Py.truediv (Py.sum (map px fp')) (INR (List.length fp')))
    as [cx|]; [|reflexivity].
  destruct (Py.truediv (Py.sum (map py fp')) (INR (List.length fp')))
    as [cy|]; [|reflexivity].
  cbn [Py.bind]. cbv zeta. f_equal.
  apply (map_by_xy
           (fun x y => mkPoint3D x y
              (height + thickness
               - sqrt ((x - cx) ^ 2 + (y - cy) ^ 2) * slope / 100)));
    assumption.
Qed.

Lemma bounds_by_xy (fp fp' : list Point3D) :
  map px fp = map px fp' -> map py fp = map py fp' -> bounds fp = bounds fp'.
Proof. intros Hx Hy. unfold bounds. rewrite Hx, Hy. reflexivity. Qed.

(** X6. No generator reads the z coordinate of the footprint: moving every
    footprint vertex to any elevation leaves the result of [create_roof]
    unchanged, for every roof type.  The roof is placed by [height] alone. *)
Theorem footprint_elevation_is_ignored :
  forall fp z height roof_type params,
    create_roof (map (fun pt => mkPoint3D (px pt) (py pt) z) fp)
                height roof_type params
    = create_roof fp height roof_type params.
Proof.
  intros fp z height roof_type params.
  set (fp' := map (fun pt => mkPoint3D (px pt) (py pt) z) fp).
  assert (Hx : map px fp' = map px fp)
    by (unfold fp'; rewrite map_map; reflexivity).
  assert (Hy : map py fp' = map py fp)
    by (unfold fp'; rewrite map_map; reflexivity).
  pose proof (bounds_by_xy _ _ Hx Hy) as Hb.
  pose proof (fun t s => flat_roof_by_xy fp' fp height t s Hx Hy) as Hflat.
  unfold create_roof.
  cbv beta delta [create_gable_roof create_pyramid_roof create_hip_roof
    create_shed_roof create_mansard_roof create_butterfly_roof
    create_sawtooth_roof create_curved_roof create_solar_roof].
  rewrite Hb, !Hflat. reflexivity.
Qed.

(** ** Unrecognised names *)

Lemma eqb_of_not_in (s : string) (l : list string) (x : string) :
  ~ In s l -> In x l -> (s =? x) = false.
Proof.
  intros Hn Hx. apply String.eqb_neq. intros ->. contradiction.
Qed.

(** X7. A roof type that is none of the ten known names is no error of its
    own: whatever the parameter dictionary holds, it is handled exactly as
    the flat roof with no parameters, so that on a footprint of at least
    three points it gets the footprint lifted to [height + 0.3] and no
    panels. *)
Theorem unknown_roof_type_gets_default_flat_roof :
  forall fp height roof_type params,
    ~ In roof_type known_roof_types ->
    create_roof fp height roof_type params
    = create_roof fp height "flat" no_params
    /\ ((3 <= List.length fp)%nat ->
        create_roof fp height roof_type params
        = Ok ([ mkFace3D
                  (map (fun pt => mkPoint3D (px pt) (py pt) (height + 0.3))
                       fp) ],
              [])).
Proof.
  intros fp height roof_type params Hn.
  assert (Hflat : create_roof fp height roof_type params
                  = create_roof fp height "flat" no_params).
  { unfold create_roof.
    rewrite !(eqb_of_not_in roof_type known_roof_types)
      by (try exact Hn; unfold known_roof_types; simpl; tauto).
    reflexivity. }
  split; [exact Hflat|]. intros Hfp. rewrite Hflat.
  unfold create_roof. cbn [String.eqb Ascii.eqb Bool.eqb Py.get no_params
    roof_thickness slope].
  rewrite (flat_roof_result fp height 0.3 0 Hfp). cbv zeta. cbn [Py.bind].
  do 4 f_equal. apply map_ext. intros pt. f_equal. lra.
Qed.

Lemma unknown_roof_type_gets_default_flat_roof_witness :
  create_roof square10 10 "dome" city_pyramid_params
  = create_roof square10 10 "flat" no_params
  /\ ((3 <= List.length square10)%nat ->
      create_roof square10 10 "dome" city_pyramid_params
      = Ok ([ mkFace3D
                (map (fun pt => mkPoint3D (px pt) (py pt) (10 + 0.3))
                     square10) ],
            [])).
Proof.
  apply unknown_roof_type_gets_default_flat_roof.
  unfold known_roof_types. simpl.
  intros H; repeat (destruct H as [H | H]; [discriminate H|]); exact H.
Defined.

(** X8. The gable generator treats every axis other than ["y"] as ["x"],
    and the shed generator treats every direction other than north, south
    and east as west. *)
Theorem unrecognised_axis_and_direction :
  (forall fp height roof_height axis slope_angle,
      axis <> "y" ->
      create_gable_roof fp height roof_height axis slope_angle
      = create_gable_roof fp height roof_height "x" slope_angle)
  /\ (forall fp height roof_height direction slope_angle,
         ~ In direction ["north"; "south"; "east"] ->
         create_shed_roof fp height roof_height direction slope_angle
         = create_shed_roof fp height roof_height "west" slope_angle).
Proof.
  split.
  - intros fp height roof_height axis slope_angle Ha.
    apply String.eqb_neq in Ha. unfold create_gable_roof.
    rewrite Ha. reflexivity.
  - intros fp height roof_height direction slope_angle Hn.
    unfold create_shed_roof.
    rewrite !(eqb_of_not_in direction ["north"; "south"; "east"])
      by (try exact Hn; simpl; tauto).
    reflexivity.
Qed.

Lemma unrecognised_axis_and_direction_witness :
  create_gable_roof square10 10 3 "z" 30
  = create_gable_roof square10 10 3 "x" 30.
Proof.
  apply (proj1 unrecognised_axis_and_direction).
  discriminate.
Defined.

(** ** Mansard and butterfly roofs *)

(** Splits a [Forall] over an explicit list into its elements. *)
Ltac each_element :=
  repeat first [ apply Forall_nil | apply Forall_cons ].

(** X9. The mansard generator returns four quadrilateral sides and one cap.
    The cap is half as wide and half as deep as the footprint and lies at
    [height + 0.7 * roof_height]; with a non-negative [roof_height] no
    vertex of the roof lies higher, so the roof never reaches
    [height + roof_height]. *)
Theorem mansard_stops_at_lower_band :
  forall fp min_x max_x min_y max_y height roof_height lower upper,
    bounds fp = Ok (min_x, max_x, min_y, max_y) ->
    0 <= roof_height ->
    exists s0 s1 s2 s3 cap,
      create_mansard_roof fp height roof_height lower upper
      = Ok [s0; s1; s2; s3; cap]
      /\ Forall (fun f => List.length (vertices f) = 4%nat) [s0; s1; s2; s3; cap]
      /\ x_extent cap = (max_x - min_x) / 2
      /\ y_extent cap = (max_y - min_y) / 2
      /\ Forall (fun v => pz v = height + 0.7 * roof_height) (vertices cap)
      /\ Forall (fun f =>
                   Forall (fun v => height <= pz v <= height + 0.7 * roof_height)
                          (vertices f))
                [s0; s1; s2; s3; cap].
Proof.
  intros fp min_x max_x min_y max_y height roof_height lower upper Hb Hrh.
  destruct (bounds_ordered _ _ _ _ _ Hb) as [Hx Hy].
  unfold create_mansard_roof. rewrite Hb. simpl.
  do 5 eexists. split; [reflexivity|].
  split; [each_element; reflexivity|].
  split; [unfold x_extent; simpl; pick_minmax; lra|].
  split; [unfold y_extent; simpl; pick_minmax; lra|].
  split; [each_element; simpl; lra|].
  each_element; simpl; lra.
Qed.

Lemma mansard_stops_at_lower_band_witness :
  exists s0 s1 s2 s3 cap,
    create_mansard_roof square10 10 4 70 20 = Ok [s0; s1; s2; s3; cap]
    /\ Forall (fun f => List.length (vertices f) = 4%nat) [s0; s1; s2; s3; cap]
    /\ x_extent cap = (10 - 0) / 2
    /\ y_extent cap = (10 - 0) / 2
    /\ Forall (fun v => pz v = 10 + 0.7 * 4) (vertices cap)
    /\ Forall (fun f =>
                 Forall (fun v => 10 <= pz v <= 10 + 0.7 * 4) (vertices f))
              [s0; s1; s2; s3; cap].
Proof.
  apply (mansard_stops_at_lower_band square10 0 10 0 10 10 4 70 20).
  - exact bounds_square10.
  - lra.
Defined.

(** X10. The butterfly generator returns two wings, each half as wide as
    the footprint, that share the valley edge along the centre line.  The
    outer edges lie at [height + roof_height] and the valley
    [valley_depth] below them; nothing keeps the valley above the base, so
    a [valley_depth] larger than [roof_height] puts it below [height]. *)
Theorem butterfly_wings_share_valley :
  forall fp min_x max_x min_y max_y height roof_height valley_depth,
    bounds fp = Ok (min_x, max_x, min_y, max_y) ->
    exists e1 e2 e3 e4 v1 v2,
      create_butterfly_roof fp height roof_height valley_depth
      = Ok [ mkFace3D [e1; v1; v2; e4]; mkFace3D [v1; e2; e3; v2] ]
      /\ x_extent (mkFace3D [e1; v1; v2; e4]) = (max_x - min_x) / 2
      /\ x_extent (mkFace3D [v1; e2; e3; v2]) = (max_x - min_x) / 2
      /\ px v1 = (min_x + max_x) / 2 /\ px v2 = (min_x + max_x) / 2
      /\ Forall (fun e => pz e = height + roof_height) [e1; e2; e3; e4]
      /\ Forall (fun v => pz v = height + roof_height - valley_depth) [v1; v2]
      /\ (roof_height < valley_depth -> pz v1 < height /\ pz v2 < height).
Proof.
  intros fp min_x max_x min_y max_y height roof_height valley_depth Hb.
  destruct (bounds_ordered _ _ _ _ _ Hb) as [Hx Hy].
  unfold create_butterfly_roof. rewrite Hb. simpl.
  do 6 eexists. split; [reflexivity|].
  split; [unfold x_extent; simpl; pick_minmax; lra|].
  split; [unfold x_extent; simpl; pick_minmax; lra|].
  split; [reflexivity|]. split; [reflexivity|].
  split; [each_element; simpl; lra|].
  split; [each_element; simpl; lra|].
  simpl; lra.
Qed.

Lemma butterfly_wings_share_valley_witness :
  exists e1 e2 e3 e4 v1 v2,
    create_butterfly_roof square10 10 2.5 1.2
    = Ok [ mkFace3D [e1; v1; v2; e4]; mkFace3D [v1; e2; e3; v2] ]
    /\ x_extent (mkFace3D [e1; v1; v2; e4]) = (10 - 0) / 2
    /\ x_extent (mkFace3D [v1; e2; e3; v2]) = (10 - 0) / 2
    /\ px v1 = (0 + 10) / 2 /\ px v2 = (0 + 10) / 2
    /\ Forall (fun e => pz e = 10 + 2.5) [e1; e2; e3; e4]
    /\ Forall (fun v => pz v = 10 + 2.5 - 1.2) [v1; v2]
    /\ (2.5 < 1.2 -> pz v1 < 10 /\ pz v2 < 10).
Proof.
  apply (butterfly_wings_share_valley square10 0 10 0 10 10 2.5 1.2).
  exact bounds_square10.
Defined.

(** ** Curved roof *)

Lemma nth_error_map_seq {A : Type} (f : nat -> A) (s n i : nat) (x : A) :
  nth_error (map f (seq s n)) i = Some x -> x = f (s + i)%nat /\ (i < n)%nat.
Proof.
  revert s i; induction n as [|n IH]; intros s i H.
  - destruct i; discriminate.
  - destruct i as [|i]; cbn [seq map nth_error] in H.
    + injection H as <-. rewrite Nat.add_0_r. split; [reflexivity | lia].
    + apply IH in H. destruct H as [-> Hlt].
      replace (S s + i)%nat with (s + S i)%nat by lia. split; [reflexivity | lia].
Qed.

Lemma nth_error_map_seq_lt {A : Type} (f : nat -> A) (n i : nat) :
  (i < n)%nat -> nth_error (map f (seq 0 n)) i = Some (f i).
Proof.
  intros Hi. rewrite nth_error_map, nth_error_seq.
  destruct (Nat.ltb_spec i n); [reflexivity | lia].
Qed.

(** The strip of the curved roof between the angles of segment [i]. *)
Lemma curved_result (fp : list Point3D) (min_x max_x min_y max_y : R)
    (height roof_height : R) (n : Z) :
  bounds fp = Ok (min_x, max_x, min_y, max_y) ->
  let center_x := (min_x + max_x) / 2 in
  let width := max_x - min_x in
  let pt := fun (k : R) (y : R) =>
    mkPoint3D (center_x - width / 2 * cos (PI * k / IZR n)) y
              (height + roof_height * sin (PI * k / IZR n)) in
  create_curved_roof fp height roof_height n
  = Ok (map (fun i => mkFace3D [ pt (INR i) min_y; pt (INR i + 1) min_y;
                                 pt (INR i + 1) max_y; pt (INR i) max_y ])
            (Py.range n)).
Proof.
  intros Hb. unfold create_curved_roof. rewrite Hb. reflexivity.
Qed.

(** X11. The curved generator returns [num_segments] strips (none, and no
    error, when [num_segments] is zero or negative), each of four vertices.
    The first strip starts on the edge [x = min_x] at the base height, the
    last one ends on the edge [x = max_x] at the base height, and every
    strip but the last is followed by a strip that starts on the edge where
    it ends. *)
Theorem curved_strips_span_the_footprint :
  forall fp min_x max_x min_y max_y height roof_height n,
    bounds fp = Ok (min_x, max_x, min_y, max_y) ->
    exists faces,
      create_curved_roof fp height roof_height n = Ok faces
      /\ List.length faces = Z.to_nat n
      /\ forall i,
           (i < Z.to_nat n)%nat ->
           exists a b c d,
             nth_error faces i = Some (mkFace3D [a; b; c; d])
             /\ (i = 0%nat ->
                 a = mkPoint3D min_x min_y height
                 /\ d = mkPoint3D min_x max_y height)
             /\ (S i = Z.to_nat n ->
                 b = mkPoint3D max_x min_y height
                 /\ c = mkPoint3D max_x max_y height)
             /\ ((S i < Z.to_nat n)%nat ->
                 exists b' c',
                   nth_error faces (S i) = Some (mkFace3D [b; b'; c'; c])).
Proof.
  intros fp min_x max_x min_y max_y height roof_height n Hb.
  rewrite (curved_result _ _ _ _ _ _ _ _ Hb). cbv zeta.
  eexists. split; [reflexivity|].
  unfold Py.range.
  split; [rewrite length_map, length_seq; reflexivity|].
  intros i Hi.
  assert (Hpos : (0 < n)%Z) by lia.
  assert (Hn : IZR n <> 0) by (apply IZR_lt in Hpos; lra).
  rewrite nth_error_map_seq_lt by exact Hi.
  do 4 eexists. split; [reflexivity|]. split; [|split].
  - intros ->. cbn [INR].
    replace (PI * 0 / IZR n) with 0 by (field; exact Hn).
    rewrite sin_0, cos_0. split; f_equal; lra.
  - intros Hlast.
    assert (Hk : INR i + 1 = IZR n).
    { rewrite <- S_INR, Hlast, INR_IZR_INZ, Z2Nat.id by lia. reflexivity. }
    rewrite Hk. replace (PI * IZR n / IZR n) with PI by (field; exact Hn).
    rewrite sin_PI, cos_PI. split; f_equal; lra.
  - intros Hnext. rewrite nth_error_map_seq_lt by exact Hnext.
    rewrite S_INR. do 2 eexists. reflexivity.
Qed.

Lemma curved_strips_span_the_footprint_witness :
  exists faces,
    create_curved_roof square10 10 3 8 = Ok faces
    /\ List.length faces = Z.to_nat 8
    /\ forall i,
         (i < Z.to_nat 8)%nat ->
         exists a b c d,
           nth_error faces i = Some (mkFace3D [a; b; c; d])
           /\ (i = 0%nat ->
               a = mkPoint3D 0 0 10 /\ d = mkPoint3D 0 10 10)
           /\ (S i = Z.to_nat 8 ->
               b = mkPoint3D 10 0 10 /\ c = mkPoint3D 10 10 10)
           /\ ((S i < Z.to_nat 8)%nat ->
               exists b' c',
                 nth_error faces (S i) = Some (mkFace3D [b; b'; c'; c])).
Proof.
  apply (curved_strips_span_the_footprint square10 0 10 0 10 10 3 8).
  exact bounds_square10.
Defined.

(** X12. With a non-negative [roof_height] every vertex of the curved roof
    lies over the footprint's x range and between the base height and
    [height + roof_height]. *)
Theorem curved_roof_stays_in_range :
  forall fp min_x max_x min_y max_y height roof_height n,
    bounds fp = Ok (min_x, max_x, min_y, max_y) ->
    0 <= roof_height ->
    exists faces,
      create_curved_roof fp height roof_height n = Ok faces
      /\ Forall (fun f =>
                   Forall (fun v =>
                             min_x <= px v <= max_x
                             /\ (py v = min_y \/ py v = max_y)
                             /\ height <= pz v <= height + roof_height)
                          (vertices f))
                faces.
Proof.
  intros fp min_x max_x min_y max_y height roof_height n Hb Hrh.
  destruct (bounds_ordered _ _ _ _ _ Hb) as [Hx _].
  rewrite (curved_result _ _ _ _ _ _ _ _ Hb). cbv zeta.
  eexists. split; [reflexivity|].
  apply Forall_forall. intros f Hf. apply in_map_iff in Hf.
  destruct Hf as [i [<- Hi]]. unfold Py.range in Hi. apply in_seq in Hi.
  assert (Hn : (0 < n)%Z) by lia.
  assert (HnR : 0 < IZR n) by (apply IZR_lt in Hn; exact Hn).
  assert (Hi1 : INR i + 1 <= IZR n).
  { rewrite <- S_INR, INR_IZR_INZ. apply IZR_le. lia. }
  pose proof (pos_INR i) as Hi0. pose proof PI_RGT_0 as HPI.
  assert (Hang : forall k, 0 <= k <= IZR n -> 0 <= PI * k / IZR n <= PI).
  { intros k [Hk0 Hk1].
    assert (0 <= k / IZR n <= 1).
    { split.
      - apply Rmult_le_pos; [lra | apply Rlt_le, Rinv_0_lt_compat; lra].
      - apply Rmult_le_reg_r with (IZR n); [lra|].
        unfold Rdiv. rewrite Rmult_assoc, Rinv_l by lra. lra. }
    replace (PI * k / IZR n) with (PI * (k / IZR n)) by (field; lra).
    split; nra. }
  assert (Hpt : forall k, 0 <= k <= IZR n ->
            min_x <= (min_x + max_x) / 2
                     - (max_x - min_x) / 2 * cos (PI * k / IZR n) <= max_x
            /\ height <= height + roof_height * sin (PI * k / IZR n)
               <= height + roof_height).
  { intros k Hk. destruct (Hang k Hk) as [Ha0 Ha1].
    pose proof (COS_bound (PI * k / IZR n)) as [Hc0 Hc1].
    pose proof (SIN_bound (PI * k / IZR n)) as [_ Hs1].
    pose proof (sin_ge_0 _ Ha0 Ha1) as Hs0.
    split; split; nra. }
  cbn [vertices].
  each_element; cbn [px py pz];
    (split; [|split]; [apply Hpt; lra | tauto | apply Hpt; lra]).
Qed.

Lemma curved_roof_stays_in_range_witness :
  exists faces,
    create_curved_roof square10 10 3 8 = Ok faces
    /\ Forall (fun f =>
                 Forall (fun v =>
                           0 <= px v <= 10
                           /\ (py v = 0 \/ py v = 10)
                           /\ 10 <= pz v <= 10 + 3)
                        (vertices f))
              faces.
Proof.
  apply (curved_roof_stays_in_range square10 0 10 0 10 10 3 8).
  - exact bounds_square10.
  - lra.
Defined.

(** ** Solar roof: the two loops of the panel layout *)

Section PanelLoops.

Variables (min_x min_y height : R) (orientation : string) (angle_rad : R).
Variable num_panels : Z.

Let panel (i j : nat) : Face3D :=
  mkFace3D (panel_pts min_x min_y height orientation angle_rad i j).

Let place := place_panel min_x min_y height orientation angle_rad num_panels.

(** The counter after [m] more slots, starting from [k]. *)
Let counter_after (k : Z) (m : nat) : Z :=
  if (k <? num_panels)%Z then Z.min num_panels (k + Z.of_nat m) else k.

Lemma counter_after_step (k : Z) (m : nat) :
  counter_after (if (k <? num_panels)%Z then k + 1 else k)%Z m
  = counter_after k (S m).
Proof.
  unfold counter_after.
  destruct (Z.ltb_spec k num_panels);
    [destruct (Z.ltb_spec (k + 1) num_panels) | destruct (Z.ltb_spec k num_panels)];
    lia.
Qed.

Lemma counter_after_add (k : Z) (m1 m2 : nat) :
  counter_after (counter_after k m1) m2 = counter_after k (m1 + m2).
Proof.
  unfold counter_after.
  destruct (Z.ltb_spec k num_panels);
    [destruct (Z.ltb_spec (Z.min num_panels (k + Z.of_nat m1)) num_panels)
    | destruct (Z.ltb_spec k num_panels)];
    lia.
Qed.

Lemma inner_loop_count (i : nat) (js : list nat) (k : Z) (fs : list Face3D) :
  let st := fold_left (place i) js (k, fs) in
  fst st = counter_after k (List.length js)
  /\ Z.of_nat (List.length (snd st)) = (Z.of_nat (List.length fs) + (fst st - k))%Z.
Proof.
  revert k fs; induction js as [|j js IH]; intros k fs.
  - cbn [fold_left fst snd List.length]. unfold counter_after.
    destruct (Z.ltb_spec k num_panels); lia.
  - cbn [fold_left List.length].
    change (place i (k, fs) j)
      with (if (k <? num_panels)%Z
            then ((k + 1)%Z, fs ++ [panel i j]) else (k, fs)).
    pose proof (counter_after_step k (List.length js)) as Hstep.
    destruct (Z.ltb_spec k num_panels) as [Hlt|Hge].
    + specialize (IH (k + 1)%Z (fs ++ [panel i j])). cbv zeta in IH |- *.
      destruct IH as [Hk Hlen].
      rewrite length_app in Hlen; cbn [List.length] in Hlen.
      split; [rewrite Hk; exact Hstep | lia].
    + specialize (IH k fs). cbv zeta in IH |- *.
      destruct IH as [Hk Hlen].
      split; [rewrite Hk; exact Hstep | lia].
Qed.

Lemma outer_loop_count (xs js : list nat) (k : Z) (fs : list Face3D) :
  let st := fold_left (fun st i => fold_left (place i) js st) xs (k, fs) in
  fst st = counter_after k (List.length xs * List.length js)
  /\ Z.of_nat (List.length (snd st)) = (Z.of_nat (List.length fs) + (fst st - k))%Z.
Proof.
  revert k fs; induction xs as [|i xs IH]; intros k fs.
  - cbn [fold_left fst snd List.length Nat.mul]. unfold counter_after.
    destruct (Z.ltb_spec k num_panels); lia.
  - cbn [fold_left List.length Nat.mul].
    pose proof (inner_loop_count i js k fs) as Hin. cbv zeta in Hin.
    destruct (fold_left (place i) js (k, fs)) as [k1 fs1].
    cbn [fst snd] in Hin. destruct Hin as [Hk1 Hlen1].
    destruct (IH k1 fs1) as [Hk Hlen]. cbv zeta in Hk, Hlen |- *.
    rewrite Hk, Hk1, counter_after_add. split; [reflexivity|].
    rewrite Hk, Hk1, counter_after_add in Hlen. lia.
Qed.

Lemma inner_loop_forall (Q : Face3D -> Prop) (i : nat) (js : list nat)
    (st : panel_state) :
  (forall j, In j js -> Q (panel i j)) ->
  Forall Q (snd st) ->
  Forall Q (snd (fold_left (place i) js st)).
Proof.
  revert st; induction js as [|j js IH]; intros [k fs] Hq Hfs.
  - exact Hfs.
  - cbn [fold_left]. apply IH.
    + intros j' Hj'. apply Hq. right. exact Hj'.
    + unfold place, place_panel. destruct (k <? num_panels)%Z; [|exact Hfs].
      cbn [snd] in *. apply Forall_app. split; [exact Hfs|].
      constructor; [|constructor]. apply Hq. left. reflexivity.
Qed.

Lemma outer_loop_forall (Q : Face3D -> Prop) (xs js : list nat)
    (st : panel_state) :
  (forall i j, In i xs -> In j js -> Q (panel i j)) ->
  Forall Q (snd st) ->
  Forall Q (snd (fold_left (fun st i => fold_left (place i) js st) xs st)).
Proof.
  revert st; induction xs as [|i xs IH]; intros st Hq Hst.
  - exact Hst.
  - cbn [fold_left]. apply IH.
    + intros i' j Hi' Hj. apply Hq; [right; exact Hi' | exact Hj].
    + apply inner_loop_forall; [|exact Hst].
      intros j Hj. apply Hq; [left; reflexivity | exact Hj].
Qed.

End PanelLoops.

Lemma py_int_of_nonneg (x : R) :
  0 <= x -> (0 <= Py.int x)%Z /\ IZR (Py.int x) <= x < IZR (Py.int x) + 1.
Proof.
  intros Hx. unfold Py.int. destruct (Rle_dec 0 x) as [_|Hn]; [|contradiction].
  pose proof (Int_part_bounds x) as Hb. split; [|exact Hb].
  apply le_IZR. assert (H : (-1 < Int_part x)%Z) by (apply lt_IZR; lra).
  apply IZR_le. lia.
Qed.

(** The result of the solar generator: the default flat roof and the panels
    left by the two loops. *)
Lemma solar_result (fp : list Point3D) (min_x max_x min_y max_y : R)
    (height tilt : R) (orientation : string) (coverage : R) :
  (3 <= List.length fp)%nat ->
  bounds fp = Ok (min_x, max_x, min_y, max_y) ->
  let nx := Py.int ((max_x - min_x) / panel_width) in
  let ny := Py.int ((max_y - min_y) / panel_height) in
  let num := Py.int (IZR (nx * ny) * coverage) in
  exists roof,
    create_flat_roof fp height 0.3 0 = Ok roof
    /\ create_solar_roof fp height tilt orientation coverage
       = Ok ([roof],
             snd (fold_left
                    (fun st i =>
                       fold_left
                         (place_panel min_x min_y height orientation
                                      (Py.radians tilt) num i)
                         (Py.range ny) st)
                    (Py.range nx) (0%Z, []))).
Proof.
  intros Hfp Hb nx ny num.
  destruct (flat_roof_ok fp height 0.3 0 Hfp) as [roof Hroof].
  exists roof. split; [exact Hroof|].
  unfold create_solar_roof. rewrite Hb. cbn [Py.bind].
  rewrite Hroof. reflexivity.
Qed.

Lemma slot_counts_nonneg (fp : list Point3D) (min_x max_x min_y max_y : R) :
  bounds fp = Ok (min_x, max_x, min_y, max_y) ->
  let nx := Py.int ((max_x - min_x) / panel_width) in
  let ny := Py.int ((max_y - min_y) / panel_height) in
  (0 <= nx)%Z /\ (0 <= ny)%Z
  /\ IZR nx * panel_width <= max_x - min_x
  /\ IZR ny * panel_height <= max_y - min_y.
Proof.
  intros Hb nx ny. destruct (bounds_ordered _ _ _ _ _ Hb) as [Hx Hy].
  assert (Hqx : 0 <= (max_x - min_x) / panel_width)
    by (unfold panel_width; lra).
  assert (Hqy : 0 <= (max_y - min_y) / panel_height)
    by (unfold panel_height; lra).
  destruct (py_int_of_nonneg _ Hqx) as [Hnx [Hlx _]].
  destruct (py_int_of_nonneg _ Hqy) as [Hny [Hly _]].
  fold nx in Hnx, Hlx. fold ny in Hny, Hly.
  unfold panel_width, panel_height in *. repeat split; try assumption; lra.
Qed.

(** X13. The solar generator returns the default flat roof and
    [min(num_panels, slots)] panels, where [slots] is the product of the
    slot counts along x and y and [num_panels = int(slots * coverage)]:
    a coverage of 1 or more fills every slot and no more, a coverage in
    [0, 1] places exactly [num_panels] panels, and a negative one none. *)
Theorem panel_count_is_clamped :
  forall fp min_x max_x min_y max_y height tilt orientation coverage,
    (3 <= List.length fp)%nat ->
    bounds fp = Ok (min_x, max_x, min_y, max_y) ->
    let slots := (Py.int ((max_x - min_x) / panel_width)
                  * Py.int ((max_y - min_y) / panel_height))%Z in
    let num_panels := Py.int (IZR slots * coverage) in
    exists roof panels,
      create_solar_roof fp height tilt orientation coverage
      = Ok ([roof], panels)
      /\ create_flat_roof fp height 0.3 0 = Ok roof
      /\ List.length panels = Z.to_nat (Z.min num_panels slots)
      /\ (1 <= coverage -> List.length panels = Z.to_nat slots)
      /\ (0 <= coverage <= 1 -> List.length panels = Z.to_nat num_panels)
      /\ (coverage < 0 -> panels = []).
Proof.
  intros fp min_x max_x min_y max_y height tilt orientation coverage Hthree Hb
         slots num_panels.
  destruct (solar_result fp _ _ _ _ height tilt orientation coverage Hthree Hb)
    as [roof [Hroof Hsolar]].
  destruct (slot_counts_nonneg _ _ _ _ _ Hb) as (Hnx & Hny & _ & _).
  set (nx := Py.int ((max_x - min_x) / panel_width)) in *.
  set (ny := Py.int ((max_y - min_y) / panel_height)) in *.
  fold slots in Hsolar. fold num_panels in Hsolar.
  pose proof (outer_loop_count min_x min_y height orientation (Py.radians tilt)
                num_panels (Py.range nx) (Py.range ny) 0%Z []) as Hcount.
  cbv zeta in Hcount.
  match type of Hsolar with _ = Ok (_, snd ?st) => set (final := st) in * end.
  destruct Hcount as [Hk Hlen]. cbn [List.length] in Hlen.
  unfold Py.range in Hk. rewrite !length_seq in Hk.
  assert (Hslots : Z.of_nat (Z.to_nat nx * Z.to_nat ny) = slots)
    by (unfold slots; lia).
  assert (Hslots0 : (0 <= slots)%Z) by (unfold slots; lia).
  rewrite Z.add_0_l, Hslots in Hk.
  assert (Hmain : List.length (snd final) = Z.to_nat (Z.min num_panels slots)).
  { destruct (Z.ltb_spec 0 num_panels); lia. }
  exists roof, (snd final).
  split; [exact Hsolar|]. split; [exact Hroof|]. split; [exact Hmain|].
  assert (HsR : 0 <= IZR slots) by (apply IZR_le in Hslots0; exact Hslots0).
  split; [|split].
  - intros Hc. rewrite Hmain. f_equal.
    assert (Hq : 0 <= IZR slots * coverage) by nra.
    destruct (py_int_of_nonneg _ Hq) as [_ [_ Hhi]]. fold num_panels in Hhi.
    assert (IZR slots - 1 < IZR num_panels) by nra.
    assert ((slots - 1 < num_panels)%Z)
      by (apply lt_IZR; rewrite minus_IZR; assumption).
    lia.
  - intros [Hc0 Hc1]. rewrite Hmain. f_equal.
    assert (Hq : 0 <= IZR slots * coverage) by nra.
    destruct (py_int_of_nonneg _ Hq) as [_ [Hlo _]]. fold num_panels in Hlo.
    assert (IZR num_panels <= IZR slots) by nra.
    assert ((num_panels <= slots)%Z) by (apply le_IZR; assumption).
    lia.
  - intros Hc.
    assert (Hneg : (num_panels <= 0)%Z).
    { unfold num_panels, Py.int.
      destruct (Rle_dec 0 (IZR slots * coverage)) as [Hq|Hq].
      - pose proof (Int_part_bounds (IZR slots * coverage)) as [Hl _].
        apply le_IZR. nra.
      - assert (Hq' : 0 <= - (IZR slots * coverage)) by lra.
        destruct (py_int_of_nonneg _ Hq') as [Hn _].
        unfold Py.int in Hn.
        destruct (Rle_dec 0 (- (IZR slots * coverage))); [lia | lra]. }
    assert (Hz : List.length (snd final) = 0%nat) by lia.
    destruct (snd final); [reflexivity | discriminate].
Qed.

Lemma panel_count_is_clamped_witness :
  exists roof panels,
    create_solar_roof square10 10 15 "south" 0.8 = Ok ([roof], panels)
    /\ create_flat_roof square10 10 0.3 0 = Ok roof
    /\ List.length panels
       = Z.to_nat (Z.min (Py.int (IZR (Py.int ((10 - 0) / panel_width)
                                       * Py.int ((10 - 0) / panel_height))
                                  * 0.8))
                         (Py.int ((10 - 0) / panel_width)
                          * Py.int ((10 - 0) / panel_height)))
    /\ (1 <= 0.8
        -> List.length panels
           = Z.to_nat (Py.int ((10 - 0) / panel_width)
                       * Py.int ((10 - 0) / panel_height)))
    /\ (0 <= 0.8 <= 1
        -> List.length panels
           = Z.to_nat (Py.int (IZR (Py.int ((10 - 0) / panel_width)
                                    * Py.int ((10 - 0) / panel_height))
                               * 0.8)))
    /\ (0.8 < 0 -> panels = []).
Proof.
  apply (panel_count_is_clamped square10 0 10 0 10 10 15 "south" 0.8).
  - cbn. lia.
  - exact bounds_square10.
Defined.

Lemma in_range_bound (n : Z) (i : nat) :
  In i (Py.range n) -> 0 <= INR i <= IZR n - 1.
Proof.
  unfold Py.range. intros Hi. apply in_seq in Hi.
  split; [apply pos_INR|].
  rewrite INR_IZR_INZ, <- minus_IZR. apply IZR_le. lia.
Qed.

(** X14. Every panel is a quadrilateral that starts at or beyond the
    footprint's minimum corner; it may pass the opposite edges, but by no
    more than one gap of 0.1 per preceding panel of its row or column: its
    x never exceeds [max_x + 0.1 * (slots_x - 1)], and likewise for y. *)
Theorem panels_overhang_is_bounded :
  forall fp min_x max_x min_y max_y height tilt orientation coverage,
    (3 <= List.length fp)%nat ->
    bounds fp = Ok (min_x, max_x, min_y, max_y) ->
    let nx := Py.int ((max_x - min_x) / panel_width) in
    let ny := Py.int ((max_y - min_y) / panel_height) in
    exists roof panels,
      create_solar_roof fp height tilt orientation coverage
      = Ok ([roof], panels)
      /\ Forall
           (fun f =>
              List.length (vertices f) = 4%nat
              /\ Forall
                   (fun v =>
                      min_x <= px v <= max_x + panel_spacing * (IZR nx - 1)
                      /\ min_y <= py v <= max_y + panel_spacing * (IZR ny - 1))
                   (vertices f))
           panels.
Proof.
  intros fp min_x max_x min_y max_y height tilt orientation coverage Hthree Hb nx ny.
  destruct (solar_result fp _ _ _ _ height tilt orientation coverage Hthree Hb)
    as [roof [_ Hsolar]].
  destruct (slot_counts_nonneg _ _ _ _ _ Hb) as (_ & _ & Hwx & Hwy).
  fold nx in Hwx, Hsolar. fold ny in Hwy, Hsolar.
  do 2 eexists. split; [exact Hsolar|].
  apply outer_loop_forall; [|constructor].
  intros i j Hi Hj.
  apply in_range_bound in Hi, Hj.
  unfold panel_width, panel_height, panel_spacing in *.
  unfold panel_pts, lift_vertex, corner, panel_width, panel_height,
    panel_spacing.
  repeat match goal with
  | |- context [orientation =? ?s] => destruct (orientation =? s)
  end;
    cbn [vertices nth set_item px py pz List.length];
    (split; [reflexivity|]); each_element; cbn [px py]; split; nra.
Qed.

Lemma panels_overhang_is_bounded_witness :
  exists roof panels,
    create_solar_roof square10 10 15 "south" 0.8 = Ok ([roof], panels)
    /\ Forall
         (fun f =>
            List.length (vertices f) = 4%nat
            /\ Forall
                 (fun v =>
                    0 <= px v
                    <= 10 + panel_spacing
                            * (IZR (Py.int ((10 - 0) / panel_width)) - 1)
                    /\ 0 <= py v
                       <= 10 + panel_spacing
                               * (IZR (Py.int ((10 - 0) / panel_height)) - 1))
                 (vertices f))
         panels.
Proof.
  apply (panels_overhang_is_bounded square10 0 10 0 10 10 15 "south" 0.8).
  - cbn. lia.
  - exact bounds_square10.
Defined.

(** X15. The tilt is applied for the four orientations south, north, east
    and west only: with any other orientation ([create_city] draws
    "southeast" and "southwest") every panel lies flat at
    [height + panel_thickness].  With a tilt angle between 0 and 180 degrees
    no panel vertex lies below that level, whatever the orientation. *)
Theorem panel_tilt_by_orientation :
  forall fp min_x max_x min_y max_y height tilt orientation coverage,
    (3 <= List.length fp)%nat ->
    bounds fp = Ok (min_x, max_x, min_y, max_y) ->
    exists roof panels,
      create_solar_roof fp height tilt orientation coverage
      = Ok ([roof], panels)
      /\ (~ In orientation ["south"; "north"; "east"; "west"] ->
          Forall (fun f =>
                    Forall (fun v => pz v = height + panel_thickness)
                           (vertices f))
                 panels)
      /\ (0 <= tilt <= 180 ->
          Forall (fun f =>
                    Forall (fun v => height + panel_thickness <= pz v)
                           (vertices f))
                 panels).
Proof.
  intros fp min_x max_x min_y max_y height tilt orientation coverage Hthree Hb.
  destruct (solar_result fp _ _ _ _ height tilt orientation coverage Hthree Hb)
    as [roof [_ Hsolar]].
  do 2 eexists. split; [exact Hsolar|]. split.
  - intros Hn. apply outer_loop_forall; [|constructor].
    intros i j _ _. unfold panel_pts.
    rewrite !(eqb_of_not_in orientation ["south"; "north"; "east"; "west"])
      by (try exact Hn; simpl; tauto).
    cbn [vertices]. each_element; reflexivity.
  - intros [Ht0 Ht1]. apply outer_loop_forall; [|constructor].
    intros i j _ _.
    assert (Hs : 0 <= sin (Py.radians tilt)).
    { pose proof PI_RGT_0. apply sin_ge_0; unfold Py.radians; nra. }
    unfold panel_pts, lift_vertex, corner, panel_width, panel_height.
    repeat match goal with
    | |- context [orientation =? ?s] => destruct (orientation =? s)
    end;
      cbn [vertices nth set_item px py pz]; each_element; cbn [pz]; nra.
Qed.

Lemma panel_tilt_by_orientation_witness :
  exists roof panels,
    create_solar_roof square10 10 35 "southeast" 0.7 = Ok ([roof], panels)
    /\ (~ In "southeast" ["south"; "north"; "east"; "west"] ->
        Forall (fun f =>
                  Forall (fun v => pz v = 10 + panel_thickness) (vertices f))
               panels)
    /\ (0 <= 35 <= 180 ->
        Forall (fun f =>
                  Forall (fun v => 10 + panel_thickness <= pz v) (vertices f))
               panels).
Proof.
  apply (panel_tilt_by_orientation square10 0 10 0 10 10 35 "southeast" 0.7).
  - cbn. lia.
  - exact bounds_square10.
Defined.

(** ** Buildings *)

Lemma create_roof_by_xy (fp fp' : list Point3D) (height : R)
    (roof_type : string) (params : RoofParams) :
  map px fp = map px fp' -> map py fp = map py fp' ->
  create_roof fp height roof_type params
  = create_roof fp' height roof_type params.
Proof.
  intros Hx Hy.
  pose proof (bounds_by_xy _ _ Hx Hy) as Hb.
  pose proof (fun t s => flat_roof_by_xy fp fp' height t s Hx Hy) as Hflat.
  unfold create_roof.
  cbv beta delta [create_gable_roof create_pyramid_roof create_hip_roof
    create_shed_roof create_mansard_roof create_butterfly_roof
    create_sawtooth_roof create_curved_roof create_solar_roof].
  rewrite Hb, !Hflat. reflexivity.
Qed.

Lemma nth_error_tag_last (rooms : list Building.Room)
    (data : string * RoofParams) (k : nat) (r : Building.Room) :
  nth_error (Building.tag_last rooms data) k = Some r ->
  exists r0,
    nth_error rooms k = Some r0
    /\ Building.room_identifier r = Building.room_identifier r0
    /\ Building.box_width r = Building.box_width r0
    /\ Building.box_depth r = Building.box_depth r0
    /\ Building.box_height r = Building.box_height r0
    /\ Building.box_origin r = Building.box_origin r0
    /\ Building.room_user_data r
       = if Nat.eqb (S k) (List.length rooms) then Some data
         else Building.room_user_data r0.
Proof.
  revert k; induction rooms as [|r1 rooms IH]; intros k H.
  - destruct k; discriminate.
  - destruct rooms as [|r2 rooms].
    + destruct k as [|k]; [|destruct k; discriminate].
      cbn in H. injection H as <-. exists r1. cbn. repeat split; reflexivity.
    + destruct k as [|k].
      * cbn in H. injection H as <-. exists r1. cbn. repeat split; reflexivity.
      * change (Building.tag_last (r1 :: r2 :: rooms) data)
          with (r1 :: Building.tag_last (r2 :: rooms) data) in H.
        cbn [nth_error] in H. apply IH in H.
        destruct H as [r0 H]. exists r0. exact H.
Qed.

Lemma length_tag_last (rooms : list Building.Room) (data : string * RoofParams) :
  List.length (Building.tag_last rooms data) = List.length rooms.
Proof.
  induction rooms as [|r1 rooms IH]; [reflexivity|].
  destruct rooms as [|r2 rooms]; [reflexivity|].
  change (Building.tag_last (r1 :: r2 :: rooms) data)
    with (r1 :: Building.tag_last (r2 :: rooms) data).
  cbn [List.length]. rewrite IH. reflexivity.
Qed.

Lemma geometry_of_enumerate {A B : Type} (g : nat * A -> B) (proj : B -> A)
    (l : list A) :
  (forall i a, proj (g (i, a)) = a) ->
  map proj (map g (Building.enumerate l)) = l.
Proof.
  intros Hg. unfold Building.enumerate. generalize 0%nat.
  induction l as [|a l IH]; intros s; [reflexivity|].
  cbn [List.length seq combine map]. rewrite Hg, IH. reflexivity.
Qed.

(** The result of [create_building] when the roof is generated and there is
    at least one floor. *)
Lemma building_result (origin : Point3D) (width depth height : R) (n : Z)
    (roof_type : string) (params : RoofParams)
    (roof_faces solar_panels : list Face3D) :
  (1 <= n)%Z ->
  create_roof (building_footprint origin width depth) height roof_type params
  = Ok (roof_faces, solar_panels) ->
  exists shades,
    Building.create_building origin width depth height n roof_type params
    = Building.Built
        (Building.tag_last
           (map (Building.floor_room origin width depth (height / IZR n))
                (Py.range n))
           (roof_type, params),
         shades)
    /\ map Building.shade_geometry shades = roof_faces ++ solar_panels.
Proof.
  intros Hn Hroof. unfold Building.create_building.
  assert (HnR : IZR n <> 0) by (apply IZR_le in Hn; lra).
  rewrite truediv_ok by exact HnR. rewrite Hroof.
  assert (Hrange : exists k, Py.range n = 0%nat :: seq 1 k).
  { unfold Py.range. destruct (Z.to_nat n) as [|k] eqn:E; [lia|].
    exists k. reflexivity. }
  destruct Hrange as [k Hk]. rewrite Hk. cbn [map].
  eexists. split; [reflexivity|].
  rewrite map_app. f_equal; apply geometry_of_enumerate; reflexivity.
Qed.

(** X16. With at least one floor and a roof that is generated,
    [create_building] returns [num_floors] rooms of equal height stacked
    from the origin's elevation, the top of the last one at
    [origin.z + height]; only the last room is tagged with the roof type.
    The shades carry the roof faces followed by the panels, in order. *)
Theorem building_floors_stack_to_height :
  forall origin width depth height n roof_type params roof_faces solar_panels,
    (1 <= n)%Z ->
    create_roof (building_footprint origin width depth) height roof_type params
    = Ok (roof_faces, solar_panels) ->
    exists rooms shades,
      Building.create_building origin width depth height n roof_type params
      = Building.Built (rooms, shades)
      /\ List.length rooms = Z.to_nat n
      /\ (forall k room,
             nth_error rooms k = Some room ->
             Building.box_width room = width
             /\ Building.box_depth room = depth
             /\ Building.box_height room = height / IZR n
             /\ Building.box_origin room
                = mkPoint3D (px origin) (py origin)
                            (pz origin + INR k * (height / IZR n))
             /\ Building.room_user_data room
                = if Nat.eqb (S k) (Z.to_nat n) then Some (roof_type, params)
                  else None)
      /\ (forall room,
             nth_error rooms (Z.to_nat n - 1) = Some room ->
             pz (Building.box_origin room) + Building.box_height room
             = pz origin + height)
      /\ map Building.shade_geometry shades = roof_faces ++ solar_panels.
Proof.
  intros origin width depth height n roof_type params roof_faces solar_panels
         Hn Hroof.
  destruct (building_result origin width depth height n roof_type params
              roof_faces solar_panels Hn Hroof) as [shades [Hb Hgeo]].
  do 2 eexists. split; [exact Hb|].
  assert (HnR : 1 <= IZR n) by (apply IZR_le in Hn; exact Hn).
  assert (Hlen : List.length
                   (map (Building.floor_room origin width depth (height / IZR n))
                        (Py.range n)) = Z.to_nat n)
    by (unfold Py.range; rewrite length_map, length_seq; reflexivity).
  assert (Hroom : forall k room,
             nth_error
               (Building.tag_last
                  (map (Building.floor_room origin width depth (height / IZR n))
                       (Py.range n)) (roof_type, params)) k = Some room ->
             Building.box_width room = width
             /\ Building.box_depth room = depth
             /\ Building.box_height room = height / IZR n
             /\ Building.box_origin room
                = mkPoint3D (px origin) (py origin)
                            (pz origin + INR k * (height / IZR n))
             /\ Building.room_user_data room
                = (if Nat.eqb (S k) (Z.to_nat n) then Some (roof_type, params)
                   else None)
             /\ (k < Z.to_nat n)%nat).
  { intros k room H. apply nth_error_tag_last in H.
    destruct H as (r0 & H0 & _ & Hw & Hd & Hh & Ho & Hu).
    unfold Py.range in H0. apply nth_error_map_seq in H0.
    destruct H0 as [-> Hk]. cbn [Nat.add] in *.
    rewrite Hw, Hd, Hh, Ho, Hu, Hlen. cbn.
    repeat split; try reflexivity. exact Hk. }
  split; [rewrite length_tag_last; exact Hlen|].
  split; [|split; [|exact Hgeo]].
  - intros k room H. destruct (Hroom k room H) as (? & ? & ? & ? & ? & _).
    repeat split; assumption.
  - intros room H. destruct (Hroom _ room H) as (_ & _ & Hh & Ho & _ & _).
    rewrite Hh, Ho. cbn [pz].
    assert (Hk : INR (Z.to_nat n - 1) = IZR n - 1).
    { rewrite INR_IZR_INZ, <- minus_IZR. f_equal. lia. }
    rewrite Hk. field. lra.
Qed.

Lemma building_floors_stack_to_height_witness :
  exists rooms shades,
    Building.create_building (mkPoint3D 0 0 0) 10 10 10 3 "dome" no_params
    = Building.Built (rooms, shades)
    /\ List.length rooms = Z.to_nat 3
    /\ (forall k room,
           nth_error rooms k = Some room ->
           Building.box_width room = 10
           /\ Building.box_depth room = 10
           /\ Building.box_height room = 10 / IZR 3
           /\ Building.box_origin room
              = mkPoint3D 0 0 (0 + INR k * (10 / IZR 3))
           /\ Building.room_user_data room
              = if Nat.eqb (S k) (Z.to_nat 3) then Some ("dome", no_params)
                else None)
    /\ (forall room,
           nth_error rooms (Z.to_nat 3 - 1) = Some room ->
           pz (Building.box_origin room) + Building.box_height room = 0 + 10)
    /\ map Building.shade_geometry shades
       = [ mkFace3D (map (fun pt => mkPoint3D (px pt) (py pt) (10 + 0.3))
                         square10) ] ++ [].
Proof.
  apply (building_floors_stack_to_height (mkPoint3D 0 0 0) 10 10 10 3 "dome"
           no_params).
  - lia.
  - change (building_footprint (mkPoint3D 0 0 0) 10 10) with square10.
    unfold create_roof. cbn [String.eqb Ascii.eqb Bool.eqb].
    rewrite (flat_roof_result square10 10 0.3 0) by (cbn; lia).
    cbv zeta. cbn [Py.bind]. do 4 f_equal. apply map_ext. intros pt.
    f_equal. lra.
Defined.

(** X17. [create_building] needs at least one floor.  With [num_floors = 0]
    the floor height divides by zero before anything is built; with a
    negative [num_floors] no room is created and, once the roof is
    generated, reading the first room raises [IndexError].  An exception of
    the roof generator passes through unchanged. *)
Theorem building_needs_a_floor :
  (forall origin width depth height roof_type params,
      Building.create_building origin width depth height 0 roof_type params
      = Building.Failed (Building.Propagated ZeroDivisionError))
  /\ (forall origin width depth height n roof_type params roof_faces
             solar_panels,
         (n < 0)%Z ->
         create_roof (building_footprint origin width depth) height roof_type
                     params = Ok (roof_faces, solar_panels) ->
         Building.create_building origin width depth height n roof_type params
         = Building.Failed Building.IndexError)
  /\ (forall origin width depth height n roof_type params e,
         n <> 0%Z ->
         create_roof (building_footprint origin width depth) height roof_type
                     params = Raise e ->
         Building.create_building origin width depth height n roof_type params
         = Building.Failed (Building.Propagated e)).
Proof.
  split; [|split].
  - intros. unfold Building.create_building. rewrite truediv_zero. reflexivity.
  - intros origin width depth height n roof_type params roof_faces
           solar_panels Hn Hroof.
    unfold Building.create_building.
    rewrite truediv_ok by (apply IZR_lt in Hn; lra). rewrite Hroof.
    unfold Py.range. replace (Z.to_nat n) with 0%nat by lia. reflexivity.
  - intros origin width depth height n roof_type params e Hn Hroof.
    unfold Building.create_building.
    rewrite truediv_ok by (intros H0; apply eq_IZR in H0; contradiction).
    rewrite Hroof. reflexivity.
Qed.

Lemma building_needs_a_floor_witness :
  Building.create_building (mkPoint3D 0 0 0) 10 10 10 (-1) "sawtooth"
                           no_params
  = Building.Failed Building.IndexError.
Proof.
  destruct (sawtooth_result square10 0 10 0 10 10 4 2 30 bounds_square10)
    as []; [lra|].
  eapply (proj1 (proj2 building_needs_a_floor)); [lia|].
  change (building_footprint (mkPoint3D 0 0 0) 10 10) with square10.
  unfold create_roof. cbn [String.eqb Ascii.eqb Bool.eqb Py.get section_width
    roof_height slope_angle no_params].
  rewrite (sawtooth_result square10 0 10 0 10 10 4 2 30 bounds_square10)
    by lra.
  reflexivity.
Defined.

Lemma base_of_tag_last (g : Point3D -> R) (rooms : list Building.Room)
    (data : string * RoofParams) :
  map (fun r => g (Building.box_origin r)) (Building.tag_last rooms data)
  = map (fun r => g (Building.box_origin r)) rooms.
Proof.
  induction rooms as [|r1 rooms IH]; [reflexivity|].
  destruct rooms as [|r2 rooms]; [reflexivity|].
  change (Building.tag_last (r1 :: r2 :: rooms) data)
    with (r1 :: Building.tag_last (r2 :: rooms) data).
  cbn [map]. rewrite IH. reflexivity.
Qed.

(** X18. The roof is placed at the absolute elevation [height], not at
    [origin.z + height]: raising the origin of a building by [dz] raises
    every room by [dz] and leaves every roof and panel shade exactly where
    it was. *)
Theorem roof_does_not_follow_the_origin :
  forall origin dz width depth height n roof_type params rooms shades,
    Building.create_building origin width depth height n roof_type params
    = Building.Built (rooms, shades) ->
    exists rooms',
      Building.create_building
        (mkPoint3D (px origin) (py origin) (pz origin + dz))
        width depth height n roof_type params
      = Building.Built (rooms', shades)
      /\ map (fun r => pz (Building.box_origin r)) rooms'
         = map (fun r => pz (Building.box_origin r) + dz) rooms.
Proof.
  intros origin dz width depth height n roof_type params rooms shades H.
  unfold Building.create_building in H |- *.
  destruct (Py.truediv height (IZR n)) as [fh|]; [|discriminate].
  rewrite (create_roof_by_xy
             (building_footprint
                (mkPoint3D (px origin) (py origin) (pz origin + dz))
                width depth)
             (building_footprint origin width depth)) by reflexivity.
  destruct (create_roof (building_footprint origin width depth) height
                        roof_type params) as [[roof_faces solar_panels]|];
    [|discriminate].
  set (rs := map (Building.floor_room origin width depth fh) (Py.range n)) in *.
  set (rs' := map (Building.floor_room
                     (mkPoint3D (px origin) (py origin) (pz origin + dz))
                     width depth fh) (Py.range n)).
  assert (Hbase : map (fun r => pz (Building.box_origin r)) rs'
                  = map (fun r => pz (Building.box_origin r) + dz) rs).
  { unfold rs, rs'. rewrite !map_map. apply map_ext. intros i.
    unfold Building.floor_room. cbn [Building.box_origin pz]. lra. }
  assert (Hfirst : match rs, rs' with
                   | [], [] => True
                   | r :: _, r' :: _ =>
                       Building.room_identifier r' = Building.room_identifier r
                   | _, _ => False
                   end).
  { unfold rs, rs'. destruct (Py.range n); cbn [map]; [exact I | reflexivity]. }
  clearbody rs rs'.
  destruct rs as [|r rs]; [discriminate|].
  destruct rs' as [|r' rs']; [contradiction|].
  assert (Hr := f_equal (fun o => match o with
                                  | Building.Built (x, _) => x
                                  | Building.Failed _ => []
                                  end) H).
  assert (Hs := f_equal (fun o => match o with
                                  | Building.Built (_, y) => y
                                  | Building.Failed _ => []
                                  end) H).
  cbv beta iota in Hr, Hs. rewrite <- Hs, <- Hr.
  eexists. split.
  - rewrite Hfirst. cbn [px py]. reflexivity.
  - rewrite (base_of_tag_last pz), (base_of_tag_last (fun o => pz o + dz)).
    exact Hbase.
Qed.

Lemma roof_does_not_follow_the_origin_witness :
  exists rooms',
    Building.create_building (mkPoint3D 0 0 (0 + 5)) 10 10 10 1 "dome" no_params
    = Building.Built
        (rooms',
         [ Building.mkShade (Building.RoofShade (Py.int 0) (Py.int 0) 0)
             (mkFace3D (map (fun pt => mkPoint3D (px pt) (py pt) (10 + 0.3))
                            square10))
             (Building.RoofData "dome"
                (Building.BuildingFloor (Py.int 0) (Py.int 0) 0) "none" 0) ])
    /\ map (fun r => pz (Building.box_origin r)) rooms'
       = map (fun r => pz (Building.box_origin r) + 5)
             [ Building.mkRoom
                 (Building.BuildingFloor (Py.int 0) (Py.int 0) 0)
                 10 10 (10 / 1) (mkPoint3D 0 0 (0 + INR 0 * (10 / 1)))
                 (Some ("dome", no_params)) ].
Proof.
  apply (roof_does_not_follow_the_origin (mkPoint3D 0 0 0) 5 10 10 10 1 "dome"
           no_params).
  unfold Building.create_building.
  rewrite truediv_ok by lra.
  change (building_footprint (mkPoint3D 0 0 0) 10 10) with square10.
  unfold create_roof. cbn [String.eqb Ascii.eqb Bool.eqb].
  rewrite (flat_roof_result square10 10 0.3 0) by (cbn; lia).
  cbv zeta. cbn [Py.bind].
  replace (map (fun pt =>
                  mkPoint3D (px pt) (py pt)
                    (10 + 0.3
                     - sqrt ((px pt - Py.sum (map px square10)
                                      / INR (List.length square10)) ^ 2
                             + (py pt - Py.sum (map py square10)
                                        / INR (List.length square10)) ^ 2)
                       * 0 / 100)) square10)
    with (map (fun pt => mkPoint3D (px pt) (py pt) (10 + 0.3)) square10)
    by (apply map_ext; intros pt; f_equal; lra).
  reflexivity.
Defined.

(** * Further properties of the scorer *)

(** ** What slope and azimuth measure *)

Lemma unit_normal_magnitude (bearing elevation : R) :
  magnitude (unit_normal bearing elevation) = 1.
Proof.
  unfold magnitude, unit_normal; cbn [vx vy vz].
  pose proof (sin2_cos2 bearing) as Hb. pose proof (sin2_cos2 elevation) as He.
  unfold Rsqr in Hb, He.
  replace (cos elevation * sin bearing * (cos elevation * sin bearing)
           + cos elevation * cos bearing * (cos elevation * cos bearing)
           + sin elevation * sin elevation) with 1 by nra.
  apply sqrt_1.
Qed.

Lemma horizontal_magnitude (bearing elevation : R) :
  0 <= cos elevation ->
  magnitude (mkVector3D (cos elevation * sin bearing)
                        (cos elevation * cos bearing) 0)
  = cos elevation.
Proof.
  intros Hc. unfold magnitude; cbn [vx vy vz].
  pose proof (sin2_cos2 bearing) as Hb. unfold Rsqr in Hb.
  replace (cos elevation * sin bearing * (cos elevation * sin bearing)
           + cos elevation * cos bearing * (cos elevation * cos bearing)
           + 0 * 0) with (cos elevation * cos elevation) by nra.
  apply sqrt_square. exact Hc.
Qed.

Lemma acos_cos_bearing (bearing : R) :
  0 <= bearing < 2 * PI ->
  acos (cos bearing)
  = if Rlt_dec (sin bearing) 0 then 2 * PI - bearing else bearing.
Proof.
  intros [Hlo Hhi]. pose proof PI_RGT_0 as HPI.
  destruct (Rlt_dec (sin bearing) 0) as [Hs|Hs].
  - assert (Hb : PI < bearing).
    { destruct (Rle_dec bearing PI) as [Hle|]; [|lra].
      pose proof (sin_ge_0 bearing Hlo Hle). lra. }
    replace (cos bearing) with (cos (2 * PI - bearing)).
    + apply acos_cos. lra.
    + rewrite cos_minus, cos_2PI, sin_2PI. lra.
  - assert (Hb : bearing <= PI).
    { destruct (Rle_dec bearing PI) as [|Hgt]; [assumption|].
      exfalso. apply Hs. apply sin_lt_0; lra. }
    apply acos_cos. lra.
Qed.

(** X19. For a roof whose unit normal has compass bearing [b] (clockwise
    from north) and elevation [e] above the horizon, the computed tilt is
    [e] in degrees, so a horizontal roof, whose normal points up, has tilt
    90 and a vertical wall has tilt 0; the computed azimuth is [b] in
    degrees, except that it is 0 when the horizontal part of the normal is
    shorter than 0.001. *)
Theorem roof_properties_recover_bearing_and_elevation :
  forall bearing elevation,
    0 <= bearing < 2 * PI ->
    - (PI / 2) <= elevation <= PI / 2 ->
    let p := roof_properties
               (surface_with_normal (unit_normal bearing elevation)) in
    tilt p = elevation * 180 / PI
    /\ (0.001 <= cos elevation -> azimuth p = bearing * 180 / PI)
    /\ (cos elevation < 0.001 -> azimuth p = 0).
Proof.
  intros bearing elevation Hb He p. subst p.
  pose proof PI_RGT_0 as HPI.
  assert (Hc : 0 <= cos elevation) by (apply cos_ge_0; lra).
  split; [|split].
  - rewrite tilt_of_unit_normal
      by (cbn [surface_with_normal geometry_normal];
          apply unit_normal_magnitude).
    cbn [surface_with_normal geometry_normal unit_normal vz].
    rewrite acos_asin by apply SIN_bound. rewrite asin_sin by exact He.
    field. lra.
  - intros Hm. unfold roof_properties.
    cbn [azimuth surface_with_normal geometry_normal unit_normal vx vy].
    pose proof (horizontal_magnitude bearing elevation Hc) as Hmag.
    destruct (Rlt_dec (magnitude
                         (mkVector3D (cos elevation * sin bearing)
                                     (cos elevation * cos bearing) 0)) 0.001)
      as [Hlt|_]; [rewrite Hmag in Hlt; lra|].
    rewrite azimuth_angle by (rewrite Hmag; lra). rewrite Hmag.
    replace (cos elevation * cos bearing / cos elevation) with (cos bearing)
      by (field; lra).
    rewrite (acos_cos_bearing bearing Hb).
    destruct (Rlt_dec (cos elevation * sin bearing) 0) as [Hx|Hx];
      destruct (Rlt_dec (sin bearing) 0) as [Hs|Hs];
      try reflexivity; try (exfalso; nra).
    field. lra.
  - intros Hm. unfold roof_properties.
    cbn [azimuth surface_with_normal geometry_normal unit_normal vx vy].
    rewrite (horizontal_magnitude bearing elevation Hc).
    destruct (Rlt_dec (cos elevation) 0.001); [reflexivity | lra].
Qed.

Lemma roof_properties_recover_bearing_and_elevation_witness :
  tilt (roof_properties (surface_with_normal (unit_normal PI 0)))
  = 0 * 180 / PI
  /\ (0.001 <= cos 0
      -> azimuth (roof_properties (surface_with_normal (unit_normal PI 0)))
         = PI * 180 / PI)
  /\ (cos 0 < 0.001
      -> azimuth (roof_properties (surface_with_normal (unit_normal PI 0)))
         = 0).
Proof.
  apply (roof_properties_recover_bearing_and_elevation PI 0);
    pose proof PI_RGT_0; lra.
Defined.

(** ** The loop over the hours *)

Lemma hour_step_cases (n : Vector3D) (k : Z) (w : R) (s : Sun) :
  hour_step n (k, w) s
  = if Rlt_dec 0 (altitude s) then
      if Rlt_dec (angle n (reverse (sun_vector s))) (PI / 2) then
        ((k + 1)%Z,
         w + cos (angle n (reverse (sun_vector s)))
             * sin (altitude_in_radians s))
      else (k, w)
    else (k, w).
Proof. reflexivity. Qed.

Lemma hour_loop_count (n : Vector3D) (suns : list Sun) (k : Z) (w : R) :
  let st := fold_left (hour_step n) suns (k, w) in
  (k <= fst st <= k + Z.of_nat (List.length suns))%Z.
Proof.
  revert k w; induction suns as [|s suns IH]; intros k w.
  - cbn. lia.
  - cbn [fold_left List.length]. rewrite hour_step_cases.
    destruct (Rlt_dec 0 (altitude s));
      [destruct (Rlt_dec (angle n (reverse (sun_vector s))) (PI / 2))|];
      match goal with
      | |- context [fold_left _ suns (?k', ?w')] =>
          specialize (IH k' w'); cbv zeta in IH |- *; lia
      end.
Qed.

Lemma radiation_factor_range (n : Vector3D) (s : Sun) :
  consistent_sun s -> 0 < altitude s ->
  angle n (reverse (sun_vector s)) < PI / 2 ->
  0 <= cos (angle n (reverse (sun_vector s))) * sin (altitude_in_radians s) <= 1.
Proof.
  intros [Hrad Hmax] Halt Hang. pose proof PI_RGT_0 as HPI.
  assert (Ha : 0 <= angle n (reverse (sun_vector s)))
    by (unfold angle; apply acos_bound).
  pose proof (cos_ge_0 (angle n (reverse (sun_vector s)))) as Hc0.
  pose proof (COS_bound (angle n (reverse (sun_vector s)))) as [_ Hc1].
  pose proof (SIN_bound (altitude_in_radians s)) as [_ Hs1].
  assert (Hs0 : 0 <= sin (altitude_in_radians s)).
  { rewrite Hrad. apply sin_ge_0; unfold Py.radians; nra. }
  assert (0 <= cos (angle n (reverse (sun_vector s)))) by (apply Hc0; lra).
  split; nra.
Qed.

Lemma hour_loop_weight (n : Vector3D) (suns : list Sun) (k : Z) (w : R) :
  Forall consistent_sun suns ->
  let st := fold_left (hour_step n) suns (k, w) in
  w <= snd st <= w + IZR (fst st - k).
Proof.
  intros Hc; revert k w; induction Hc as [|s suns Hs _ IH]; intros k w.
  - cbn. rewrite Z.sub_diag. lra.
  - cbn [fold_left]. rewrite hour_step_cases.
    destruct (Rlt_dec 0 (altitude s)) as [Halt|];
      [destruct (Rlt_dec (angle n (reverse (sun_vector s))) (PI / 2))
         as [Hang|]|];
      try (apply IH).
    pose proof (radiation_factor_range n s Hs Halt Hang) as Hf.
    match goal with
    | |- context [fold_left _ suns (?k', ?w')] =>
        specialize (IH k' w');
        pose proof (hour_loop_count n suns k' w') as Hk;
        cbv zeta in IH, Hk |- *;
        set (st := fold_left (hour_step n) suns (k', w')) in *
    end.
    replace (fst st - k)%Z with ((fst st - (k + 1)) + 1)%Z by lia.
    rewrite plus_IZR. lra.
Qed.

(** The record [analyze_solar_access] builds for a roof when there is at
    least one sample. *)
Lemma roof_access_result (suns : list Sun) (r : RoofProps) :
  suns <> [] ->
  let st := fold_left (hour_step (normal r)) suns (0%Z, 0) in
  roof_access suns r
  = Ok (mkRoofAccess r (fst st)
          (IZR (fst st) / INR (List.length suns) * 100) (snd st)).
Proof.
  intros Hs. unfold roof_access. cbv zeta.
  destruct (fold_left (hour_step (normal r)) suns (0%Z, 0)) as [k w].
  rewrite truediv_ok; [reflexivity|].
  apply not_0_INR. destruct suns; [congruence | discriminate].
Qed.

Lemma analyze_result (roof_props : list RoofProps) (suns : list Sun) :
  suns <> [] ->
  analyze_solar_access roof_props suns
  = Ok (map (fun r =>
               let st := fold_left (hour_step (normal r)) suns (0%Z, 0) in
               mkRoofAccess r (fst st)
                 (IZR (fst st) / INR (List.length suns) * 100) (snd st))
            roof_props).
Proof.
  intros Hs. unfold analyze_solar_access.
  induction roof_props as [|r rest IH]; [reflexivity|].
  cbn [for_each map]. rewrite (roof_access_result suns r Hs), IH. reflexivity.
Qed.

(** X20. With at least one sample [analyze_solar_access] does not fail and
    returns one record per roof, in the order of the roofs.  In every
    record the sunlit hours lie between 0 and the number of samples and the
    share of sunlit hours between 0 and 100 percent. *)
Theorem sun_hours_are_bounded_by_samples :
  forall roof_props suns,
    suns <> [] ->
    exists results,
      analyze_solar_access roof_props suns = Ok results
      /\ map props results = roof_props
      /\ Forall (fun a =>
                   (0 <= sun_hours a <= Z.of_nat (List.length suns))%Z
                   /\ 0 <= sun_access_percent a <= 100)
                results.
Proof.
  intros roof_props suns Hs.
  rewrite (analyze_result roof_props suns Hs).
  eexists. split; [reflexivity|]. split.
  - rewrite map_map. cbn [props]. apply map_id.
  - rewrite Forall_map. apply Forall_forall. intros r _.
    pose proof (hour_loop_count (normal r) suns 0 0) as Hk.
    cbv zeta in Hk |- *. cbn [sun_hours sun_access_percent].
    set (k := fst (fold_left (hour_step (normal r)) suns (0%Z, 0))) in *.
    assert (Hlen : 0 < INR (List.length suns)).
    { apply lt_0_INR. destruct suns; [congruence | cbn; lia]. }
    assert (Hk0 : 0 <= IZR k) by (apply IZR_le; lia).
    assert (Hk1 : IZR k <= INR (List.length suns)).
    { rewrite INR_IZR_INZ. apply IZR_le. lia. }
    split; [lia|].
    assert (0 <= IZR k / INR (List.length suns) <= 1).
    { split.
      - apply Rmult_le_pos; [lra | apply Rlt_le, Rinv_0_lt_compat; lra].
      - apply Rmult_le_reg_r with (INR (List.length suns)); [lra|].
        unfold Rdiv. rewrite Rmult_assoc, Rinv_l by lra. lra. }
    lra.
Qed.

Lemma sun_hours_are_bounded_by_samples_witness :
  exists results,
    analyze_solar_access [roof_properties south_wall]
      [mkSun 30 (Py.radians 30) (mkVector3D 0 1 (-1))] = Ok results
    /\ map props results = [roof_properties south_wall]
    /\ Forall (fun a =>
                 (0 <= sun_hours a
                  <= Z.of_nat (List.length
                                 [mkSun 30 (Py.radians 30)
                                        (mkVector3D 0 1 (-1))]))%Z
                 /\ 0 <= sun_access_percent a <= 100)
              results.
Proof.
  apply sun_hours_are_bounded_by_samples. discriminate.
Defined.

(** X21. When every sample is consistent (its altitude in radians is its
    altitude in degrees converted, and the altitude is at most 90), the
    weighted hours of every roof lie between 0 and its sunlit hours: every
    sunlit hour counts for at most one. *)
Theorem weighted_hours_discount_sun_hours :
  forall roof_props suns,
    suns <> [] ->
    Forall consistent_sun suns ->
    exists results,
      analyze_solar_access roof_props suns = Ok results
      /\ Forall (fun a => 0 <= weighted_hours a <= IZR (sun_hours a)) results.
Proof.
  intros roof_props suns Hs Hc.
  rewrite (analyze_result roof_props suns Hs).
  eexists. split; [reflexivity|].
  rewrite Forall_map. apply Forall_forall. intros r _.
  pose proof (hour_loop_weight (normal r) suns 0 0 Hc) as Hw.
  cbv zeta in Hw |- *. cbn [sun_hours weighted_hours].
  rewrite Z.sub_0_r in Hw. lra.
Qed.

Lemma weighted_hours_discount_sun_hours_witness :
  exists results,
    analyze_solar_access [roof_properties south_wall]
      [mkSun 30 (Py.radians 30) (mkVector3D 0 1 (-1))] = Ok results
    /\ Forall (fun a => 0 <= weighted_hours a <= IZR (sun_hours a)) results.
Proof.
  apply weighted_hours_discount_sun_hours.
  - discriminate.
  - constructor; [|constructor]. unfold consistent_sun. cbn. split; [reflexivity | lra].
Defined.

(** ** The ranking *)

Lemma insert_desc_sorted {A : Type} (key : A -> R) (x : A) (l : list A) :
  StronglySorted (fun a b => key b <= key a) l ->
  StronglySorted (fun a b => key b <= key a) (insert_desc key x l).
Proof.
  induction 1 as [|y l Hl IH Hy]; cbn [insert_desc].
  - constructor; constructor.
  - destruct (Rle_dec (key y) (key x)) as [Hle|Hgt].
    + constructor; [constructor; assumption|].
      constructor; [exact Hle|].
      eapply Forall_impl; [|exact Hy]. intros a Ha. cbv beta in *. lra.
    + constructor; [exact IH|].
      eapply Permutation_Forall;
        [apply Permutation_sym, insert_desc_perm|].
      constructor; [lra | exact Hy].
Qed.

Lemma sort_desc_sorted {A : Type} (key : A -> R) (l : list A) :
  StronglySorted (fun a b => key b <= key a) (sort_desc key l).
Proof.
  induction l as [|x l IH]; cbn [sort_desc fold_right].
  - constructor.
  - apply insert_desc_sorted. exact IH.
Qed.

Lemma insert_desc_filter {A : Type} (key : A -> R) (c : R) (x : A)
    (l : list A) :
  filter (fun a => if Req_dec_T (key a) c then true else false)
         (insert_desc key x l)
  = filter (fun a => if Req_dec_T (key a) c then true else false) (x :: l).
Proof.
  induction l as [|y l IH]; [reflexivity|].
  cbn [insert_desc]. destruct (Rle_dec (key y) (key x)) as [Hle|Hgt];
    [reflexivity|].
  cbn [filter] in IH |- *. rewrite IH.
  destruct (Req_dec_T (key y) c); destruct (Req_dec_T (key x) c);
    try reflexivity.
  exfalso. lra.
Qed.

Lemma sort_desc_filter {A : Type} (key : A -> R) (c : R) (l : list A) :
  filter (fun a => if Req_dec_T (key a) c then true else false)
         (sort_desc key l)
  = filter (fun a => if Req_dec_T (key a) c then true else false) l.
Proof.
  induction l as [|x l IH]; [reflexivity|].
  cbn [sort_desc fold_right]. rewrite insert_desc_filter.
  fold (sort_desc key l). cbn [filter]. rewrite IH. reflexivity.
Qed.

(** The output of [calculate_solar_potential] is the sorted list of the
    records computed in the order of the batch. *)
Lemma potential_sorted_form (batch : list RoofAccess) :
  exists min_w max_w,
    Forall (fun r => min_w <= weighted_hours r <= max_w) batch
    /\ (batch = [] \/
        (In min_w (map weighted_hours batch)
         /\ In max_w (map weighted_hours batch)))
    /\ calculate_solar_potential batch
       = Ok (sort_desc suitability
               (map (roof_potential min_w (Rmax (max_w - min_w) 0.001))
                    batch)).
Proof.
  destruct batch as [|r rest].
  - exists 0, 0. split; [constructor|]. split; [left|]; reflexivity.
  - set (ws := map weighted_hours rest).
    destruct (fold_Rmin_spec ws (weighted_hours r)) as [Hmin_in Hmin].
    destruct (fold_Rmax_spec ws (weighted_hours r)) as [Hmax_in Hmax].
    exists (fold_left Rmin ws (weighted_hours r)),
           (fold_left Rmax ws (weighted_hours r)).
    split; [|split; [right; split; assumption | apply potential_result]].
    change (weighted_hours r :: ws) with (map weighted_hours (r :: rest))
      in Hmin, Hmax.
    rewrite Forall_map in Hmin, Hmax.
    rewrite Forall_forall in *. intros x Hx. split; auto.
Qed.

(** X22. [calculate_solar_potential] ranks the records by descending
    suitability, and records of equal suitability keep the order their
    roofs had in the batch. *)
Theorem ranking_is_descending_and_stable :
  forall batch : list RoofAccess,
  exists scores in_batch_order,
    calculate_solar_potential batch = Ok scores
    /\ map access in_batch_order = batch
    /\ Permutation scores in_batch_order
    /\ StronglySorted (fun a b => suitability b <= suitability a) scores
    /\ (forall c,
           filter (fun s => if Req_dec_T (suitability s) c then true else false)
                  scores
           = filter (fun s => if Req_dec_T (suitability s) c then true
                              else false)
                    in_batch_order).
Proof.
  intros batch.
  destruct (potential_sorted_form batch) as (min_w & max_w & _ & _ & Hres).
  do 2 eexists. split; [exact Hres|].
  split; [apply access_roof_potential|].
  split; [apply sort_desc_perm|].
  split; [apply sort_desc_sorted | intros c; apply sort_desc_filter].
Qed.

(** X23. The exposure factor is relative to the batch: the roof with the
    fewest weighted hours gets exposure 0, so its suitability is the tilt
    and azimuth part alone; when the weighted hours of the batch differ by
    at least 0.001, the roof with the most gets exposure 1.  When all the
    roofs of a batch tie -- a batch of one roof always does -- no
    suitability exceeds 0.5, however sunny the roofs are. *)
Theorem exposure_is_relative_to_the_batch :
  forall batch : list RoofAccess,
  exists scores min_w max_w,
    calculate_solar_potential batch = Ok scores
    /\ Forall (fun r => min_w <= weighted_hours r <= max_w) batch
    /\ (batch = [] \/
        (In min_w (map weighted_hours batch)
         /\ In max_w (map weighted_hours batch)))
    /\ Forall
         (fun s =>
            let base := 0.25 * tilt_factor (tilt (props (access s)))
                        + 0.25 * azimuth_factor (azimuth (props (access s))) in
            (weighted_hours (access s) = min_w -> suitability s = base)
            /\ (0.001 <= max_w - min_w ->
                weighted_hours (access s) = max_w ->
                suitability s = base + 0.5)
            /\ (max_w = min_w -> suitability s <= 0.5))
         scores
    /\ (List.length batch = 1%nat -> max_w = min_w).
Proof.
  intros batch.
  destruct (potential_sorted_form batch) as (min_w & max_w & Hr & Hin & Hres).
  exists (sort_desc suitability
            (map (roof_potential min_w (Rmax (max_w - min_w) 0.001)) batch)),
         min_w, max_w.
  split; [exact Hres|]. split; [exact Hr|]. split; [exact Hin|]. split.
  - eapply Permutation_Forall; [apply Permutation_sym, sort_desc_perm|].
    rewrite Forall_map. apply Forall_forall. intros r Hrin.
    cbn [access suitability roof_potential]. cbv zeta.
    pose proof (tilt_factor_range (tilt (props r))) as Ht.
    pose proof (azimuth_factor_range (azimuth (props r))) as Ha.
    unfold weighted_factor. split; [|split].
    + intros ->. unfold Rdiv. rewrite Rminus_diag, Rmult_0_l. lra.
    + intros Hd ->. rewrite Rmax_left by lra.
      replace ((max_w - min_w) / (max_w - min_w)) with 1 by (field; lra). lra.
    + intros ->. rewrite Forall_forall in Hr.
      assert (Hw : weighted_hours r = min_w)
        by (specialize (Hr r Hrin); lra).
      rewrite Hw. unfold Rdiv. rewrite Rminus_diag, Rmult_0_l. lra.
  - intros Hlen. destruct batch as [|r [|r2 rest]]; try discriminate.
    destruct Hin as [? | [Hmin Hmax]]; [discriminate|].
    cbn in Hmin, Hmax. destruct Hmin as [<-|[]], Hmax as [<-|[]]. reflexivity.
Qed.

Lemma scored_record_range (min_w max_w : R) (r : RoofAccess) :
  min_w <= weighted_hours r <= max_w ->
  0 <= suitability (roof_potential min_w (Rmax (max_w - min_w) 0.001) r) <= 1.
Proof.
  intros Hw. cbn [suitability roof_potential].
  pose proof (tilt_factor_range (tilt (props r))).
  pose proof (azimuth_factor_range (azimuth (props r))).
  pose proof (weighted_factor_range _ _ _ Hw).
  lra.
Qed.


(** X25. In every record the annual insolation is [1050 * suitability] and
    the energy production [210 * suitability * area]; for a roof of
    non-negative area the production lies between 0 and [210 * area]. *)
Theorem energy_production_is_bounded_by_area :
  forall batch : list RoofAccess,
  exists scores,
    calculate_solar_potential batch = Ok scores
    /\ Forall
         (fun s =>
            let a := area (props (access s)) in
            annual_insolation s = 1050 * suitability s
            /\ energy_production s = 210 * suitability s * a
            /\ (0 <= a -> 0 <= energy_production s <= 210 * a))
         scores.
Proof.
  intros batch.
  destruct (scored_batch batch)
    as (scores & min_w & max_w & Hok & Hperm & _ & Hrange & Hall).
  exists scores. split; [exact Hok|].
  assert (Hrange' : Forall (fun r => min_w <= weighted_hours r <= max_w)
                      (map access scores)).
  { eapply Permutation_Forall; [apply Permutation_sym, Hperm | exact Hrange]. }
  rewrite Forall_map in Hrange'.
  rewrite Forall_forall in *. intros s Hs. cbv zeta.
  pose proof (scored_record_range min_w max_w (access s) (Hrange' s Hs)) as Hr.
  rewrite (Hall s Hs).
  cbn [annual_insolation energy_production suitability roof_potential access]
    in Hr |- *.
  split; [reflexivity|]. split; [lra|]. intros Ha. split; nra.
Qed.

(** * [find_top_faces] *)

Lemma top_z_of_face (f : TopFaces.HBFace) :
  TopFaces.face_vertices f <> [] -> TopFaces.top_z f = Ok (face_top f).
Proof.
  intros Hv. unfold TopFaces.top_z, face_top.
  destruct (TopFaces.face_vertices f); [congruence | reflexivity].
Qed.

Lemma keyed_faces (faces : list TopFaces.HBFace) :
  Forall (fun f => TopFaces.face_vertices f <> []) faces ->
  for_each (fun f => z <- TopFaces.top_z f ;; Ok (z, f)) faces
  = Ok (map (fun f => (face_top f, f)) faces).
Proof.
  induction 1 as [|f faces Hf _ IH]; [reflexivity|].
  cbn [for_each map]. rewrite (top_z_of_face f Hf). cbn [Py.bind].
  rewrite IH. reflexivity.
Qed.

Lemma sorted_head_is_max {A : Type} (key : A -> R) (x : A) (l sorted : list A) :
  sort_desc key l = x :: sorted ->
  In x l /\ Forall (fun a => key a <= key x) l.
Proof.
  intros Hs. pose proof (sort_desc_sorted key l) as Hsorted.
  pose proof (sort_desc_perm key l) as Hperm. rewrite Hs in Hsorted, Hperm.
  split.
  - eapply Permutation_in; [exact Hperm | left; reflexivity].
  - eapply Permutation_Forall; [exact Hperm|].
    apply StronglySorted_inv in Hsorted. destruct Hsorted as [_ Hall].
    constructor; [lra | exact Hall].
Qed.

Lemma keyed_faces_raise (faces : list TopFaces.HBFace) :
  Exists (fun f => TopFaces.face_vertices f = []) faces ->
  for_each (fun f => z <- TopFaces.top_z f ;; Ok (z, f)) faces
  = Raise ValueError.
Proof.
  induction faces as [|f faces IH]; intros Hex.
  - inversion Hex.
  - cbn [for_each]. unfold TopFaces.top_z at 1.
    destruct (TopFaces.face_vertices f) as [|v vs] eqn:Hv; [reflexivity|].
    cbn [map Py.max Py.bind].
    rewrite IH; [reflexivity|].
    inversion Hex as [? ? H0|? ? H0]; subst; [congruence | exact H0].
Qed.

(** X26. [find_top_faces] returns no face for a room without faces and
    raises [ValueError] when some face has no vertex.  When every face has
    vertices, it returns exactly the faces whose highest point lies less
    than 0.1 below the highest point of the room, whatever their type: the
    test against ['Floor'] compares a type object with a string and
    excludes nothing, so a floor that high is returned too. *)
Theorem top_faces_are_the_highest_faces_of_any_type :
  TopFaces.find_top_faces [] = Ok []
  /\ (forall room_faces,
         Exists (fun f => TopFaces.face_vertices f = []) room_faces ->
         TopFaces.find_top_faces room_faces = Raise ValueError)
  /\ (forall room_faces,
         Forall (fun f => TopFaces.face_vertices f <> []) room_faces ->
         exists top_faces max_z,
           TopFaces.find_top_faces room_faces = Ok top_faces
           /\ Forall (fun g => face_top g <= max_z) room_faces
           /\ (room_faces = [] \/
               exists g, In g room_faces /\ face_top g = max_z)
           /\ (forall f,
                  In f top_faces
                  <-> (In f room_faces /\ max_z - face_top f < 0.1))
           /\ (forall f,
                  In f room_faces ->
                  TopFaces.face_type f = TopFaces.Floor ->
                  max_z - face_top f < 0.1 ->
                  In f top_faces)).
Proof.
  split; [reflexivity|]. split.
  - intros room_faces Hex. unfold TopFaces.find_top_faces.
    rewrite (keyed_faces_raise room_faces Hex). reflexivity.
  - intros room_faces Hv. unfold TopFaces.find_top_faces.
    rewrite (keyed_faces room_faces Hv). cbn [Py.bind].
    destruct (sort_desc fst (map (fun f => (face_top f, f)) room_faces))
      as [|[max_z top] sorted] eqn:Hs.
    + exists [], 0.
      assert (Hnil : room_faces = []).
      { pose proof (sort_desc_perm fst
                      (map (fun f => (face_top f, f)) room_faces)) as Hp.
        rewrite Hs in Hp. apply Permutation_nil in Hp.
        destruct room_faces; [reflexivity | discriminate]. }
      subst room_faces. split; [reflexivity|]. split; [constructor|].
      split; [left; reflexivity|]. split; intros f; cbn; tauto.
    + destruct (sorted_head_is_max _ _ _ _ Hs) as [Hin Hmax].
      apply in_map_iff in Hin. destruct Hin as [g [Hg Hgin]].
      injection Hg as Hgz Hgt.
      rewrite Forall_map in Hmax. cbn [fst] in Hmax.
      eexists; exists max_z. split; [reflexivity|].
      split; [exact Hmax|]. split; [right; exists g; split; assumption|].
      rewrite Forall_forall in Hmax.
      assert (Hiff : forall f,
                In f (map snd
                        (filter
                           (fun zf =>
                              if Rlt_dec (Rabs (fst zf - max_z)) 0.1
                              then TopFaces.type_ne_str
                                     (TopFaces.face_type (snd zf)) "Floor"
                              else false)
                           ((max_z, top) :: sorted)))
                <-> (In f room_faces /\ max_z - face_top f < 0.1)).
      { intros f. rewrite in_map_iff. split.
        * intros [[z f'] [Hf Hfin]]. cbn [snd] in Hf. subst f'.
          apply filter_In in Hfin. destruct Hfin as [Hfin Hp].
          rewrite <- Hs in Hfin.
          apply (Permutation_in _ (sort_desc_perm fst _)) in Hfin.
          apply in_map_iff in Hfin. destruct Hfin as [f0 [Hf0 Hf0in]].
          injection Hf0 as Hz ->. subst z. cbn [fst snd] in Hp.
          destruct (Rlt_dec (Rabs (face_top f - max_z)) 0.1) as [Habs|];
            [|discriminate].
          split; [exact Hf0in|].
          pose proof (Hmax f Hf0in) as Hle.
          rewrite Rabs_left1 in Habs by lra. lra.
        * intros (Hfin & Hclose).
          exists (face_top f, f). split; [reflexivity|].
          apply filter_In. split.
          -- rewrite <- Hs.
             apply (Permutation_in _ (Permutation_sym (sort_desc_perm fst _))).
             apply in_map_iff. exists f. split; [reflexivity | exact Hfin].
          -- cbn [fst snd]. pose proof (Hmax f Hfin) as Hle.
             destruct (Rlt_dec (Rabs (face_top f - max_z)) 0.1) as [|Hn].
             ++ reflexivity.
             ++ exfalso. apply Hn. rewrite Rabs_left1 by lra. lra. }
      split; [exact Hiff|].
      intros f Hfin _ Hclose. apply Hiff. split; assumption.
Qed.

Lemma top_faces_are_the_highest_faces_of_any_type_witness :
  exists top_faces max_z,
    TopFaces.find_top_faces
      [ TopFaces.mkHBFace "floor" TopFaces.Floor [mkPoint3D 0 0 0];
        TopFaces.mkHBFace "roof" TopFaces.RoofCeiling [mkPoint3D 0 0 3] ]
    = Ok top_faces
    /\ Forall (fun g => face_top g <= max_z)
         [ TopFaces.mkHBFace "floor" TopFaces.Floor [mkPoint3D 0 0 0];
           TopFaces.mkHBFace "roof" TopFaces.RoofCeiling [mkPoint3D 0 0 3] ]
    /\ ([ TopFaces.mkHBFace "floor" TopFaces.Floor [mkPoint3D 0 0 0];
          TopFaces.mkHBFace "roof" TopFaces.RoofCeiling [mkPoint3D 0 0 3] ]
        = []
        \/ exists g,
             In g [ TopFaces.mkHBFace "floor" TopFaces.Floor [mkPoint3D 0 0 0];
                    TopFaces.mkHBFace "roof" TopFaces.RoofCeiling
                      [mkPoint3D 0 0 3] ]
             /\ face_top g = max_z)
    /\ (forall f,
           In f top_faces
           <-> (In f [ TopFaces.mkHBFace "floor" TopFaces.Floor
                         [mkPoint3D 0 0 0];
                       TopFaces.mkHBFace "roof" TopFaces.RoofCeiling
                         [mkPoint3D 0 0 3] ]
                /\ max_z - face_top f < 0.1))
    /\ (forall f,
           In f [ TopFaces.mkHBFace "floor" TopFaces.Floor [mkPoint3D 0 0 0];
                  TopFaces.mkHBFace "roof" TopFaces.RoofCeiling
                    [mkPoint3D 0 0 3] ] ->
           TopFaces.face_type f = TopFaces.Floor ->
           max_z - face_top f < 0.1 ->
           In f top_faces).
Proof.
  apply (proj2 (proj2 top_faces_are_the_highest_faces_of_any_type)).
  repeat (constructor; [discriminate|]). constructor.
Defined.

(** * Hip and sawtooth roofs, and the whole analysis *)

(** X27. On every footprint and for every slope angle the hip generator
    returns four triangles around one apex above the centre of the bounding
    box, each on one side of the box.  The apex lies at
    [height + max(roof_height, min(width, depth) / 2 * tan(slope_angle))],
    never below [height + roof_height]. *)
Theorem hip_roof_has_four_triangles_around_apex :
  forall fp min_x max_x min_y max_y height roof_height slope_angle,
    bounds fp = Ok (min_x, max_x, min_y, max_y) ->
    exists c0 c1 c2 c3 apex,
      create_hip_roof fp height roof_height slope_angle
      = Ok [ mkFace3D [c0; c1; apex]; mkFace3D [c1; c2; apex];
             mkFace3D [c2; c3; apex]; mkFace3D [c3; c0; apex] ]
      /\ [c0; c1; c2; c3]
         = [ mkPoint3D min_x min_y height; mkPoint3D max_x min_y height;
             mkPoint3D max_x max_y height; mkPoint3D min_x max_y height ]
      /\ px apex = (min_x + max_x) / 2
      /\ py apex = (min_y + max_y) / 2
      /\ pz apex
         = height + Rmax roof_height
                      (Rmin (max_x - min_x) (max_y - min_y) / 2
                       * tan (Py.radians slope_angle))
      /\ height + roof_height <= pz apex.
Proof.
  intros fp min_x max_x min_y max_y height roof_height slope_angle Hb.
  rewrite (hip_faces _ _ _ _ _ _ _ _ Hb). cbv zeta.
  do 5 eexists. split; [reflexivity|]. cbn [px py pz].
  repeat split; try reflexivity.
  pose proof (Rmax_l roof_height
                (Rmin (max_x - min_x) (max_y - min_y) / 2
                 * tan (Py.radians slope_angle))). lra.
Qed.

Lemma hip_roof_has_four_triangles_around_apex_witness :
  exists c0 c1 c2 c3 apex,
    create_hip_roof square10 10 3.5 30
    = Ok [ mkFace3D [c0; c1; apex]; mkFace3D [c1; c2; apex];
           mkFace3D [c2; c3; apex]; mkFace3D [c3; c0; apex] ]
    /\ [c0; c1; c2; c3]
       = [ mkPoint3D 0 0 10; mkPoint3D 10 0 10;
           mkPoint3D 10 10 10; mkPoint3D 0 10 10 ]
    /\ px apex = (0 + 10) / 2
    /\ py apex = (0 + 10) / 2
    /\ pz apex
       = 10 + Rmax 3.5 (Rmin (10 - 0) (10 - 0) / 2 * tan (Py.radians 30))
    /\ 10 + 3.5 <= pz apex.
Proof.
  apply (hip_roof_has_four_triangles_around_apex square10 0 10 0 10 10 3.5 30).
  exact bounds_square10.
Defined.

(** X28. For a section width other than 0 the sawtooth generator returns
    [max(2, floor(width / section_width))] sections of four vertices that
    tile the footprint along x: the first starts at [min_x], every section
    but the last is followed by one that starts where it ends, and the last
    ends at [max_x].  Sections of even index have one raised corner and
    those of odd index two, all raised by [roof_height]. *)
Theorem sawtooth_sections_tile_the_footprint :
  forall fp min_x max_x min_y max_y height section_width roof_height slope_angle,
    bounds fp = Ok (min_x, max_x, min_y, max_y) ->
    section_width <> 0 ->
    let count :=
      Z.to_nat (Z.max 2 (Int_part ((max_x - min_x) / section_width))) in
    exists faces,
      create_sawtooth_roof fp height section_width roof_height slope_angle
      = Ok faces
      /\ List.length faces = count
      /\ forall i,
           (i < count)%nat ->
           exists a b c d,
             nth_error faces i = Some (mkFace3D [a; b; c; d])
             /\ (i = 0%nat -> px a = min_x /\ px d = min_x)
             /\ (S i = count -> px b = max_x /\ px c = max_x)
             /\ ((S i < count)%nat ->
                 exists a' b' c' d',
                   nth_error faces (S i) = Some (mkFace3D [a'; b'; c'; d'])
                   /\ px a' = px b /\ px d' = px c)
             /\ px a = px d /\ px b = px c
             /\ pz b = height /\ pz c = height
             /\ pz d = height + roof_height
             /\ pz a = if Nat.even i then height else height + roof_height.
Proof.
  intros fp min_x max_x min_y max_y height section_width roof_height
         slope_angle Hb Hsw count.
  rewrite (sawtooth_result _ _ _ _ _ _ _ _ _ Hb Hsw). cbv zeta.
  set (n := Z.max 2 (Int_part ((max_x - min_x) / section_width))) in *.
  assert (Hn : (2 <= n)%Z) by (subst n; lia).
  assert (HnR : 2 <= IZR n) by (apply IZR_le in Hn; exact Hn).
  set (sw := (max_x - min_x) / IZR n).
  eexists. split; [reflexivity|].
  unfold Py.range. fold count.
  split; [rewrite length_map, length_seq; reflexivity|].
  assert (Hface : forall i,
            exists a b c d,
              sawtooth_face min_x min_y max_y height sw roof_height i
              = mkFace3D [a; b; c; d]
              /\ px a = min_x + INR i * sw /\ px d = min_x + INR i * sw
              /\ px b = min_x + (INR i + 1) * sw
              /\ px c = min_x + (INR i + 1) * sw
              /\ pz b = height /\ pz c = height
              /\ pz d = height + roof_height
              /\ pz a = if Nat.even i then height else height + roof_height).
  { intros i. unfold sawtooth_face.
    destruct (Nat.even i) eqn:He.
    - assert (Hm : Nat.eqb (i mod 2) 0 = true).
      { apply Nat.eqb_eq. apply Nat.even_spec in He.
        destruct He as [k ->]. rewrite Nat.mul_comm. apply Nat.Div0.mod_mul. }
      rewrite Hm. do 4 eexists. split; [reflexivity|]. cbn [px pz].
      repeat split; reflexivity.
    - assert (Hm : Nat.eqb (i mod 2) 0 = false).
      { apply Nat.eqb_neq. intros Hz.
        assert (Nat.even i = true); [|congruence].
        apply Nat.even_spec. exists (i / 2)%nat.
        pose proof (Nat.div_mod_eq i 2). lia. }
      rewrite Hm. do 4 eexists. split; [reflexivity|]. cbn [px pz].
      repeat split; reflexivity. }
  intros i Hi.
  rewrite nth_error_map_seq_lt by exact Hi.
  destruct (Hface i)
    as (a & b & c & d & -> & Ha & Hd & Hb1 & Hc1 & Hzb & Hzc & Hzd & Hza).
  exists a, b, c, d. split; [reflexivity|].
  split; [|split; [|split]].
  - intros ->. rewrite Ha, Hd. cbn [INR]. lra.
  - intros Hlast. rewrite Hb1, Hc1.
    assert (Hk : INR i + 1 = IZR n).
    { rewrite <- S_INR, Hlast. unfold count.
      rewrite INR_IZR_INZ, Z2Nat.id by lia. reflexivity. }
    rewrite Hk. unfold sw. split; field; lra.
  - intros Hnext. rewrite nth_error_map_seq_lt by exact Hnext.
    destruct (Hface (S i))
      as (a' & b' & c' & d' & -> & Ha' & Hd' & _).
    exists a', b', c', d'. split; [reflexivity|].
    rewrite Ha', Hd', Hb1, Hc1, S_INR. split; reflexivity.
  - rewrite Ha, Hd, Hb1, Hc1. repeat split; assumption.
Qed.

Lemma sawtooth_sections_tile_the_footprint_witness :
  exists faces,
    create_sawtooth_roof square10 10 4 2.5 25 = Ok faces
    /\ List.length faces = Z.to_nat (Z.max 2 (Int_part ((10 - 0) / 4)))
    /\ forall i,
         (i < Z.to_nat (Z.max 2 (Int_part ((10 - 0) / 4))))%nat ->
         exists a b c d,
           nth_error faces i = Some (mkFace3D [a; b; c; d])
           /\ (i = 0%nat -> px a = 0 /\ px d = 0)
           /\ (S i = Z.to_nat (Z.max 2 (Int_part ((10 - 0) / 4))) ->
               px b = 10 /\ px c = 10)
           /\ ((S i < Z.to_nat (Z.max 2 (Int_part ((10 - 0) / 4))))%nat ->
               exists a' b' c' d',
                 nth_error faces (S i) = Some (mkFace3D [a'; b'; c'; d'])
                 /\ px a' = px b /\ px d' = px c)
           /\ px a = px d /\ px b = px c
           /\ pz b = 10 /\ pz c = 10
           /\ pz d = 10 + 2.5
           /\ pz a = if Nat.even i then 10 else 10 + 2.5.
Proof.
  apply (sawtooth_sections_tile_the_footprint square10 0 10 0 10 10 4 2.5 25).
  - exact bounds_square10.
  - lra.
Defined.

(** X29. Steps 5 and 6 of [main] never fail, whatever the samples are: for
    every list of roofs and every list of samples, empty or not, they return
    one record per roof, ranked by descending suitability, every
    suitability in [0, 1]. *)
Theorem main_analysis_always_ranks_every_roof :
  forall roof_props suns,
  exists scores,
    main_analysis roof_props suns = Ok scores
    /\ Permutation (map (fun s => props (access s)) scores) roof_props
    /\ StronglySorted (fun a b => suitability b <= suitability a) scores
    /\ Forall (fun s => 0 <= suitability s <= 1) scores.
Proof.
  intros roof_props suns.
  assert (Hbatch : exists batch,
             main_analysis roof_props suns = calculate_solar_potential batch
             /\ map props batch = roof_props).
  { destruct suns as [|s suns].
    - exists (map zero_access roof_props).
      split; [apply main_analysis_no_samples|].
      rewrite map_map. apply map_id.
    - unfold main_analysis.
      rewrite (analyze_result roof_props (s :: suns)) by discriminate.
      eexists. split; [reflexivity|].
      rewrite map_map. apply map_id. }
  destruct Hbatch as [batch [-> Hprops]].
  destruct (potential_sorted_form batch) as (min_w & max_w & Hr & _ & Hres).
  eexists. split; [exact Hres|]. split; [|split].
  - rewrite <- (map_map access props).
    eapply perm_trans;
      [apply Permutation_map, Permutation_map, sort_desc_perm|].
    rewrite access_roof_potential, Hprops. apply Permutation_refl.
  - apply sort_desc_sorted.
  - eapply Permutation_Forall; [apply Permutation_sym, sort_desc_perm|].
    rewrite Forall_map. rewrite Forall_forall in *. intros r Hin.
    apply scored_record_range. apply Hr. exact Hin.
Qed.
